(** * ENSO Foundation report: rolling volumes, vesting projection, holdings

    A shallow embedding of the arithmetic core of [report_dashboard.py]
    (the Streamlit dashboard) and [telegram_report.py] (the digest bot),
    and the properties of it that the specification states.

    Conventions of the embedding.
    - Python [int] is [Z].
    - Python [float] has two readings.  In the module [Binary64] a
      float is an IEEE 754 binary64 number with correctly rounded
      operations; the projector and the normalizer are modelled there,
      for the properties that turn on the very value a float computation
      returns.  Everywhere else a float is an exact rational [Q]: the
      order of every addition and multiplication is the source's, the
      rounding error of binary64 is left out, and numeric results are
      compared with [==] ([Qeq]); what is proved on this reading is
      about structure, order and sign, or says that it reads the amounts
      as exact rationals.
    - pandas adds a column of integers in 64-bit integers; the
      properties of the rewards projection are stated for stake weights
      that are not negative and sum to less than 2^63.
    - A position id is encoded in 32 bytes; the properties of the
      rewards call are stated for ids in 0 .. 2^256 - 1.
    - The wall clock ([datetime.now]) is an explicit argument: [now_ts]
      for a POSIX timestamp, [today] for a UTC calendar date.
    - Every HTTP reply and the optional CSV file are fields of an explicit
      read-only environment; a failed call is [None], as [safe_get] and
      [safe_post] return it.
    - [time.sleep] pacing has no effect on any value and is left out. *)

From Stdlib Require Import String Ascii ZArith QArith Qround Qminmax Qabs List Bool.
From Stdlib Require Import Permutation Sorted Lia Lqa DecimalString DecimalN.
From Stdlib Require Import SpecFloat.
Import ListNotations.

Open Scope Z_scope.

(** ** Python built-ins used by both scripts *)
Module Py.

(** [x < y] on floats. *)
Definition Qltb (x y : Q) : bool := negb (Qle_bool y x).

(** [sum(xs)]: start at the integer 0 and add from the left. *)
Definition sum (xs : list Q) : Q := fold_left Qplus xs 0%Q.

(** [max(0, x)]: the first argument wins unless the second is
    strictly greater. *)
Definition max0 (x : Q) : Q := if Qltb 0 x then x else 0%Q.

(** [a / b], true division; [None] stands for [ZeroDivisionError]. *)
Definition truediv (a b : Q) : option Q :=
  if Qeq_bool b 0 then None else Some (a / b)%Q.

(** [round(x)] with one argument: nearest integer, ties to even. *)
Definition round (x : Q) : Z :=
  let f := Qfloor x in
  let r := (x - inject_Z f)%Q in
  if Qltb r (1 # 2) then f
  else if Qltb (1 # 2) r then f + 1
  else if Z.even f then f else f + 1.

(** Index normalisation of a slice bound for a list of length [len]. *)
Definition slice_index (len i : Z) : Z :=
  if i <? 0 then Z.max 0 (len + i) else Z.min i len.

(** [l[start:stop]] with optional bounds and step 1. *)
Definition slice {A : Type} (l : list A) (start stop : option Z) : list A :=
  let len := Z.of_nat (length l) in
  let lo := match start with None => 0 | Some i => slice_index len i end in
  let hi := match stop with None => len | Some j => slice_index len j end in
  firstn (Z.to_nat (hi - lo)) (skipn (Z.to_nat lo) l).

(** [c.lower()] on an ASCII character. *)
Definition lower_ascii (c : ascii) : ascii :=
  let n := nat_of_ascii c in
  if ((65 <=? n) && (n <=? 90))%nat then ascii_of_nat (n + 32) else c.

(** [s.lower()]. *)
Fixpoint lower (s : string) : string :=
  match s with
  | EmptyString => EmptyString
  | String c rest => String (lower_ascii c) (lower rest)
  end.

(** [datetime.date]: compared as the triple (year, month, day). *)
Record date : Type := mkdate { year : Z; month : Z; day : Z }.

Definition date_ltb (a b : date) : bool :=
  (year a <? year b)
  || ((year a =? year b)
      && ((month a <? month b)
          || ((month a =? month b) && (day a <? day b)))).

(** [a <= b] and [a >= b] on dates. *)
Definition date_leb (a b : date) : bool := negb (date_ltb b a).
Definition date_geb (a b : date) : bool := negb (date_ltb a b).

Definition date_eqb (a b : date) : bool :=
  (year a =? year b) && (month a =? month b) && (day a =? day b).

(** Option as the error monad of the fallible steps. *)
Definition bind {A B : Type} (m : option A) (k : A -> option B) : option B :=
  match m with
  | None => None
  | Some a => k a
  end.

End Py.

Notation "x <- m ;; k" := (Py.bind m (fun x => k))
(at level 61, m at next level, right associativity).

(** ** Reads that both scripts define alike

  [get_token_balance], [get_bsc_token_balance] and [get_vesting_info]
  have the same body in the two files (the dashboard passes the
  Etherscan key as an argument, the bot reads it from a global; the key
  only travels in the request). *)
Module Chain.

Definition DECIMALS : Z := 18.

(** [n / 10**DECIMALS] for an integer [n] of base units. *)
Definition to_tokens (n : Z) : Q := (inject_Z n / inject_Z (10 ^ DECIMALS))%Q.

(** What the three endpoints answer for an address.
    - [etherscan_tokenbalance a = Some n]: the reply has status "1" and
      its result is the decimal integer [n], as Etherscan sends it with
      that status; [None]: no reply, or any other status.
    - [etherscan_claimable a = Some n]: the reply of the call with
      selector 0xfbccedae has a result that mentions none of "invalid",
      "error", "revert" and parses as the hexadecimal integer [n];
      [None]: every other case (the source keeps 0.0 in all of them).
    - [bsc_balance_of a = Some n]: the BSC node's result is not "0x" and
      parses as the hexadecimal integer [n]; [None]: every other case. *)
Record Replies : Type := mkReplies {
  etherscan_tokenbalance : string -> option Z;
  etherscan_claimable : string -> option Z;
  bsc_balance_of : string -> option Z
}.

Definition get_token_balance (net : Replies) (wallet : string) : Q :=
  match etherscan_tokenbalance net wallet with
  | Some n => to_tokens n
  | None => 0%Q
  end.

Definition get_bsc_token_balance (net : Replies) (wallet : string) : Q :=
  match bsc_balance_of net wallet with
  | Some n => to_tokens n
  | None => 0%Q
  end.

Record VestingInfo : Type := mkVestingInfo {
  vi_balance : Q;
  vi_vested_unclaimed : Q;
  vi_locked : Q
}.

Definition get_vesting_info (net : Replies) (contract : string) : VestingInfo :=
  let balance := get_token_balance net contract in
  let vested_unclaimed :=
    match etherscan_claimable net contract with
    | Some n => to_tokens n
    | None => 0%Q
    end in
  let locked := Py.max0 (balance - vested_unclaimed) in
  mkVestingInfo balance vested_unclaimed locked.

(** The accumulator [results] of [load_holdings]. *)
Record Results (Position : Type) : Type := mkResults {
  liquid : Q;
  liquid_bsc : Q;
  vested_unclaimed : Q;
  locked_vesting : Q;
  staked_total : Q;
  staked_expired : Q;
  staked_locked : Q;
  rewards : Q;
  positions : list Position
}.

Arguments mkResults {Position}.
Arguments liquid {Position}.
Arguments liquid_bsc {Position}.
Arguments vested_unclaimed {Position}.
Arguments locked_vesting {Position}.
Arguments staked_total {Position}.
Arguments staked_expired {Position}.
Arguments staked_locked {Position}.
Arguments rewards {Position}.
Arguments positions {Position}.

Definition empty_results {Position : Type} : Results Position :=
  mkResults 0 0 0 0 0 0 0 0 [].

Record Wallet : Type := mkWallet {
  w_name : string;
  w_addr : string;
  w_type : string
}.

(** The dict of wallets, in insertion order (the same in both files). *)
Definition FOUNDATION_WALLETS : list Wallet := [
  mkWallet "treasury" "0x715b1ddf5d6da6846eadb72d3d6f9d93148d0bb0" "liquid";
  mkWallet "vesting_contract" "0x4110d73ff4d4fe45af2762df2205ad95c8c9679b" "vesting";
  mkWallet "operational" "0xd782d294bc3e8b1a32ec9283b02893fd932d3ece" "liquid";
  mkWallet "vesting_operational_1" "0x3dea6f0f4d3fcd9a706e8b6b0750ab2f57dec17a" "vesting";
  mkWallet "vesting_operational_2" "0x332e5b70e451bdeebd36b5d3442827aa52a42f80" "vesting";
  mkWallet "vesting_operational_3" "0xa3314896ae22caf4bfdcb0bd4c3cabce324d8f3e" "vesting"
]%string.

End Chain.

(** ** report_dashboard.py *)
Module Dashboard.
Import Chain.

Record VestingSchedule : Type := mkSchedule {
  vs_name : string;
  vs_start : Z;
  vs_end : Z;
  vs_total : Z
}.

Definition VESTING_SCHEDULES : list VestingSchedule := [
  mkSchedule "Vesting Contract" 1760434200 1823506200 14605000;
  mkSchedule "Operational 1" 1760434200 1886578200 4020000;
  mkSchedule "Operational 2" 1760434200 1774690200 1230000;
  mkSchedule "Operational 3" 1760434200 1773394200 1750000
]%string.

(** *** calculate_vesting_projection *)

(** One turn of the loop over the schedules, on the accumulator [total]. *)
Definition projection_step (now_ts target_ts : Z) (total : Q)
    (v : VestingSchedule) : option Q :=
  rate <- Py.truediv (inject_Z (vs_total v)) (inject_Z (vs_end v - vs_start v)) ;;
  let effective_end := Z.min target_ts (vs_end v) in
  if now_ts <? effective_end
  then Some (total + rate * inject_Z (effective_end - now_ts))%Q
  else Some total.

Fixpoint projection_loop (now_ts target_ts : Z) (total : Q)
    (vs : list VestingSchedule) : option Q :=
  match vs with
  | [] => Some total
  | v :: rest =>
      total' <- projection_step now_ts target_ts total v ;;
      projection_loop now_ts target_ts total' rest
  end.

(** The function over an arbitrary table of schedules.  [target_ts] is
    midnight UTC of the target date, the value the source obtains from
    [strptime] and [timestamp]. *)
Definition vesting_projection (schedules : list VestingSchedule)
    (now_ts target_ts : Z) : option Z :=
  total <- projection_loop now_ts target_ts 0%Q schedules ;;
  Some (Py.round total).

Definition calculate_vesting_projection (now_ts target_ts : Z) : option Z :=
  vesting_projection VESTING_SCHEDULES now_ts target_ts.

(** The "Will Vest" cell of the projection table ([proj_rows]). *)
Definition will_vest (now_ts target_ts : Z) (v : VestingSchedule) : option Q :=
  rate <- Py.truediv (inject_Z (vs_total v)) (inject_Z (vs_end v - vs_start v)) ;;
  let eff := Z.min target_ts (vs_end v) in
  if now_ts <? eff
  then Some (Py.max0 (rate * inject_Z (eff - now_ts)))%Q
  else Some 0%Q.

(** *** _rolling_7day *)

Record VolumeSample : Type := mkSample {
  exchange : string;
  volume_7d : Q;
  avg_daily : Q;
  wow_pct : option Q
}.

Definition DailyVolume : Type := (Py.date * Q)%type.

(** [list.sort(key=lambda x: x[0])]: the sort is stable, so its result
    is the one of a stable insertion sort on the dates. *)
Fixpoint insert_by_date (x : DailyVolume) (l : list DailyVolume)
    : list DailyVolume :=
  match l with
  | [] => [x]
  | y :: rest =>
      if Py.date_ltb (fst y) (fst x) then y :: insert_by_date x rest
      else x :: y :: rest
  end.

Definition sort_by_date (l : list DailyVolume) : list DailyVolume :=
  fold_right insert_by_date [] l.

(** The list the windows are cut from: entries dated before [today],
    sorted by date. *)
Definition filtered_sorted (today : Py.date) (daily_volumes : list DailyVolume)
    : list DailyVolume :=
  sort_by_date (filter (fun p => Py.date_ltb (fst p) today) daily_volumes).

Definition _rolling_7day (today : Py.date) (daily_volumes : list DailyVolume)
    (exchange : string) : option VolumeSample :=
  if (length daily_volumes <? 7)%nat then None
  else
    let filtered := filtered_sorted today daily_volumes in
    if (length filtered <? 7)%nat then None
    else
      let current := Py.slice filtered (Some (-7)) None in
      let cur_vol := Py.sum (map snd current) in
      let wow :=
        if (14 <=? length filtered)%nat then
          let prev := Py.slice filtered (Some (-14)) (Some (-7)) in
          let prev_vol := Py.sum (map snd prev) in
          if Py.Qltb 0 prev_vol
          then Some (((cur_vol - prev_vol) / prev_vol) * 100)%Q
          else None
        else None in
      Some (mkSample exchange cur_vol (cur_vol / 7)%Q wow).

(** *** Staking reads and load_holdings *)

(** A position as the indexer lists it: three decimal integers. *)
Record RawPosition : Type := mkRaw {
  raw_id : Z;
  raw_expiry : Z;
  raw_deposit : Z
}.

(** The dict built per position; [p_rewards] is the key "rewards",
    absent until [load_holdings] sets it. *)
Record Position : Type := mkPosition {
  p_id : Z;
  p_deposit : Q;
  p_expiry_ts : Z;
  p_is_expired : bool;
  p_rewards : option Q
}.

(** The replies the dashboard's run receives.
    - [goldsky_positions owner]: the positions of the indexer's reply,
      [None] when there is no reply or no "data".
    - [staking_rewards id = Some n]: the node's result for the rewards
      call of position [id] is not "0x" and parses as the hexadecimal
      integer [n]. *)
Record Env : Type := mkEnv {
  net : Replies;
  goldsky_positions : string -> option (list RawPosition);
  staking_rewards : Z -> option Z
}.

Definition get_staked_positions (env : Env) (now : Z) (owner : string)
    : list Position :=
  match goldsky_positions env (Py.lower owner) with
  | None => []
  | Some [] => []
  | Some ps =>
      map (fun p =>
             mkPosition (raw_id p) (to_tokens (raw_deposit p)) (raw_expiry p)
                        (raw_expiry p <=? now) None) ps
  end.

Definition get_position_rewards (env : Env) (position_id : Z) : Q :=
  match staking_rewards env position_id with
  | Some n => to_tokens n
  | None => 0%Q
  end.

(** The loop over the positions of the treasury: sets "rewards" on each
    and accumulates [total_rewards]. *)
Fixpoint collect_rewards (env : Env) (ps : list Position) (total_rewards : Q)
    : list Position * Q :=
  match ps with
  | [] => ([], total_rewards)
  | p :: rest =>
      let r := get_position_rewards env (p_id p) in
      let p' := mkPosition (p_id p) (p_deposit p) (p_expiry_ts p)
                           (p_is_expired p) (Some r) in
      let '(rest', total) := collect_rewards env rest (total_rewards + r)%Q in
      (p' :: rest', total)
  end.

(** The body of the loop over the wallets.  The per-wallet detail dict
    [results["wallets"]] is display data that no total reads; it is not
    carried. *)
Definition load_wallet (env : Env) (now : Z) (results : Results Position)
    (w : Wallet) : Results Position :=
  if String.eqb (w_type w) "vesting" then
    let vi := get_vesting_info (net env) (w_addr w) in
    mkResults (liquid results) (liquid_bsc results)
              (vested_unclaimed results + vi_vested_unclaimed vi)%Q
              (locked_vesting results + vi_locked vi)%Q
              (staked_total results) (staked_expired results)
              (staked_locked results) (rewards results) (positions results)
  else
    let bal := get_token_balance (net env) (w_addr w) in
    let bsc_bal := get_bsc_token_balance (net env) (w_addr w) in
    let results :=
      mkResults (liquid results + bal)%Q (liquid_bsc results + bsc_bal)%Q
                (vested_unclaimed results) (locked_vesting results)
                (staked_total results) (staked_expired results)
                (staked_locked results) (rewards results) (positions results) in
    if String.eqb (w_name w) "treasury" then
      let positions := get_staked_positions env now (w_addr w) in
      let '(positions, total_rewards) := collect_rewards env positions 0%Q in
      let staked_total := Py.sum (map p_deposit positions) in
      let staked_expired :=
        Py.sum (map p_deposit (filter p_is_expired positions)) in
      let staked_locked :=
        Py.sum (map p_deposit
                    (filter (fun p => negb (p_is_expired p)) positions)) in
      mkResults (liquid results) (liquid_bsc results)
                (vested_unclaimed results) (locked_vesting results)
                staked_total staked_expired staked_locked total_rewards
                positions
    else results.

(** The snapshot [load_holdings] returns: the accumulator and the two
    totals computed from it after the loop. *)
Record Holdings : Type := mkHoldings {
  res : Results Position;
  total_sellable : Q;
  total_holdings : Q
}.

Definition load_holdings_of (wallets : list Wallet) (env : Env) (now : Z)
    : Holdings :=
  let results := fold_left (load_wallet env now) wallets empty_results in
  mkHoldings results
    (liquid results + liquid_bsc results + vested_unclaimed results
     + staked_expired results + rewards results)%Q
    (liquid results + liquid_bsc results + vested_unclaimed results
     + locked_vesting results + staked_total results + rewards results)%Q.

Definition load_holdings (env : Env) (now : Z) : Holdings :=
  load_holdings_of FOUNDATION_WALLETS env now.

(** Presentation: the sidebar inputs [mm_amber] and [mm_jpeg] are added
    to the total of the snapshot, the sellable total is shown as is. *)
Definition total_holdings_adj (holdings : Holdings) (mm_amber mm_jpeg : Z) : Q :=
  let mm_holdings := mm_amber + mm_jpeg in
  (total_holdings holdings + inject_Z mm_holdings)%Q.

Definition total_sellable_adj (holdings : Holdings) : Q :=
  total_sellable holdings.

End Dashboard.

(** ** telegram_report.py *)
Module Telegram.
Import Chain Py.

Definition MULTICALL3 : string := "0xcA11bde05977b3631167028862bE2a173976CA11".

Definition RPC_URLS : list string :=
  ["https://eth.llamarpc.com"; "https://1rpc.io/eth";
   "https://cloudflare-eth.com"]%string.

(** [MM_DEFAULTS], a dict of two integers. *)
Definition MM_DEFAULTS : list (string * Z) :=
  [("amber", 330940); ("jpeg", 537202)]%string.

Definition FOUNDATION_STAKING_ADDR : string :=
  "0x715b1ddf5d6da6846eadb72d3d6f9d93148d0bb0".

(** The monthly pools; each date string "YYYY-MM-DD" is written as the
    date [strptime] parses it to. *)
Definition REWARDS_SCHEDULE : list (date * Q) := [
  (mkdate 2025 11 14, 629532.04); (mkdate 2025 12 14, 606812.70); (mkdate 2026 1 14, 573129.66);
  (mkdate 2026 2 14, 531316.33); (mkdate 2026 3 14, 484654.38); (mkdate 2026 4 14, 436452.71);
  (mkdate 2026 5 14, 389669.23); (mkdate 2026 6 14, 346635.34); (mkdate 2026 7 14, 308914.21);
  (mkdate 2026 8 14, 277292.38); (mkdate 2026 9 14, 251877.93); (mkdate 2026 10 14, 232264.45);
  (mkdate 2026 11 14, 217717.58); (mkdate 2026 12 14, 207348.92); (mkdate 2027 1 14, 200254.63);
  (mkdate 2027 2 14, 195609.57); (mkdate 2027 3 14, 192718.63); (mkdate 2027 4 14, 191033.29);
  (mkdate 2027 5 14, 190144.57); (mkdate 2027 6 14, 189762.60); (mkdate 2027 7 14, 189691.36);
  (mkdate 2027 8 14, 189803.97); (mkdate 2027 9 14, 190021.68); (mkdate 2027 10 14, 190297.54);
  (mkdate 2027 11 14, 190604.61); (mkdate 2027 12 14, 190928.03); (mkdate 2028 1 14, 191259.87);
  (mkdate 2028 2 14, 191596.08); (mkdate 2028 3 14, 191934.64); (mkdate 2028 4 14, 192274.60);
  (mkdate 2028 5 14, 192615.50); (mkdate 2028 6 14, 192957.15); (mkdate 2028 7 14, 193299.47);
  (mkdate 2028 8 14, 193642.41); (mkdate 2028 9 14, 193985.98); (mkdate 2028 10 14, 194330.16);
  (mkdate 2028 11 14, 194674.95); (mkdate 2028 12 14, 195020.35); (mkdate 2029 1 14, 195366.36);
  (mkdate 2029 2 14, 195712.99); (mkdate 2029 3 14, 196060.24); (mkdate 2029 4 14, 196408.10);
  (mkdate 2029 5 14, 196756.57); (mkdate 2029 6 14, 197105.67); (mkdate 2029 7 14, 197455.38);
  (mkdate 2029 8 14, 197805.72); (mkdate 2029 9 14, 198156.68); (mkdate 2029 10 14, 198508.26);
  (mkdate 2029 11 14, 198860.46); (mkdate 2029 12 14, 199213.29); (mkdate 2030 1 14, 199566.74);
  (mkdate 2030 2 14, 199920.82); (mkdate 2030 3 14, 200275.53); (mkdate 2030 4 14, 200630.87);
  (mkdate 2030 5 14, 200986.84); (mkdate 2030 6 14, 201343.44); (mkdate 2030 7 14, 201700.67);
  (mkdate 2030 8 14, 202058.54); (mkdate 2030 9 14, 202417.04); (mkdate 2030 10 14, 202776.18);
  (mkdate 2030 11 14, 203135.96); (mkdate 2030 12 14, 203496.37); (mkdate 2031 1 14, 203857.43);
  (mkdate 2031 2 14, 204219.12); (mkdate 2031 3 14, 204581.46); (mkdate 2031 4 14, 204944.43);
  (mkdate 2031 5 14, 205308.06); (mkdate 2031 6 14, 205672.32); (mkdate 2031 7 14, 206037.24);
  (mkdate 2031 8 14, 206402.80); (mkdate 2031 9 14, 206769.01); (mkdate 2031 10 14, 207135.87);
  (mkdate 2031 11 14, 207503.38); (mkdate 2031 12 14, 207871.54); (mkdate 2032 1 14, 208240.36);
  (mkdate 2032 2 14, 208609.83); (mkdate 2032 3 14, 208979.96); (mkdate 2032 4 14, 209350.74);
  (mkdate 2032 5 14, 209722.18); (mkdate 2032 6 14, 210094.28); (mkdate 2032 7 14, 210467.04);
  (mkdate 2032 8 14, 210840.46); (mkdate 2032 9 14, 211214.54); (mkdate 2032 10 14, 211589.29);
  (mkdate 2032 11 14, 211964.70); (mkdate 2032 12 14, 212340.78); (mkdate 2033 1 14, 212717.53);
  (mkdate 2033 2 14, 213094.94); (mkdate 2033 3 14, 213473.03); (mkdate 2033 4 14, 213851.78);
  (mkdate 2033 5 14, 214231.21); (mkdate 2033 6 14, 214611.31); (mkdate 2033 7 14, 214992.08);
  (mkdate 2033 8 14, 215373.53); (mkdate 2033 9 14, 215755.66); (mkdate 2033 10 14, 216138.46);
  (mkdate 2033 11 14, 216521.95); (mkdate 2033 12 14, 216906.11); (mkdate 2034 1 14, 217290.95);
  (mkdate 2034 2 14, 217676.48); (mkdate 2034 3 14, 218062.70); (mkdate 2034 4 14, 218449.59);
  (mkdate 2034 5 14, 218837.18); (mkdate 2034 6 14, 219225.45); (mkdate 2034 7 14, 219614.41);
  (mkdate 2034 8 14, 220004.06); (mkdate 2034 9 14, 220394.40); (mkdate 2034 10 14, 220785.44);
  (mkdate 2034 11 14, 221177.17); (mkdate 2034 12 14, 221569.59); (mkdate 2035 1 14, 221962.71);
  (mkdate 2035 2 14, 222356.53); (mkdate 2035 3 14, 222751.04); (mkdate 2035 4 14, 223146.26);
  (mkdate 2035 5 14, 223542.18); (mkdate 2035 6 14, 223938.80); (mkdate 2035 7 14, 224336.12);
  (mkdate 2035 8 14, 224734.15); (mkdate 2035 9 14, 225132.88); (mkdate 2035 10 14, 225532.33)
]%Q.

(** *** The optional CSV of historical positions *)

Record CsvRow : Type := mkRow {
  row_owner : string;
  row_position_id : Z;
  row_stake : Q;
  row_net_deposited : Q;
  row_expiry_ts : Z
}.

(** One candidate path.
    - [Unreadable]: the path does not exist, or [read_csv] raises.
    - [Malformed]: the file is read, but the columns the caller uses
      are missing or ill-typed, so that the caller's [try] block raises.
    - [Table rows]: the file is read and its rows are well-formed. *)
Inductive CsvFile : Type :=
| Unreadable
| Malformed
| Table (rows : list CsvRow).

(** The replies the bot's run receives.
    - [csv_files]: the two candidate paths, in the order they are tried.
    - [multicall rpc = Some decoded]: the node [rpc] answers the
      aggregate3 call and the answer decodes to the list [decoded] of
      (success, return data); the return data is [Some n] when it has at
      least 32 bytes, of which the first 32 are the big-endian integer
      [n], and [None] when it is shorter.  [multicall rpc = None]: no
      reply, no result, result "0x", or the decoding raises. *)
Record Env : Type := mkEnv {
  net : Replies;
  csv_files : list CsvFile;
  multicall : string -> option (list (bool * option Z))
}.

Record Position : Type := mkPosition {
  p_id : Z;
  p_deposit : Q;
  p_stake : Q;
  p_expiry_ts : Z;
  p_is_expired : bool;
  p_rewards : option Q
}.

Definition owned_by (owner : string) (row : CsvRow) : bool :=
  String.eqb (lower (row_owner row)) (lower owner).

(** The loop over the candidate paths of [get_staked_positions]. *)
Fixpoint positions_from (files : list CsvFile) (now : Z) (owner : string)
    : list Position :=
  match files with
  | [] => []
  | Table rows :: rest =>
      match filter (owned_by owner) rows with
      | [] => positions_from rest now owner
      | fdn =>
          map (fun row =>
                 let expiry := row_expiry_ts row in
                 mkPosition (row_position_id row) (row_net_deposited row)
                            (row_stake row) expiry (expiry <=? now) None) fdn
      end
  | _ :: rest => positions_from rest now owner
  end.

Definition get_staked_positions (env : Env) (now : Z) (owner : string)
    : list Position :=
  positions_from (csv_files env) now owner.

(** *** get_all_position_rewards *)

(** The dict [rewards], position id to amount: an association list with
    the newest binding first. *)
Definition Dict : Type := list (Z * Q).

Definition dict_set (k : Z) (v : Q) (d : Dict) : Dict := (k, v) :: d.

(** [d.get(k, default)]. *)
Definition dict_get (d : Dict) (k : Z) (default : Q) : Q :=
  match find (fun kv => fst kv =? k) d with
  | Some kv => snd kv
  | None => default
  end.

(** The loop over [enumerate(decoded)], from index [i]; [None] stands
    for the [IndexError] of [position_ids[i]]. *)
Fixpoint decode_rewards (position_ids : list Z) (i : nat)
    (decoded : list (bool * option Z)) (rewards : Dict) : option Dict :=
  match decoded with
  | [] => Some rewards
  | (success, ret_data) :: rest =>
      pid <- nth_error position_ids i ;;
      let r := match success, ret_data with
               | true, Some n => to_tokens n
               | _, _ => 0%Q
               end in
      decode_rewards position_ids (S i) rest (dict_set pid r rewards)
  end.

(** The loop over the nodes; when none answers, every id maps to 0.0. *)
Fixpoint rewards_from (env : Env) (rpcs : list string) (position_ids : list Z)
    : Dict :=
  match rpcs with
  | [] => map (fun pid => (pid, 0%Q)) position_ids
  | rpc :: rest =>
      match multicall env rpc with
      | None => rewards_from env rest position_ids
      | Some decoded =>
          match decode_rewards position_ids 0 decoded [] with
          | Some rewards => rewards
          | None => rewards_from env rest position_ids
          end
      end
  end.

(** The function, for position ids in 0 .. 2^256 - 1
    ([Props.encodable] below): each id is encoded with
    [to_bytes(32, "big")], which raises for any other integer before a
    node is asked. *)
Definition get_all_position_rewards (env : Env) (position_ids : list Z) : Dict :=
  match position_ids with
  | [] => []
  | _ => rewards_from env RPC_URLS position_ids
  end.

(** *** load_holdings *)

(** The loop that sets "rewards" on each position from the dict and
    accumulates [total_rewards]. *)
Fixpoint collect_rewards (rewards_map : Dict) (ps : list Position)
    (total_rewards : Q) : list Position * Q :=
  match ps with
  | [] => ([], total_rewards)
  | p :: rest =>
      let r := dict_get rewards_map (p_id p) 0%Q in
      let p' := mkPosition (p_id p) (p_deposit p) (p_stake p) (p_expiry_ts p)
                           (p_is_expired p) (Some r) in
      let '(rest', total) := collect_rewards rewards_map rest (total_rewards + r)%Q in
      (p' :: rest', total)
  end.

Definition load_wallet (env : Env) (now : Z) (results : Results Position)
    (w : Wallet) : Results Position :=
  if String.eqb (w_type w) "vesting" then
    let vi := get_vesting_info (net env) (w_addr w) in
    mkResults (liquid results) (liquid_bsc results)
              (vested_unclaimed results + vi_vested_unclaimed vi)%Q
              (locked_vesting results + vi_locked vi)%Q
              (staked_total results) (staked_expired results)
              (staked_locked results) (rewards results) (positions results)
  else
    let bal := get_token_balance (net env) (w_addr w) in
    let bsc_bal := get_bsc_token_balance (net env) (w_addr w) in
    let results :=
      mkResults (liquid results + bal)%Q (liquid_bsc results + bsc_bal)%Q
                (vested_unclaimed results) (locked_vesting results)
                (staked_total results) (staked_expired results)
                (staked_locked results) (rewards results) (positions results) in
    if String.eqb (w_name w) "treasury" then
      let positions := get_staked_positions env now (w_addr w) in
      let rewards_map := get_all_position_rewards env (map p_id positions) in
      let '(positions, total_rewards) := collect_rewards rewards_map positions 0%Q in
      mkResults (liquid results) (liquid_bsc results)
                (vested_unclaimed results) (locked_vesting results)
                (Py.sum (map p_deposit positions))
                (Py.sum (map p_deposit (filter p_is_expired positions)))
                (Py.sum (map p_deposit
                             (filter (fun p => negb (p_is_expired p)) positions)))
                total_rewards positions
    else results.

(** The snapshot: the accumulator, the market makers' holdings and the
    two totals. *)
Record Holdings : Type := mkHoldings {
  res : Results Position;
  mm_holdings : Z;
  total_sellable : Q;
  total_holdings : Q
}.

Definition load_holdings_of (wallets : list Wallet) (env : Env) (now : Z)
    : Holdings :=
  let results := fold_left (load_wallet env now) wallets empty_results in
  let mm_holdings := fold_left Z.add (map snd MM_DEFAULTS) 0 in
  mkHoldings results mm_holdings
    (liquid results + liquid_bsc results + vested_unclaimed results
     + staked_expired results + rewards results)%Q
    (liquid results + liquid_bsc results + vested_unclaimed results
     + locked_vesting results + staked_total results + rewards results
     + inject_Z mm_holdings)%Q.

Definition load_holdings (env : Env) (now : Z) : Holdings :=
  load_holdings_of FOUNDATION_WALLETS env now.

(** *** load_staking_rewards_projection *)

(** The first loop: the first candidate that exists and is read. *)
Fixpoint first_read (files : list CsvFile) : option CsvFile :=
  match files with
  | [] => None
  | Unreadable :: rest => first_read rest
  | f :: _ => Some f
  end.

(** [strftime("%b")] in the C locale. *)
Definition month_abbr (m : Z) : string :=
  match m with
  | 1 => "Jan" | 2 => "Feb" | 3 => "Mar" | 4 => "Apr"
  | 5 => "May" | 6 => "Jun" | 7 => "Jul" | 8 => "Aug"
  | 9 => "Sep" | 10 => "Oct" | 11 => "Nov" | 12 => "Dec"
  | _ => ""
  end%string.

(** [dt.strftime("%b %Y")], for the four-digit years of the schedule. *)
Definition label_of (d : date) : string :=
  (month_abbr (month d) ++ " " ++ NilZero.string_of_int (Z.to_int (year d)))%string.

Record Row : Type := mkRowOut {
  label : string;
  reward : Q
}.

(** The two column sums are sums of numbers here; pandas adds a column
    of integers in 64-bit integers, and the two agree for stake weights
    that are not negative and sum to less than 2^63
    ([Spec.stakes_in_range] below). *)
Definition load_staking_rewards_projection (env : Env) (today : date)
    : option (list Row) :=
  match first_read (csv_files env) with
  | None => None
  | Some Unreadable => None
  | Some Malformed => None
  | Some (Table pos_df) =>
      let fdn := filter (owned_by FOUNDATION_STAKING_ADDR) pos_df in
      let fdn_stake_weight := Py.sum (map row_stake fdn) in
      let total_stake_weight := Py.sum (map row_stake pos_df) in
      if Qeq_bool total_stake_weight 0 then None
      else
        let fdn_share := (fdn_stake_weight / total_stake_weight)%Q in
        let future :=
          filter (fun dm => date_geb (fst dm) today) REWARDS_SCHEDULE in
        match future with
        | [] => None
        | _ =>
            let next_3 := slice future None (Some 3) in
            Some (map (fun dm =>
                         mkRowOut (label_of (fst dm))
                                  (snd dm * 0.80 * fdn_share)%Q) next_3)
        end
  end.

End Telegram.

(** ** The specification's wording

    The definitions of this module follow the sentences of the
    specification, not the source: the projector of section 4.2 and the
    normalizer of section 4.1, to compare the code with, and the
    vocabulary in which the properties below are stated. *)
Module Spec.
Import Py Dashboard.

(** Section 3, VestingSchedule: end > start. *)
Definition well_formed (v : VestingSchedule) : Prop :=
  vs_start v < vs_end v.

(** Section 4.2: rate = total / (end - start). *)
Definition rate (v : VestingSchedule) : Q :=
  (inject_Z (vs_total v) / inject_Z (vs_end v - vs_start v))%Q.

(** effective_end = min(target_timestamp, end). *)
Definition effective_end (target_ts : Z) (v : VestingSchedule) : Z :=
  Z.min target_ts (vs_end v).

(** contribution = rate x (effective_end - now) if effective_end > now,
    else 0. *)
Definition contribution (now_ts target_ts : Z) (v : VestingSchedule) : Q :=
  if effective_end target_ts v >? now_ts
  then (rate v * inject_Z (effective_end target_ts v - now_ts))%Q
  else 0%Q.

(** The sum of the contributions across all schedules. *)
Definition contributions_sum (schedules : list VestingSchedule)
    (now_ts target_ts : Z) : Q :=
  fold_right Qplus 0%Q (map (contribution now_ts target_ts) schedules).

(** Total projection = that sum, rounded once. *)
Definition total_projection (schedules : list VestingSchedule)
    (now_ts target_ts : Z) : Z :=
  Py.round (contributions_sum schedules now_ts target_ts).

(** The alternative the specification rules out: round per schedule. *)
Definition rounded_per_schedule (schedules : list VestingSchedule)
    (now_ts target_ts : Z) : Z :=
  fold_right Z.add 0
    (map (fun v => Py.round (contribution now_ts target_ts v)) schedules).

(** Section 4.1: deduplicate by keeping the latest value per date: an
    entry is dropped when a later entry has its date. *)
Fixpoint dedup_latest (l : list DailyVolume) : list DailyVolume :=
  match l with
  | [] => []
  | x :: rest =>
      if existsb (fun y => date_eqb (fst x) (fst y)) rest
      then dedup_latest rest
      else x :: dedup_latest rest
  end.

(** The qualifying days of section 4.1: today's partial day excluded,
    sorted ascending by date, one entry per date. *)
Definition qualifying_days (today : date) (daily_volumes : list DailyVolume)
    : list DailyVolume :=
  dedup_latest (filtered_sorted today daily_volumes).

(** The normalizer of section 4.1, over the qualifying days. *)
Definition rolling_7day (today : date) (daily_volumes : list DailyVolume)
    (exchange : string) : option VolumeSample :=
  let days := qualifying_days today daily_volumes in
  if (length days <? 7)%nat then None
  else
    let cur_vol := Py.sum (map snd (Py.slice days (Some (-7)) None)) in
    let wow :=
      if (14 <=? length days)%nat then
        let prev_vol :=
          Py.sum (map snd (Py.slice days (Some (-14)) (Some (-7)))) in
        if Qltb 0 prev_vol
        then Some (((cur_vol - prev_vol) / prev_vol) * 100)%Q
        else None
      else None in
    Some (mkSample exchange cur_vol (cur_vol / 7)%Q wow).

(** Ascending by date. *)
Definition ascending (a b : DailyVolume) : Prop :=
  date_leb (fst a) (fst b) = true.

(** The entries dated before [today]: what remains after today's
    partial day (and anything later) is excluded. *)
Definition before (today : date) (daily_volumes : list DailyVolume)
    : list DailyVolume :=
  filter (fun p => date_ltb (fst p) today) daily_volumes.

(** Two entries of the input carry the same date. *)
Fixpoint has_duplicate_date (l : list DailyVolume) : bool :=
  match l with
  | [] => false
  | x :: rest =>
      existsb (fun y => date_eqb (fst x) (fst y)) rest || has_duplicate_date rest
  end.

(** Section 8: "valid non-negative inputs".  Every integer a reply
    carries (balance, claimable amount, deposit, rewards) is >= 0. *)
Definition nonneg_replies (net : Chain.Replies) : Prop :=
  (forall a n, Chain.etherscan_tokenbalance net a = Some n -> 0 <= n)
  /\ (forall a n, Chain.etherscan_claimable net a = Some n -> 0 <= n)
  /\ (forall a n, Chain.bsc_balance_of net a = Some n -> 0 <= n).

Definition nonneg_dashboard (env : Dashboard.Env) : Prop :=
  nonneg_replies (Dashboard.net env)
  /\ (forall owner ps,
        Dashboard.goldsky_positions env owner = Some ps ->
        Forall (fun p => 0 <= Dashboard.raw_deposit p) ps)
  /\ (forall id n, Dashboard.staking_rewards env id = Some n -> 0 <= n).

Definition nonneg_table (f : Telegram.CsvFile) : Prop :=
  match f with
  | Telegram.Table rows =>
      Forall (fun row => 0 <= Telegram.row_net_deposited row)%Q rows
  | _ => True
  end.

Definition nonneg_digest (env : Telegram.Env) : Prop :=
  nonneg_replies (Telegram.net env)
  /\ Forall nonneg_table (Telegram.csv_files env)
  /\ (forall rpc decoded,
        Telegram.multicall env rpc = Some decoded ->
        Forall (fun sr => forall n, snd sr = Some n -> 0 <= n) decoded).

(** A stake column in the range in which pandas sums it without
    wrapping around (it adds a column of integers in 64-bit integers):
    no weight is negative and the weights sum to less than 2^63. *)
Definition stakes_in_range (pos_df : list Telegram.CsvRow) : Prop :=
  Forall (fun row => 0 <= Telegram.row_stake row)%Q pos_df
  /\ (Py.sum (map Telegram.row_stake pos_df) < inject_Z (2 ^ 63))%Q.

(** The six components and the five sellable ones, of any accumulator. *)
Definition six_terms {P : Type} (r : Chain.Results P) : Q :=
  (Chain.liquid r + Chain.liquid_bsc r + Chain.vested_unclaimed r
   + Chain.locked_vesting r + Chain.staked_total r + Chain.rewards r)%Q.

Definition five_terms {P : Type} (r : Chain.Results P) : Q :=
  (Chain.liquid r + Chain.liquid_bsc r + Chain.vested_unclaimed r
   + Chain.staked_expired r + Chain.rewards r)%Q.

(** What the loop over the wallets maintains: nothing locked is
    negative, and the expired stake is part of the whole stake. *)
Definition staking_bounded {P : Type} (r : Chain.Results P) : Prop :=
  (0 <= Chain.locked_vesting r)%Q
  /\ (Chain.staked_expired r <= Chain.staked_total r)%Q.

End Spec.

(** ** Concrete inputs for the examples below *)
Module Samples.
Import Py Dashboard.

Definition jan (n : Z) : date := mkdate 2026 1 n.

(** Eight entries for seven days: 7 January arrives twice. *)
Definition week_with_duplicate : list DailyVolume :=
  [(jan 1, 100); (jan 2, 1); (jan 3, 1); (jan 4, 1); (jan 5, 1);
   (jan 6, 1); (jan 7, 1); (jan 7, 10)]%Q.

(** Fourteen distinct days, every day with the volume [v]. *)
Definition fortnight (v : Q) : list DailyVolume :=
  map (fun n => (jan n, v)) [1; 2; 3; 4; 5; 6; 7; 8; 9; 10; 11; 12; 13; 14].

(** Six complete days and the partial day of 20 January. *)
Definition six_days_and_today : list DailyVolume :=
  [(jan 14, 1); (jan 15, 1); (jan 16, 1); (jan 17, 1); (jan 18, 1);
   (jan 19, 1); (jan 20, 9)]%Q.

(** Seven entries for six complete days: 6 January arrives twice. *)
Definition six_days_seven_entries : list DailyVolume :=
  [(jan 1, 1); (jan 2, 1); (jan 3, 1); (jan 4, 1); (jan 5, 1);
   (jan 6, 1); (jan 6, 10)]%Q.

(** No endpoint answers. *)
Definition silent : Chain.Replies :=
  Chain.mkReplies (fun _ => None) (fun _ => None) (fun _ => None).

(** A vesting contract read inconsistently: balance 90 tokens,
    claimable 100 tokens, in base units. *)
Definition inconsistent : Chain.Replies :=
  Chain.mkReplies (fun _ => Some 90000000000000000000)
                  (fun _ => Some 100000000000000000000)
                  (fun _ => None).

(** Every endpoint answers one token; the treasury has an expired and
    a running position of 5 and 7 tokens. *)
Definition one_token : Chain.Replies :=
  Chain.mkReplies (fun _ => Some 1000000000000000000) (fun _ => Some 1000000000000000000)
                  (fun _ => Some 1000000000000000000).

Definition dashboard_run : Dashboard.Env :=
  Dashboard.mkEnv one_token
    (fun _ => Some [Dashboard.mkRaw 1 100 5000000000000000000;
                    Dashboard.mkRaw 2 900 7000000000000000000])
    (fun _ => Some 1000000000000000000).

Definition treasury_rows : list Telegram.CsvRow :=
  [Telegram.mkRow "0x715B1DDF5d6da6846eadb72d3d6f9d93148d0bb0" 1 1 5 100;
   Telegram.mkRow "0x715b1ddf5d6da6846eadb72d3d6f9d93148d0bb0" 2 2 7 900;
   Telegram.mkRow "0x00000000000000000000000000000000000000aa" 3 9 4 900]%Q%string.

Definition digest_run : Telegram.Env :=
  Telegram.mkEnv one_token [Telegram.Unreadable; Telegram.Table treasury_rows]
    (fun _ => Some [(true, Some 1000000000000000000); (false, None)]).

(** No reply and no file at all. *)
Definition digest_silent : Telegram.Env :=
  Telegram.mkEnv silent [Telegram.Unreadable; Telegram.Unreadable]
    (fun _ => None).

(** Every balance answers and the file is read, but no node answers
    the rewards call. *)
Definition digest_nodes_down : Telegram.Env :=
  Telegram.mkEnv one_token [Telegram.Table treasury_rows] (fun _ => None).

(** A file whose stake weights are all 0. *)
Definition digest_weightless : Telegram.Env :=
  Telegram.mkEnv silent
    [Telegram.Table
       [Telegram.mkRow "0x715b1ddf5d6da6846eadb72d3d6f9d93148d0bb0" 1 0 5 100]%Q%string]
    (fun _ => None).

End Samples.

(** ** Python's floats as they are: IEEE 754 binary64

    Where a property turns on the value a float computation returns
    (two totals being equal, the integer a sum rounds to), the code is
    modelled on binary64 itself, with the operations of the Standard
    Library's specification of IEEE 754 arithmetic (round to nearest,
    ties to even), not on exact rationals. *)
Module Binary64.
Import Py Dashboard.

Definition prec : Z := 53.
Definition emax : Z := 1024.

Definition float : Type := spec_float.

(** [x + y], [x - y], [x * y] and [x / y] on floats ([/] only where the
    source has excluded a zero divisor). *)
Definition add : float -> float -> float := SFadd prec emax.
Definition sub : float -> float -> float := SFsub prec emax.
Definition mul : float -> float -> float := SFmul prec emax.
Definition div : float -> float -> float := SFdiv prec emax.

(** [0.0], and what the integer 0 becomes next to a float. *)
Definition zero : float := S754_zero false.

(** [x > 0]; false for a NaN. *)
Definition positive (x : float) : bool := SFltb zero x.

(** Neither an infinity nor a NaN. *)
Definition is_finite (x : float) : bool :=
  match x with
  | S754_zero _ => true
  | S754_finite _ _ _ => true
  | _ => false
  end.

Definition is_zero (x : float) : bool :=
  match x with
  | S754_zero _ => true
  | _ => false
  end.

(** The float nearest to the integer [n]: what [n] becomes next to a
    float, for a constant of the source such as 7 or 100. *)
Definition of_const (n : Z) : float := binary_normalize prec emax n 0 false.

(** The conversion of an integer operand, [float(n)]: the nearest
    float; [None] stands for the [OverflowError] of an integer too large
    for a float. *)
Definition of_int (n : Z) : option float :=
  match binary_normalize prec emax n 0 false with
  | S754_infinity _ => None
  | x => Some x
  end.

(** An integer as a float with an unrounded mantissa, the operand of the
    integer division below. *)
Definition exact_int (n : Z) : float :=
  match n with
  | Z0 => S754_zero false
  | Zpos p => S754_finite false p 0
  | Zneg p => S754_finite true p 0
  end.

(** [a / b] on integers: the float nearest to the quotient; [None]
    stands for [ZeroDivisionError] and for the [OverflowError] of a
    quotient too large for a float. *)
Definition int_truediv (a b : Z) : option float :=
  if b =? 0 then None
  else
    match div (exact_int a) (exact_int b) with
    | S754_infinity _ => None
    | x => Some x
    end.

(** The rational a finite float stands for. *)
Definition to_Q (x : float) : option Q :=
  match x with
  | S754_zero _ => Some 0%Q
  | S754_finite s m e =>
      let magnitude :=
        match e with
        | Zneg k => Qmake (Zpos m) (Pos.shiftl 1 (Npos k))
        | _ => inject_Z (Zpos m * 2 ^ e)
        end in
      Some (if s then - magnitude else magnitude)%Q
  | _ => None
  end.

(** [round(x)] with one argument: the nearest integer, ties to even;
    [None] stands for the exception raised for an infinity or a NaN. *)
Definition round (x : float) : option Z :=
  match to_Q x with
  | Some q => Some (Py.round q)
  | None => None
  end.

(** [sum(values)] as plain addition from the left, starting from the
    integer 0.  (CPython adds floats this way up to 3.11 and with a
    compensated sum from 3.12 on; [_rolling_7day] below takes the
    summation as a parameter, and what is proved of it holds for every
    summation.) *)
Definition sum_left (values : list float) : float :=
  fold_left add values zero.

(** *** calculate_vesting_projection *)

(** One turn of the loop on the accumulator [total]; the integer 0 the
    loop starts from is [zero]. *)
Definition projection_step (now_ts target_ts : Z) (total : float)
    (v : VestingSchedule) : option float :=
  rate <- int_truediv (vs_total v) (vs_end v - vs_start v) ;;
  let effective_end := Z.min target_ts (vs_end v) in
  if now_ts <? effective_end
  then
    seconds <- of_int (effective_end - now_ts) ;;
    Some (add total (mul rate seconds))
  else Some total.

Fixpoint projection_loop (now_ts target_ts : Z) (total : float)
    (vs : list VestingSchedule) : option float :=
  match vs with
  | [] => Some total
  | v :: rest =>
      total' <- projection_step now_ts target_ts total v ;;
      projection_loop now_ts target_ts total' rest
  end.

Definition vesting_projection (schedules : list VestingSchedule)
    (now_ts target_ts : Z) : option Z :=
  total <- projection_loop now_ts target_ts zero schedules ;;
  round total.

Definition calculate_vesting_projection (now_ts target_ts : Z) : option Z :=
  vesting_projection VESTING_SCHEDULES now_ts target_ts.

(** *** _rolling_7day *)

Record VolumeSample : Type := mkSample {
  exchange : string;
  volume_7d : float;
  avg_daily : float;
  wow_pct : option float
}.

Definition DailyVolume : Type := (date * float)%type.

(** The stable sort by date, as in [Dashboard]. *)
Fixpoint insert_by_date (x : DailyVolume) (l : list DailyVolume)
    : list DailyVolume :=
  match l with
  | [] => [x]
  | y :: rest =>
      if date_ltb (fst y) (fst x) then y :: insert_by_date x rest
      else x :: y :: rest
  end.

Definition sort_by_date (l : list DailyVolume) : list DailyVolume :=
  fold_right insert_by_date [] l.

(** The entries dated before [today]. *)
Definition before (today : date) (daily_volumes : list DailyVolume)
    : list DailyVolume :=
  filter (fun p => date_ltb (fst p) today) daily_volumes.

Definition filtered_sorted (today : date) (daily_volumes : list DailyVolume)
    : list DailyVolume :=
  sort_by_date (before today daily_volumes).

(** The function; [sum] is the built-in [sum] on a list of floats. *)
Definition _rolling_7day (sum : list float -> float) (today : date)
    (daily_volumes : list DailyVolume) (exchange : string)
    : option VolumeSample :=
  if (length daily_volumes <? 7)%nat then None
  else
    let filtered := filtered_sorted today daily_volumes in
    if (length filtered <? 7)%nat then None
    else
      let current := Py.slice filtered (Some (-7)) None in
      let cur_vol := sum (map snd current) in
      let wow :=
        if (14 <=? length filtered)%nat then
          let prev := Py.slice filtered (Some (-14)) (Some (-7)) in
          let prev_vol := sum (map snd prev) in
          if positive prev_vol
          then Some (mul (div (sub cur_vol prev_vol) prev_vol) (of_const 100))
          else None
        else None in
      Some (mkSample exchange cur_vol (div cur_vol (of_const 7)) wow).

End Binary64.

(** ** The specification's projector, in binary64

    Section 4.2 read with the program's arithmetic: the contribution of
    each schedule, their sum over all schedules in the order of the
    table, one rounding at the end. *)
Module FloatSpec.
Import Py Dashboard Binary64.

(** contribution = rate x (effective_end - now) if effective_end > now,
    else 0; rate = total / (end - start). *)
Definition contribution (now_ts target_ts : Z) (v : VestingSchedule)
    : option float :=
  rate <- int_truediv (vs_total v) (vs_end v - vs_start v) ;;
  let effective_end := Z.min target_ts (vs_end v) in
  if effective_end >? now_ts
  then
    seconds <- of_int (effective_end - now_ts) ;;
    Some (mul rate seconds)
  else Some zero.

Fixpoint contributions (now_ts target_ts : Z) (schedules : list VestingSchedule)
    : option (list float) :=
  match schedules with
  | [] => Some []
  | v :: rest =>
      c <- contribution now_ts target_ts v ;;
      cs <- contributions now_ts target_ts rest ;;
      Some (c :: cs)
  end.

(** Total projection = the sum of the contributions, rounded once. *)
Definition total_projection (schedules : list VestingSchedule)
    (now_ts target_ts : Z) : option Z :=
  cs <- contributions now_ts target_ts schedules ;;
  round (sum_left cs).

(** The alternative the specification rules out: round per schedule. *)
Definition rounded_per_schedule (schedules : list VestingSchedule)
    (now_ts target_ts : Z) : option Z :=
  cs <- contributions now_ts target_ts schedules ;;
  fold_right (fun c acc => p <- round c ;; n <- acc ;; Some (p + n))
             (Some 0) cs.

(** Two floats that are equal, or both a zero. *)
Definition same_number (x y : float) : Prop :=
  x = y \/ (is_zero x = true /\ is_zero y = true).

End FloatSpec.

(** ** Inputs in binary64 *)
Module Samples64.
Import Py Binary64.

(** Fourteen distinct days of January 2026, each with the volume [v]. *)
Definition fortnight (v : float) : list DailyVolume :=
  map (fun n => (Samples.jan n, v)) [1; 2; 3; 4; 5; 6; 7; 8; 9; 10; 11; 12; 13; 14].

(** 5.0 and 0.1. *)
Definition five : float := of_const 5.
Definition tenth : float := div (of_const 1) (of_const 10).

End Samples64.

(** * More of the two scripts *)

(** ** Python's number format [,.0f] *)
Module Format.
Import Py.

(** The digits from the right: a comma goes in before every fourth,
    seventh, ... digit. *)
Fixpoint commas_from_right (n : nat) (digits_rev : list ascii) : list ascii :=
  match digits_rev with
  | [] => []
  | c :: rest =>
      if (n =? 3)%nat then ","%char :: c :: commas_from_right 1 rest
      else c :: commas_from_right (S n) rest
  end.

Definition group_thousands (digits : string) : string :=
  string_of_list_ascii
    (rev (commas_from_right 0 (rev (list_ascii_of_string digits)))).

(** [f"{value:,.0f}"]: the value rounded to a whole number (ties to
    even), its digits in groups of three, a minus sign for a negative
    value (also when it rounds to 0). *)
Definition fmt (value : Q) : string :=
  let n := Py.round value in
  ((if Qltb value 0 then "-" else "")
   ++ group_thousands (NilZero.string_of_uint (N.to_uint (Z.abs_N n))))%string.

(** Two digits, with a leading zero: [%m] and [%d]. *)
Definition two_digits (n : Z) : string :=
  ((if (n <? 10)%Z then "0" else "")
   ++ NilZero.string_of_uint (N.to_uint (Z.to_N n)))%string.

(** [strftime("%Y-%m-%d")], for the four-digit years. *)
Definition strftime_ymd (d : date) : string :=
  (NilZero.string_of_uint (N.to_uint (Z.to_N (year d)))
   ++ "-" ++ two_digits (month d) ++ "-" ++ two_digits (day d))%string.

End Format.

(** ** report_dashboard.py: what the page shows *)
Module Present.
Import Chain Dashboard.

(** [min(x, 1.0)]: the first argument wins unless the second is
    strictly smaller. *)
Definition min1 (x : Q) : Q := if Py.Qltb 1 x then 1%Q else x.








(** The dict [breakdown], in insertion order. *)
Definition breakdown (holdings : Holdings) (mm_amber mm_jpeg : Z)
    : list (string * Q) :=
  let r := res holdings in
  [("Liquid — ETH", liquid r);
   ("Liquid — BSC", liquid_bsc r);
   ("Vested (claimable)", vested_unclaimed r);
   ("Staked (expired)", staked_expired r);
   ("Rewards (claimable)", rewards r);
   ("MM — Amber", inject_Z mm_amber);
   ("MM — Jpeg", inject_Z mm_jpeg);
   ("Staked (locked)", staked_locked r);
   ("Locked (unvested)", locked_vesting r)]%string.

Record BreakdownRow : Type := mkBreakdownRow {
  category : string;
  amount : Q;
  sellable : bool
}.

(** [k not in ("Staked (locked)", "Locked (unvested)", "MM — Amber",
    "MM — Jpeg")]. *)
Definition is_sellable (k : string) : bool :=
  negb (existsb (String.eqb k)
          ["Staked (locked)"; "Locked (unvested)"; "MM — Amber";
           "MM — Jpeg"]%string).

(** The rows of [bd_df]: the entries with a positive amount. *)
Definition bd_df (holdings : Holdings) (mm_amber mm_jpeg : Z)
    : list BreakdownRow :=
  map (fun kv => mkBreakdownRow (fst kv) (snd kv) (is_sellable (fst kv)))
      (filter (fun kv => Py.Qltb 0 (snd kv)) (breakdown holdings mm_amber mm_jpeg)).

(** The vesting tab: the fraction handed to [st.progress], present when
    the contract's balance is positive. *)
Definition vesting_progress (w : VestingInfo) : option Q :=
  if Py.Qltb 0 (vi_balance w) then
    let pct_vested := (vi_vested_unclaimed w / vi_balance w * 100)%Q in
    Some (min1 (pct_vested / 100))
  else None.

End Present.

(** ** report_dashboard.py: the volume lists *)
Module Volumes.
Import Py Dashboard.

(** What a call [fn()] of a fetcher comes to: an exception, or the value
    it returns ([None] or a sample). *)
Inductive Outcome (A : Type) : Type :=
| Raises
| Returns (r : option A).

Arguments Raises {A}.
Arguments Returns {A} r.

(** The loop of [load_spot_volumes] and of [load_perp_volumes] over the
    calls of the fetchers, in the order of the list [fetchers]: a sample
    is appended, [None] and an exception are passed over.  (A sample is
    a dict with keys, so [if r] tests for [None].) *)
Fixpoint collect {A : Type} (outcomes : list (Outcome A)) (results : list A)
    : list A :=
  match outcomes with
  | [] => results
  | Returns (Some r) :: rest => collect rest (results ++ [r])
  | _ :: rest => collect rest results
  end.

Definition load_volumes {A : Type} (outcomes : list (Outcome A)) : list A :=
  collect outcomes [].

(** [_get_krw_to_usd]; the argument is [data["rates"]["KRW"]] when the
    reply has it.  [None] stands for [ZeroDivisionError]. *)
Definition _get_krw_to_usd (krw : option Q) : option Q :=
  match krw with
  | Some rate => Py.truediv 1 rate
  | None => Py.truediv 1 1450
  end.

(** A day candle of Upbit: the date of "candle_date_time_utc" and the
    value of "candle_acc_trade_price" when the key is there. *)
Record UpbitCandle : Type := mkUpbitCandle {
  candle_date : date;
  candle_acc_trade_price : option Q
}.

(** [get_spot_volume_upbit]; [data] is the reply when it is a list. *)
Definition get_spot_volume_upbit (today : date)
    (data : option (list UpbitCandle)) (krw : option Q)
    : Outcome VolumeSample :=
  match data with
  | None => Returns None
  | Some [] => Returns None
  | Some candles =>
      match _get_krw_to_usd krw with
      | None => Raises
      | Some krw_rate =>
          let rows :=
            map (fun k =>
                   (candle_date k,
                    (match candle_acc_trade_price k with
                     | Some price => price
                     | None => 0
                     end * krw_rate)%Q)) candles in
          Returns (_rolling_7day today rows "Upbit")
      end
  end.

End Volumes.

(** ** Python's [datetime] in UTC *)
Module Calendar.
Import Py.

(** The proleptic Gregorian calendar, told day by day: leap years, the
    lengths of the months, the day after and the day before a date. *)
Definition is_leap (y : Z) : bool :=
  ((y mod 4 =? 0) && negb (y mod 100 =? 0)) || (y mod 400 =? 0).

Definition days_in_month (y m : Z) : Z :=
  if m =? 2 then (if is_leap y then 29 else 28)
  else if (m =? 4) || (m =? 6) || (m =? 9) || (m =? 11) then 30
  else 31.

Definition next_day (a : date) : date :=
  if day a <? days_in_month (year a) (month a)
  then mkdate (year a) (month a) (day a + 1)
  else if month a <? 12 then mkdate (year a) (month a + 1) 1
  else mkdate (year a + 1) 1 1.

Definition prev_day (a : date) : date :=
  if 1 <? day a then mkdate (year a) (month a) (day a - 1)
  else if 1 <? month a
       then mkdate (year a) (month a - 1) (days_in_month (year a) (month a - 1))
  else mkdate (year a - 1) 12 31.

Definition epoch : date := mkdate 1970 1 1.

(** The date of the day that lies [days] days after 1970-01-01 (before
    it, for a negative count): what [datetime] makes of a count of
    days. *)
Definition date_of_days (days : Z) : date :=
  match days with
  | Z0 => epoch
  | Zpos p => Pos.iter next_day epoch p
  | Zneg p => Pos.iter prev_day epoch p
  end.

(** The days of 0001-01-01 and of 9999-12-31, the first and the last
    date of [datetime]. *)
Definition MIN_DAY : Z := -719162.
Definition MAX_DAY : Z := 2932896.

(** [datetime.fromtimestamp(timestamp, tz=timezone.utc).date()]: the
    timestamp is rounded to microseconds (ties to even); [None] stands
    for the exception raised for a year outside 1..9999. *)
Definition utc_date (timestamp : Q) : option date :=
  let us := Py.round (timestamp * 1000000) in
  let days := us / 86400000000 in
  if (MIN_DAY <=? days) && (days <=? MAX_DAY) then Some (date_of_days days)
  else None.

(** [datetime.now(timezone.utc).date()] when the clock reads [now_ts]
    whole seconds. *)
Definition utc_today (now_ts : Z) : date := date_of_days (now_ts / 86400).

(** A date of the calendar. *)
Definition valid (a : date) : Prop :=
  1 <= month a <= 12 /\ 1 <= day a <= days_in_month (year a) (month a).

End Calendar.

(** ** report_dashboard.py: the Binance adapter *)
Module Binance.
Import Py Dashboard Calendar Volumes.

(** A kline as Binance sends it: [k[0]], the open time in milliseconds,
    and [float(k[7])], the quote volume. *)
Record Kline : Type := mkKline { open_time : Z; quote_volume : Q }.

(** What [safe_get] hands to the adapter: nothing, a JSON object (the
    error reply, not empty) or a list of klines. *)
Inductive Reply : Type :=
| NoReply
| ErrorObject
| Klines (data : list Kline).

(** [_parse_binance_klines]; [None] stands for the exception of
    [fromtimestamp]. *)
Fixpoint _parse_binance_klines (data : list Kline) : option (list DailyVolume) :=
  match data with
  | [] => Some []
  | k :: rest =>
      ts <- utc_date (inject_Z (open_time k) / 1000) ;;
      rows <- _parse_binance_klines rest ;;
      Some ((ts, quote_volume k) :: rows)
  end.

(** [get_spot_volume_binance]: [None] for no reply and for an empty
    list; iterating over an error object raises, as its keys are
    strings. *)
Definition get_spot_volume_binance (now_ts : Z) (data : Reply)
    : Outcome VolumeSample :=
  match data with
  | NoReply => Returns None
  | Klines [] => Returns None
  | ErrorObject => Raises
  | Klines klines =>
      match _parse_binance_klines klines with
      | Some rows => Returns (_rolling_7day (utc_today now_ts) rows "Binance")
      | None => Raises
      end
  end.

(** The start of the running UTC day, in milliseconds. *)
Definition midnight_ms (now_ts : Z) : Z := now_ts / 86400 * 86400000.

End Binance.

(** ** telegram_report.py: the message *)
Module Digest.
Import Py Chain Telegram Format.

(** The lines under "Holdings Breakdown:": the text up to the figure and
    the value that is formatted after it, in the order of the message. *)
Definition breakdown_lines (h : Holdings) : list (string * Q) :=
  let r := res h in
  [("  Liquid (ETH):        ", liquid r);
   ("  Liquid (BSC):        ", liquid_bsc r);
   ("  Vested Unclaimed:    ", vested_unclaimed r);
   ("  Staked (Expired):    ", staked_expired r);
   ("  Staked (Locked):     ", staked_locked r);
   ("  Staking Rewards:     ", rewards r);
   ("  Locked Unvested:     ", locked_vesting r);
   ("  Market Makers:       ", inject_Z (mm_holdings h))]%string.

(** The lines added for the projection; [if rewards_proj] is false for
    [None] and for an empty list. *)
Definition projection_lines (rewards_proj : option (list Row)) : list string :=
  match rewards_proj with
  | None => []
  | Some [] => []
  | Some rows =>
      [EmptyString; "<b>Expected Staking Rewards (next 3 months):</b>"%string]
      ++ map (fun r =>
                ("  " ++ label r ++ ":  " ++ fmt (reward r) ++ " ENSO")%string)
             rows
  end.

(** The list [lines] of [build_message]; the clock is read three times:
    [now] by [load_holdings], [today_proj] by the projection and [today]
    for the date line. *)
Definition message_lines (env : Env) (now : Z) (today_proj today : date)
    : list string :=
  let h := load_holdings env now in
  let rewards_proj := load_staking_rewards_projection env today_proj in
  ["<b>ENSO Foundation — Treasury Report</b>"%string;
   strftime_ymd today;
   EmptyString;
   ("<b>Total Holdings:</b>  " ++ fmt (total_holdings h) ++ " ENSO")%string;
   ("<b>Total Sellable:</b>  " ++ fmt (total_sellable h) ++ " ENSO")%string;
   EmptyString;
   "<b>Holdings Breakdown:</b>"%string]
  ++ map (fun line => (fst line ++ fmt (snd line))%string) (breakdown_lines h)
  ++ projection_lines rewards_proj.

Definition newline : string := String (ascii_of_nat 10) EmptyString.

(** [build_message]: the lines joined by newlines. *)
Definition build_message (env : Env) (now : Z) (today_proj today : date)
    : string :=
  String.concat newline (message_lines env now today_proj today).

End Digest.

(** ** telegram_report.py: vocabulary for the rewards dict *)
Module Rewards.
Import Chain Telegram.

(** What [get_all_position_rewards] stores for one decoded entry
    (success, return data): the first word in tokens, or 0.0. *)
Definition reward_of (entry : bool * option Z) : Q :=
  match entry with
  | (true, Some n) => to_tokens n
  | _ => 0%Q
  end.

End Rewards.

(** ** Vocabulary for the further properties *)
Module Props.
Import Chain.

(** No component of the accumulator is negative. *)
Definition components_nonneg {P : Type} (r : Results P) : Prop :=
  (0 <= liquid r /\ 0 <= liquid_bsc r /\ 0 <= vested_unclaimed r
   /\ 0 <= locked_vesting r /\ 0 <= staked_total r /\ 0 <= staked_expired r
   /\ 0 <= staked_locked r /\ 0 <= rewards r)%Q.

(** A candidate file that yields no position of [owner]: it cannot be
    read, or none of its rows is owned by [owner]. *)
Definition no_row_of (owner : string) (f : Telegram.CsvFile) : Prop :=
  match f with
  | Telegram.Table rows => filter (Telegram.owned_by owner) rows = []
  | _ => True
  end.

(** A position id that [to_bytes(32, "big")] encodes. *)
Definition encodable (pid : Z) : Prop := 0 <= pid < 2 ^ 256.

(** Every position id of every candidate file can be encoded. *)
Definition ids_encodable (env : Telegram.Env) : Prop :=
  Forall (fun f => match f with
                   | Telegram.Table rows =>
                       Forall (fun row => encodable (Telegram.row_position_id row)) rows
                   | _ => True
                   end)
         (Telegram.csv_files env).

(** A stake column that pandas sums exactly, whether it reads it as
    integers or as floats: whole numbers, none negative, that sum to
    less than 2^53. *)
Definition stakes_exact (pos_df : list Telegram.CsvRow) : Prop :=
  Forall (fun row => exists n : Z, 0 <= n /\ Telegram.row_stake row = inject_Z n)
         pos_df
  /\ (Py.sum (map Telegram.row_stake pos_df) < inject_Z (2 ^ 53))%Q.

(** Two optional numbers are the same: both absent, or equal numbers. *)
Definition same_option (a b : option Q) : Prop :=
  match a, b with
  | Some x, Some y => (x == y)%Q
  | None, None => True
  | _, _ => False
  end.

(** The volumes of [dv], each multiplied by [k]. *)
Definition scaled (k : Q) (dv : list Dashboard.DailyVolume)
    : list Dashboard.DailyVolume :=
  map (fun p => (fst p, (snd p * k)%Q)) dv.

(** Two accumulators of the loop over the wallets, the second read at a
    later time: the same figures, except that stake may have moved from
    locked to expired. *)
Definition read_later {P : Type} (r1 r2 : Chain.Results P) : Prop :=
  (Chain.liquid r1 == Chain.liquid r2)%Q
  /\ (Chain.liquid_bsc r1 == Chain.liquid_bsc r2)%Q
  /\ (Chain.vested_unclaimed r1 == Chain.vested_unclaimed r2)%Q
  /\ (Chain.locked_vesting r1 == Chain.locked_vesting r2)%Q
  /\ (Chain.staked_total r1 == Chain.staked_total r2)%Q
  /\ (Chain.rewards r1 == Chain.rewards r2)%Q
  /\ (Chain.staked_expired r1 <= Chain.staked_expired r2)%Q
  /\ (Chain.staked_locked r2 <= Chain.staked_locked r1)%Q.

(** The rows of the treasury in the first file that has any. *)
Fixpoint rows_from (files : list Telegram.CsvFile) (owner : string)
    : list Telegram.CsvRow :=
  match files with
  | [] => []
  | Telegram.Table rows :: rest =>
      match filter (Telegram.owned_by owner) rows with
      | [] => rows_from rest owner
      | fdn => fdn
      end
  | _ :: rest => rows_from rest owner
  end.

(** Reading a formatted figure back: a minus sign in front makes the
    number negative, commas are dropped, the rest is read as a decimal
    number. *)
Definition read_figure (s : string) : option Z :=
  let chars := list_ascii_of_string s in
  let negative := match chars with
                  | "-"%char :: _ => true
                  | _ => false
                  end in
  let body := match chars with
              | "-"%char :: rest => rest
              | _ => chars
              end in
  match NilZero.uint_of_string
          (string_of_list_ascii
             (filter (fun c => negb (Ascii.eqb c ","%char)) body)) with
  | Some d =>
      Some (if negative then - Z.of_N (N.of_uint d) else Z.of_N (N.of_uint d))
  | None => None
  end.

(** A decimal digit. *)
Definition is_digit (c : ascii) : bool :=
  existsb (Ascii.eqb c)
    ["0"; "1"; "2"; "3"; "4"; "5"; "6"; "7"; "8"; "9"]%char.

End Props.

(** ** More sample inputs *)
Module Samples2.
Import Py Dashboard.

(** Eight daily klines from 1 January 2026 (day 20454) on, each with a
    quote volume of 10, in milliseconds. *)
Definition eight_klines : list Binance.Kline :=
  map (fun n => Binance.mkKline ((20454 + n) * 86400000) 10)
      [0; 1; 2; 3; 4; 5; 6; 7].

(** Noon of 8 January 2026, in seconds. *)
Definition noon_8_jan : Z := 20461 * 86400 + 43200.

(** Fourteen day candles of Upbit, 1000 won each day. *)
Definition won_candles : list Volumes.UpbitCandle :=
  map (fun n => Volumes.mkUpbitCandle (Samples.jan n) (Some 1000%Q))
      [1; 2; 3; 4; 5; 6; 7; 8; 9; 10; 11; 12; 13; 14].

End Samples2.

(** * Properties *)

(** ** Arithmetic of the Python built-ins *)
Section PyFacts.
Import Py.

Lemma Qltb_lt (x y : Q) : Qltb x y = true <-> (x < y)%Q.
Proof.
  unfold Qltb. rewrite negb_true_iff.
  split; intro H.
  - apply Qnot_le_lt. intro Hle. apply Qle_bool_iff in Hle. congruence.
  - destruct (Qle_bool y x) eqn:E; [|reflexivity].
    apply Qle_bool_iff in E. exfalso. apply (Qlt_not_le _ _ H E).
Qed.

Lemma Qltb_ge (x y : Q) : Qltb x y = false <-> (y <= x)%Q.
Proof.
  unfold Qltb. rewrite negb_false_iff. apply Qle_bool_iff.
Qed.

#[local] Instance Qltb_comp : Proper (Qeq ==> Qeq ==> eq) Qltb.
Proof.
  intros x x' Hx y y' Hy. unfold Qltb. now rewrite Hx, Hy.
Qed.

Lemma truediv_nonzero (a b : Q) :
  ~ (b == 0)%Q -> truediv a b = Some (a / b)%Q.
Proof.
  intro H. unfold truediv.
  destruct (Qeq_bool b 0) eqn:E; [|reflexivity].
  apply Qeq_bool_iff in E. contradiction.
Qed.

Lemma max0_Qmax (x : Q) : (max0 x == Qmax 0 x)%Q.
Proof.
  unfold max0. destruct (Qltb 0 x) eqn:E.
  - apply Qltb_lt in E. symmetry. apply Q.max_r. now apply Qlt_le_weak.
  - apply Qltb_ge in E. symmetry. now apply Q.max_l.
Qed.

Lemma max0_nonneg (x : Q) : (0 <= max0 x)%Q.
Proof.
  unfold max0. destruct (Qltb 0 x) eqn:E.
  - apply Qltb_lt in E. now apply Qlt_le_weak.
  - apply Qle_refl.
Qed.

Lemma round_comp (x y : Q) : (x == y)%Q -> round x = round y.
Proof.
  intro H. unfold round.
  rewrite (Qfloor_comp _ _ H).
  assert (Hr : (x - inject_Z (Qfloor y) == y - inject_Z (Qfloor y))%Q)
    by (rewrite H; reflexivity).
  rewrite (Qltb_comp _ _ Hr _ _ (Qeq_refl (1 # 2))).
  now rewrite (Qltb_comp _ _ (Qeq_refl (1 # 2)) _ _ Hr).
Qed.

(** The three cases of [round], as bounds on the fractional part. *)
Lemma round_cases (x : Q) :
  let f := Qfloor x in
  let r := (x - inject_Z f)%Q in
  ((r < 1 # 2)%Q /\ round x = f)
  \/ ((1 # 2 < r)%Q /\ round x = f + 1)
  \/ ((r == 1 # 2)%Q /\ (round x = f \/ round x = f + 1)).
Proof.
  cbv zeta. unfold round.
  destruct (Qltb (x - inject_Z (Qfloor x)) (1 # 2)) eqn:E1.
  - left. apply Qltb_lt in E1. auto.
  - destruct (Qltb (1 # 2) (x - inject_Z (Qfloor x))) eqn:E2.
    + right; left. apply Qltb_lt in E2. auto.
    + right; right. apply Qltb_ge in E1. apply Qltb_ge in E2.
      split; [now apply Qle_antisym|].
      destruct (Z.even (Qfloor x)); auto.
Qed.

Lemma round_between (x : Q) : Qfloor x <= round x <= Qfloor x + 1.
Proof.
  destruct (round_cases x) as [[_ ->]|[[_ ->]|[_ [->| ->]]]]; lia.
Qed.

Lemma round_mono (x y : Q) : (x <= y)%Q -> round x <= round y.
Proof.
  intro Hxy.
  pose proof (Qfloor_resp_le _ _ Hxy) as Hf.
  destruct (Z.eq_dec (Qfloor x) (Qfloor y)) as [Heq|Hne].
  - unfold round. rewrite Heq.
    set (f := Qfloor y).
    assert (Hr : (x - inject_Z f <= y - inject_Z f)%Q) by lra.
    destruct (Qltb (x - inject_Z f) (1 # 2)) eqn:X1;
      destruct (Qltb (y - inject_Z f) (1 # 2)) eqn:Y1;
      destruct (Qltb (1 # 2) (x - inject_Z f)) eqn:X2;
      destruct (Qltb (1 # 2) (y - inject_Z f)) eqn:Y2;
      destruct (Z.even f);
      try lia;
      repeat match goal with
             | H : Qltb _ _ = true |- _ => apply Qltb_lt in H
             | H : Qltb _ _ = false |- _ => apply Qltb_ge in H
             end; lra.
  - pose proof (round_between x). pose proof (round_between y). lia.
Qed.

(** [round] returns a nearest integer. *)
Lemma round_nearest (x : Q) : (Qabs (inject_Z (round x) - x) <= 1 # 2)%Q.
Proof.
  pose proof (Qfloor_le x) as Hlo. pose proof (Qlt_floor x) as Hhi.
  rewrite inject_Z_plus in Hhi. change (inject_Z 1) with 1%Q in Hhi.
  apply Qabs_Qle_condition.
  destruct (round_cases x) as [[Hr ->]|[[Hr ->]|[Hr [-> | ->]]]];
    rewrite ?inject_Z_plus; change (inject_Z 1) with 1%Q; split; lra.
Qed.

Lemma round_Z (z : Z) : round (inject_Z z) = z.
Proof.
  unfold round. rewrite Qfloor_Z.
  assert (E : Qltb (inject_Z z - inject_Z z) (1 # 2) = true).
  { apply Qltb_lt. lra. }
  now rewrite E.
Qed.

Lemma fold_left_Qplus (l : list Q) (a : Q) :
  (fold_left Qplus l a == a + fold_right Qplus 0 l)%Q.
Proof.
  revert a. induction l as [|x l IH]; intro a; simpl.
  - lra.
  - rewrite IH. lra.
Qed.

Lemma sum_fold_right (l : list Q) : (sum l == fold_right Qplus 0 l)%Q.
Proof.
  unfold sum. rewrite fold_left_Qplus. lra.
Qed.

Lemma sum_cons (x : Q) (l : list Q) : (sum (x :: l) == x + sum l)%Q.
Proof.
  rewrite !sum_fold_right. simpl. lra.
Qed.

Lemma sum_nonneg (l : list Q) :
  Forall (fun x => 0 <= x)%Q l -> (0 <= sum l)%Q.
Proof.
  induction 1 as [|x l Hx _ IH].
  - unfold sum; simpl. lra.
  - rewrite sum_cons. lra.
Qed.

Lemma to_tokens_nonneg (n : Z) : 0 <= n -> (0 <= Chain.to_tokens n)%Q.
Proof.
  intro H. unfold Chain.to_tokens.
  apply Qle_shift_div_l.
  - reflexivity.
  - rewrite Qmult_0_l. replace 0%Q with (inject_Z 0) by reflexivity.
    now rewrite <- Zle_Qle.
Qed.

End PyFacts.

(** ** The vesting projector *)
Section Vesting.
Import Py Dashboard.
Import Spec (well_formed).

Lemma rate_defined (v : VestingSchedule) :
  well_formed v ->
  truediv (inject_Z (vs_total v)) (inject_Z (vs_end v - vs_start v))
  = Some (Spec.rate v).
Proof.
  intro Hwf. apply truediv_nonzero.
  replace 0%Q with (inject_Z 0) by reflexivity.
  rewrite inject_Z_injective. unfold well_formed in Hwf. lia.
Qed.

Lemma rate_nonneg (v : VestingSchedule) :
  well_formed v -> 0 <= vs_total v -> (0 <= Spec.rate v)%Q.
Proof.
  unfold well_formed. intros Hwf Ht. unfold Spec.rate.
  apply Qle_shift_div_l.
  - replace 0%Q with (inject_Z 0) by reflexivity.
    rewrite <- Zlt_Qlt. lia.
  - rewrite Qmult_0_l. replace 0%Q with (inject_Z 0) by reflexivity.
    now rewrite <- Zle_Qle.
Qed.

Lemma rate_pos (v : VestingSchedule) :
  well_formed v -> 0 < vs_total v -> (0 < Spec.rate v)%Q.
Proof.
  unfold well_formed. intros Hwf Ht. unfold Spec.rate.
  apply Qlt_shift_div_l.
  - replace 0%Q with (inject_Z 0) by reflexivity.
    rewrite <- Zlt_Qlt. lia.
  - rewrite Qmult_0_l. replace 0%Q with (inject_Z 0) by reflexivity.
    now rewrite <- Zlt_Qlt.
Qed.

Lemma rate_of_zero_total (v : VestingSchedule) :
  vs_total v = 0 -> (Spec.rate v == 0)%Q.
Proof.
  intro H0. unfold Spec.rate. rewrite H0. unfold Qdiv. apply Qmult_0_l.
Qed.

(** A turn of the loop adds the specification's contribution. *)
Lemma projection_step_adds (now_ts target_ts : Z) (total : Q)
    (v : VestingSchedule) :
  well_formed v ->
  exists total',
    projection_step now_ts target_ts total v = Some total'
    /\ (total' == total + Spec.contribution now_ts target_ts v)%Q.
Proof.
  intro Hwf. unfold projection_step. rewrite (rate_defined v Hwf). simpl.
  unfold Spec.contribution, Spec.effective_end.
  rewrite Z.gtb_ltb.
  destruct (now_ts <? Z.min target_ts (vs_end v)); eexists; split;
    try reflexivity; lra.
Qed.

Lemma projection_loop_sums (now_ts target_ts : Z)
    (schedules : list VestingSchedule) :
  Forall well_formed schedules ->
  forall total, exists total',
    projection_loop now_ts target_ts total schedules = Some total'
    /\ (total' == total + Spec.contributions_sum schedules now_ts target_ts)%Q.
Proof.
  unfold Spec.contributions_sum.
  induction 1 as [|v rest Hv _ IH]; intro total; simpl.
  - exists total. split; [reflexivity | lra].
  - destruct (projection_step_adds now_ts target_ts total v Hv)
      as (t1 & -> & E1).
    simpl. destruct (IH t1) as (t2 & -> & E2).
    exists t2. split; [reflexivity|]. rewrite E2, E1. lra.
Qed.

Lemma contribution_nonneg (now_ts target_ts : Z) (v : VestingSchedule) :
  well_formed v -> 0 <= vs_total v ->
  (0 <= Spec.contribution now_ts target_ts v)%Q.
Proof.
  intros Hwf Ht. pose proof (rate_nonneg v Hwf Ht) as Hr.
  unfold Spec.contribution.
  destruct (Spec.effective_end target_ts v >? now_ts) eqn:E; [|lra].
  apply Z.gtb_lt in E.
  apply Qmult_le_0_compat; [exact Hr|].
  replace 0%Q with (inject_Z 0) by reflexivity.
  rewrite <- Zle_Qle. lia.
Qed.

Lemma contribution_mono (now_ts t1 t2 : Z) (v : VestingSchedule) :
  well_formed v -> 0 <= vs_total v -> t1 <= t2 ->
  (Spec.contribution now_ts t1 v <= Spec.contribution now_ts t2 v)%Q.
Proof.
  intros Hwf Ht H12. pose proof (rate_nonneg v Hwf Ht) as Hr.
  pose proof (contribution_nonneg now_ts t2 v Hwf Ht) as H2.
  unfold Spec.contribution in *. unfold Spec.effective_end in *.
  destruct (Z.min t1 (vs_end v) >? now_ts) eqn:E1; [|exact H2].
  apply Z.gtb_lt in E1.
  assert (E2 : (Z.min t2 (vs_end v) >? now_ts) = true)
    by (apply Z.gtb_lt; lia).
  rewrite E2.
  assert (Hd : (inject_Z (Z.min t1 (vs_end v) - now_ts)
                <= inject_Z (Z.min t2 (vs_end v) - now_ts))%Q)
    by (rewrite <- Zle_Qle; lia).
  nra.
Qed.

Lemma contributions_mono (now_ts t1 t2 : Z) (schedules : list VestingSchedule) :
  Forall (fun v => well_formed v /\ 0 <= vs_total v) schedules ->
  t1 <= t2 ->
  (Spec.contributions_sum schedules now_ts t1
   <= Spec.contributions_sum schedules now_ts t2)%Q.
Proof.
  intros Hall H12. unfold Spec.contributions_sum.
  induction Hall as [|v rest [Hwf Ht] _ IH]; simpl.
  - lra.
  - pose proof (contribution_mono now_ts t1 t2 v Hwf Ht H12). lra.
Qed.

(** The projection of well-formed schedules is defined, and is the
    specification's rounded sum. *)
Lemma projection_of_well_formed (schedules : list VestingSchedule)
    (now_ts target_ts : Z) :
  Forall well_formed schedules ->
  vesting_projection schedules now_ts target_ts
  = Some (Spec.total_projection schedules now_ts target_ts).
Proof.
  intro Hwf. unfold vesting_projection, Spec.total_projection.
  destruct (projection_loop_sums now_ts target_ts schedules Hwf 0%Q)
    as (total & -> & E).
  simpl. f_equal. apply round_comp. rewrite E. lra.
Qed.

(** The configured table satisfies the invariant of the data model, with
    every allocation positive. *)
Lemma configured_schedules_positive :
  Forall (fun v => well_formed v /\ 0 < vs_total v) VESTING_SCHEDULES.
Proof.
  repeat constructor; unfold well_formed; simpl; lia.
Qed.

(** So the function of the source returns for every clock and target. *)
Lemma calculate_vesting_projection_defined (now_ts target_ts : Z) :
  calculate_vesting_projection now_ts target_ts
  = Some (Spec.total_projection VESTING_SCHEDULES now_ts target_ts).
Proof.
  apply projection_of_well_formed.
  eapply Forall_impl; [|exact configured_schedules_positive].
  intros v [H _]. exact H.
Qed.

End Vesting.

(** ** Binary64: sums and zeros *)
Section FloatFacts.
Import Py Dashboard Binary64.

Lemma is_zero_true (x : float) :
  is_zero x = true -> exists s, x = S754_zero s.
Proof.
  destruct x; try discriminate. intros _. now eexists.
Qed.

(** Adding the same float to two sums that agree. *)
Lemma same_number_add (t1 t2 c : float) :
  FloatSpec.same_number t1 t2 ->
  FloatSpec.same_number (add t1 c) (add t2 c).
Proof.
  intros [->|[H1 H2]]; [now left|].
  apply is_zero_true in H1, H2. destruct H1 as (s1 & ->), H2 as (s2 & ->).
  destruct c as [sc|sc| |sc mc ec]; try (left; reflexivity).
  right. destruct s1, s2, sc; split; reflexivity.
Qed.

(** Adding 0.0 changes nothing but, possibly, the sign of a zero. *)
Lemma same_number_add_zero (t1 t2 : float) :
  FloatSpec.same_number t1 t2 ->
  FloatSpec.same_number t1 (add t2 zero).
Proof.
  intros [->|[H1 H2]].
  - destruct t2 as [s|s| |s m e]; try (left; reflexivity).
    right. destruct s; split; reflexivity.
  - apply is_zero_true in H2. destruct H2 as (s2 & ->).
    right. split; [exact H1|]. destruct s2; reflexivity.
Qed.

Lemma round_same_number (x y : float) :
  FloatSpec.same_number x y -> round x = round y.
Proof.
  intros [->|[H1 H2]]; [reflexivity|].
  apply is_zero_true in H1, H2. destruct H1 as (s1 & ->), H2 as (s2 & ->).
  reflexivity.
Qed.

Lemma same_number_refl (x : float) : FloatSpec.same_number x x.
Proof. now left. Qed.

(** The loop and the sum of the contributions, from accumulators that
    agree: both fail, or both end on the same number. *)
Lemma projection_loop_sums64 (now_ts target_ts : Z)
    (schedules : list VestingSchedule) (t1 t2 : float) :
  FloatSpec.same_number t1 t2 ->
  match projection_loop now_ts target_ts t1 schedules,
        FloatSpec.contributions now_ts target_ts schedules with
  | Some total, Some cs => FloatSpec.same_number total (fold_left add cs t2)
  | None, None => True
  | _, _ => False
  end.
Proof.
  revert t1 t2. induction schedules as [|v rest IH]; intros t1 t2 H.
  - exact H.
  - cbn [projection_loop FloatSpec.contributions].
    unfold projection_step, FloatSpec.contribution, Py.bind.
    destruct (int_truediv (vs_total v) (vs_end v - vs_start v)) as [rate|];
      [|exact I].
    cbv zeta. rewrite Z.gtb_ltb.
    destruct (now_ts <? Z.min target_ts (vs_end v)).
    + destruct (of_int (Z.min target_ts (vs_end v) - now_ts)) as [seconds|];
        [|exact I].
      specialize (IH (add t1 (mul rate seconds)) (add t2 (mul rate seconds))
                     (same_number_add t1 t2 _ H)).
      destruct (projection_loop now_ts target_ts _ rest),
               (FloatSpec.contributions now_ts target_ts rest); exact IH.
    + specialize (IH t1 (add t2 zero) (same_number_add_zero t1 t2 H)).
      destruct (projection_loop now_ts target_ts t1 rest),
               (FloatSpec.contributions now_ts target_ts rest); exact IH.
Qed.

Lemma round_of_finite (x : float) (q : Q) :
  to_Q x = Some q ->
  round x = Some (Py.round q)
  /\ (Qabs (inject_Z (Py.round q) - q) <= 1 # 2)%Q.
Proof.
  intro H. unfold round. rewrite H. split; [reflexivity|].
  apply round_nearest.
Qed.

End FloatFacts.

(** ** The projector in binary64 *)
Section VestingBinary64.
Import Py Dashboard.

(** C5.  In the program's arithmetic (binary64) the projection is the
    sum, over all schedules in the order of the table and starting from
    0, of the contributions rate x (effective_end - now) for
    effective_end = min(target, end) > now and 0 otherwise, with rate =
    total / (end - start), rounded once, after the sum, to the nearest
    integer (at distance at most one half, ties to even); it fails
    exactly when a contribution cannot be computed or the sum is not
    finite.  The schedule (start 0, end 100, total 100) with now = 50
    and target = 100 contributes 50.0 and projects to 50. *)
Theorem vesting_projection_is_rounded_sum
    (schedules : list VestingSchedule) (now_ts target_ts : Z) :
  Binary64.vesting_projection schedules now_ts target_ts
  = FloatSpec.total_projection schedules now_ts target_ts
  /\ (forall total q,
         Binary64.to_Q total = Some q ->
         Binary64.round total = Some (Py.round q)
         /\ (Qabs (inject_Z (Py.round q) - q) <= 1 # 2)%Q)
  /\ FloatSpec.contribution 50 100 (mkSchedule "example" 0 100 100)
     = Some (Binary64.of_const 50)
  /\ Binary64.vesting_projection [mkSchedule "example" 0 100 100] 50 100
     = Some 50.
Proof.
  split; [|split; [|split]].
  - unfold Binary64.vesting_projection, FloatSpec.total_projection, Py.bind.
    pose proof (projection_loop_sums64 now_ts target_ts schedules
                  Binary64.zero Binary64.zero
                  (same_number_refl Binary64.zero)) as H.
    destruct (Binary64.projection_loop now_ts target_ts Binary64.zero schedules)
      as [total|];
      destruct (FloatSpec.contributions now_ts target_ts schedules) as [cs|];
      try contradiction; [|reflexivity].
    now apply round_same_number.
  - intros total q. apply round_of_finite.
  - vm_compute. reflexivity.
  - vm_compute. reflexivity.
Qed.

Lemma vesting_projection_is_rounded_sum_witness :
  Binary64.calculate_vesting_projection 1762000000 1774569600 = Some 5934265
  /\ FloatSpec.total_projection VESTING_SCHEDULES 1762000000 1774569600
     = Some 5934265.
Proof.
  unfold Binary64.calculate_vesting_projection.
  rewrite (proj1 (vesting_projection_is_rounded_sum
                    VESTING_SCHEDULES 1762000000 1774569600)).
  split; vm_compute; reflexivity.
Defined.

(** Rounding each contribution instead gives another number: two
    contributions of 0.5 sum to 1.0, and round to 0 each. *)
Example rounding_once_differs_in_binary64 :
  let halves := [mkSchedule "a" 0 2 1; mkSchedule "b" 0 2 1] in
  Binary64.vesting_projection halves 0 1 = Some 1
  /\ FloatSpec.rounded_per_schedule halves 0 1 = Some 0.
Proof. split; vm_compute; reflexivity. Qed.

(** Why the projector is read in binary64: for the schedule (start 0,
    end 14, total 29) and seven seconds the exact amount is 14.5, which
    rounds to 14, and the program's product is 14.500000000000002, which
    rounds to 15. *)
Example binary64_rounds_elsewhere :
  let v := mkSchedule "odd" 0 14 29 in
  Binary64.vesting_projection [v] 0 7 = Some 15
  /\ Dashboard.vesting_projection [v] 0 7 = Some 14.
Proof. split; vm_compute; reflexivity. Qed.

End VestingBinary64.

(** ** Claims on the vesting projector *)
Section VestingClaims.
Import Py Dashboard.

(** Rounding each schedule's contribution instead gives another
    number: two contributions of one half sum to 1, and round to 0
    each. *)
Example rounding_once_differs_from_per_schedule :
  let halves := [mkSchedule "a" 0 2 1; mkSchedule "b" 0 2 1] in
  vesting_projection halves 0 1 = Some 1
  /\ Spec.rounded_per_schedule halves 0 1 = 0.
Proof. split; reflexivity. Qed.

(** C6.  With now and the schedules fixed (each with end > start and
    total >= 0), the projection for a later target date is at least the
    projection for an earlier one. *)
Theorem vesting_projection_monotone
    (schedules : list VestingSchedule) (now_ts t1 t2 : Z) :
  Forall (fun v => Spec.well_formed v /\ 0 <= vs_total v) schedules ->
  t1 <= t2 ->
  exists p1 p2,
    vesting_projection schedules now_ts t1 = Some p1
    /\ vesting_projection schedules now_ts t2 = Some p2
    /\ p1 <= p2.
Proof.
  intros Hall H12.
  assert (Hwf : Forall Spec.well_formed schedules)
    by (eapply Forall_impl; [|exact Hall]; intros v [H _]; exact H).
  exists (Spec.total_projection schedules now_ts t1),
         (Spec.total_projection schedules now_ts t2).
  repeat split; try now apply projection_of_well_formed.
  apply round_mono. now apply contributions_mono.
Qed.

Lemma vesting_projection_monotone_witness :
  exists p1 p2,
    calculate_vesting_projection 1762000000 1770000000 = Some p1
    /\ calculate_vesting_projection 1762000000 1774569600 = Some p2
    /\ p1 <= p2.
Proof.
  apply (vesting_projection_monotone VESTING_SCHEDULES
           1762000000 1770000000 1774569600).
  - repeat constructor; unfold Spec.well_formed; simpl; lia.
  - lia.
Defined.

(** C9, as the code has it.  For a schedule with end > start whose
    start lies in the future (now < start, and min(target, end) > now),
    whatever its total: the loop adds rate x (effective_end - now) to
    its accumulator, in exact arithmetic and in binary64 alike (there,
    when the quotient and the number of seconds are representable), so
    the accrual window is not clamped at the start; the table shows
    max(0, that amount), which is that amount when total >= 0.  Read as
    exact rationals, the amount strictly exceeds rate x (effective_end -
    start) when total > 0, and both are 0 when total = 0. *)
Theorem future_start_accrues_from_now
    (v : VestingSchedule) (now_ts target_ts : Z) (total : Q) :
  Spec.well_formed v ->
  now_ts < vs_start v ->
  now_ts < Z.min target_ts (vs_end v) ->
  let effective_end := Z.min target_ts (vs_end v) in
  let accrued := (Spec.rate v * inject_Z (effective_end - now_ts))%Q in
  let from_start := (Spec.rate v * inject_Z (effective_end - vs_start v))%Q in
  projection_step now_ts target_ts total v = Some (total + accrued)%Q
  /\ (forall t : Binary64.float,
        Binary64.projection_step now_ts target_ts t v
        = (rate <- Binary64.int_truediv (vs_total v) (vs_end v - vs_start v) ;;
           seconds <- Binary64.of_int (effective_end - now_ts) ;;
           Some (Binary64.add t (Binary64.mul rate seconds))))
  /\ (exists w, will_vest now_ts target_ts v = Some w
                /\ (w == Qmax 0 accrued)%Q
                /\ (0 <= vs_total v -> (w == accrued)%Q))
  /\ (0 < vs_total v -> (from_start < accrued)%Q)
  /\ (vs_total v = 0 -> (accrued == 0)%Q /\ (from_start == 0)%Q).
Proof.
  intros Hwf Hfut Heff. cbv zeta.
  assert (Hlt : (now_ts <? Z.min target_ts (vs_end v)) = true)
    by now apply Z.ltb_lt.
  assert (Hd : (inject_Z (Z.min target_ts (vs_end v) - vs_start v)
                < inject_Z (Z.min target_ts (vs_end v) - now_ts))%Q)
    by (rewrite <- Zlt_Qlt; lia).
  assert (Hn : (0 < inject_Z (Z.min target_ts (vs_end v) - now_ts))%Q).
  { replace 0%Q with (inject_Z 0) by reflexivity. rewrite <- Zlt_Qlt. lia. }
  split; [|split; [|split; [|split]]].
  - unfold projection_step. rewrite (rate_defined v Hwf). simpl.
    now rewrite Hlt.
  - intro t. unfold Binary64.projection_step. cbv zeta. now rewrite Hlt.
  - unfold will_vest. rewrite (rate_defined v Hwf). simpl. rewrite Hlt.
    eexists. split; [reflexivity|]. split; [apply max0_Qmax|].
    intro Hnn. pose proof (rate_nonneg v Hwf Hnn) as Hr.
    rewrite max0_Qmax. apply Q.max_r. nra.
  - intro Hpos. pose proof (rate_pos v Hwf Hpos) as Hr. nra.
  - intro H0. pose proof (rate_of_zero_total v H0) as Hr.
    split; rewrite Hr; ring.
Qed.

Lemma future_start_accrues_from_now_witness :
  projection_step 50 200 0 (mkSchedule "later" 100 200 100)
  = Some (0 + Spec.rate (mkSchedule "later" 100 200 100) * inject_Z (200 - 50))%Q.
Proof.
  destruct (future_start_accrues_from_now
              (mkSchedule "later" 100 200 100) 50 200 0%Q) as [H _];
    [unfold Spec.well_formed; simpl; lia | simpl; lia | simpl; lia | exact H].
Defined.

(** C9 as stated fails for an empty allocation: the schedule (start
    100, end 200, total 0) starts in the future of now = 50, and what
    the loop adds for it, 0, does not exceed rate x (effective_end -
    start) = 0. *)
Lemma future_start_zero_total_not_strict :
  let v := mkSchedule "empty" 100 200 0 in
  Spec.well_formed v /\ 0 <= vs_total v
  /\ 50 < vs_start v /\ 50 < Z.min 200 (vs_end v)
  /\ exists added,
       projection_step 50 200 0 v = Some added
       /\ ~ (Spec.rate v * inject_Z (Z.min 200 (vs_end v) - vs_start v)
             < added)%Q.
Proof.
  cbv zeta. unfold Spec.well_formed. simpl.
  repeat (split; [lia|]).
  eexists. split; [reflexivity|].
  intro H. vm_compute in H. discriminate H.
Qed.

End VestingClaims.

(** ** Dates, the stable sort and slices *)
Section SortFacts.
Import Py Dashboard.

Lemma date_ltb_true (a b : date) :
  date_ltb a b = true
  <-> (year a < year b
       \/ (year a = year b
           /\ (month a < month b \/ (month a = month b /\ day a < day b)))).
Proof.
  unfold date_ltb.
  rewrite !orb_true_iff, !andb_true_iff, !orb_true_iff, !andb_true_iff.
  rewrite !Z.ltb_lt, !Z.eqb_eq. reflexivity.
Qed.

Lemma date_ltb_false (a b : date) :
  date_ltb a b = false
  <-> ~ (year a < year b
         \/ (year a = year b
             /\ (month a < month b \/ (month a = month b /\ day a < day b)))).
Proof.
  rewrite <- date_ltb_true. destruct (date_ltb a b); split; intro H;
    try reflexivity; try discriminate; try (intro; discriminate).
  exfalso. now apply H.
Qed.

Lemma date_eqb_true (a b : date) :
  date_eqb a b = true <-> (year a = year b /\ month a = month b /\ day a = day b).
Proof.
  unfold date_eqb. rewrite !andb_true_iff, !Z.eqb_eq. tauto.
Qed.

Lemma date_leb_trans (a b c : date) :
  date_leb a b = true -> date_leb b c = true -> date_leb a c = true.
Proof.
  unfold date_leb. rewrite !negb_true_iff, !date_ltb_false. lia.
Qed.

Lemma date_ltb_leb (a b : date) : date_ltb a b = true -> date_leb a b = true.
Proof.
  unfold date_leb. rewrite negb_true_iff, date_ltb_true, date_ltb_false. lia.
Qed.

Lemma date_eqb_not_ltb (a b d : date) :
  date_eqb a d = true -> date_eqb b d = true -> date_ltb a b = false.
Proof.
  rewrite !date_eqb_true, date_ltb_false. lia.
Qed.

Lemma insert_by_date_perm (x : DailyVolume) (l : list DailyVolume) :
  Permutation (x :: l) (insert_by_date x l).
Proof.
  induction l as [|y rest IH]; simpl.
  - reflexivity.
  - destruct (date_ltb (fst y) (fst x)).
    + rewrite perm_swap. now apply perm_skip.
    + reflexivity.
Qed.

Lemma sort_by_date_perm (l : list DailyVolume) :
  Permutation l (sort_by_date l).
Proof.
  induction l as [|x rest IH]; simpl.
  - reflexivity.
  - rewrite <- insert_by_date_perm. now apply perm_skip.
Qed.

Lemma sort_by_date_length (l : list DailyVolume) :
  length (sort_by_date l) = length l.
Proof.
  symmetry. apply Permutation_length, sort_by_date_perm.
Qed.

Lemma insert_by_date_sorted (x : DailyVolume) (l : list DailyVolume) :
  StronglySorted Spec.ascending l ->
  StronglySorted Spec.ascending (insert_by_date x l).
Proof.
  induction 1 as [|y rest Hs IH Hy]; simpl.
  - repeat constructor.
  - destruct (date_ltb (fst y) (fst x)) eqn:E.
    + constructor; [exact IH|].
      apply (Permutation_Forall (insert_by_date_perm x rest)).
      constructor; [|exact Hy].
      now apply date_ltb_leb.
    + assert (Hxy : Spec.ascending x y)
        by (unfold Spec.ascending, date_leb; now rewrite E).
      constructor; [now constructor|].
      constructor; [exact Hxy|].
      eapply Forall_impl; [|exact Hy].
      intros z Hz. unfold Spec.ascending in *.
      now apply date_leb_trans with (fst y).
Qed.

Lemma sort_by_date_sorted (l : list DailyVolume) :
  StronglySorted Spec.ascending (sort_by_date l).
Proof.
  induction l as [|x rest IH]; simpl.
  - constructor.
  - now apply insert_by_date_sorted.
Qed.

(** Stability: the entries of one date keep their order of arrival. *)
Lemma insert_by_date_stable (d : date) (x : DailyVolume) (l : list DailyVolume) :
  filter (fun p => date_eqb (fst p) d) (insert_by_date x l)
  = filter (fun p => date_eqb (fst p) d) (x :: l).
Proof.
  induction l as [|y rest IH]; [reflexivity|].
  simpl insert_by_date.
  destruct (date_ltb (fst y) (fst x)) eqn:E; [|reflexivity].
  cbn [filter] in *. rewrite IH.
  destruct (date_eqb (fst x) d) eqn:Ex; [|reflexivity].
  destruct (date_eqb (fst y) d) eqn:Ey; [|reflexivity].
  rewrite (date_eqb_not_ltb _ _ _ Ey Ex) in E. discriminate.
Qed.

Lemma sort_by_date_stable (d : date) (l : list DailyVolume) :
  filter (fun p => date_eqb (fst p) d) (sort_by_date l)
  = filter (fun p => date_eqb (fst p) d) l.
Proof.
  induction l as [|x rest IH]; [reflexivity|].
  simpl sort_by_date. rewrite insert_by_date_stable.
  cbn [filter]. now rewrite IH.
Qed.

Lemma filtered_sorted_length (today : date) (dv : list DailyVolume) :
  length (filtered_sorted today dv) = length (Spec.before today dv).
Proof.
  unfold filtered_sorted, Spec.before. apply sort_by_date_length.
Qed.

Lemma before_length (today : date) (dv : list DailyVolume) :
  (length (Spec.before today dv) <= length dv)%nat.
Proof.
  unfold Spec.before. apply filter_length_le.
Qed.

(** [l[-7:]] of a list that ends with the seven entries [cur]. *)
Lemma slice_last_week {A : Type} (older cur : list A) :
  length cur = 7%nat ->
  slice (older ++ cur) (Some (-7)) None = cur.
Proof.
  intro Hc. unfold slice, slice_index.
  change (-7 <? 0) with true. cbv iota.
  rewrite length_app.
  replace (Z.to_nat (Z.max 0 (Z.of_nat (length older + length cur) + -7)))
    with (length older) by lia.
  replace (Z.to_nat (Z.of_nat (length older + length cur)
                     - Z.max 0 (Z.of_nat (length older + length cur) + -7)))
    with (length cur) by lia.
  rewrite skipn_app, skipn_all, Nat.sub_diag.
  cbn [skipn app]. apply firstn_all.
Qed.

(** [l[-14:-7]] of a list that ends with [prev], then [cur]. *)
Lemma slice_previous_week {A : Type} (older prev cur : list A) :
  length prev = 7%nat -> length cur = 7%nat ->
  slice (older ++ prev ++ cur) (Some (-14)) (Some (-7)) = prev.
Proof.
  intros Hp Hc. unfold slice, slice_index.
  change (-14 <? 0) with true. change (-7 <? 0) with true. cbv iota.
  rewrite !length_app.
  set (n := (length older + (length prev + length cur))%nat).
  replace (Z.to_nat (Z.max 0 (Z.of_nat n + -14)))
    with (length older) by lia.
  replace (Z.to_nat (Z.max 0 (Z.of_nat n + -7) - Z.max 0 (Z.of_nat n + -14)))
    with (length prev) by lia.
  rewrite skipn_app, skipn_all, Nat.sub_diag.
  cbn [skipn app].
  rewrite firstn_app, firstn_all, Nat.sub_diag.
  cbn [firstn]. apply app_nil_r.
Qed.

(** A list of at least [n] entries ends with [n] entries. *)
Lemma split_last {A : Type} (n : nat) (l : list A) :
  (n <= length l)%nat ->
  exists older cur, l = older ++ cur /\ length cur = n.
Proof.
  intro H. exists (firstn (length l - n) l), (skipn (length l - n) l).
  split.
  - symmetry. apply firstn_skipn.
  - rewrite length_skipn. lia.
Qed.

End SortFacts.

(** ** Inputs without a repeated date *)
Section DistinctDates.
Import Py Dashboard.

Lemma date_eqb_sym (a b : date) : date_eqb a b = date_eqb b a.
Proof.
  unfold date_eqb. now rewrite (Z.eqb_sym (year a)), (Z.eqb_sym (month a)),
    (Z.eqb_sym (day a)).
Qed.

Lemma existsb_insert_by_date (p : DailyVolume -> bool) (x : DailyVolume)
    (l : list DailyVolume) :
  existsb p (insert_by_date x l) = p x || existsb p l.
Proof.
  induction l as [|y rest IH]; simpl; [reflexivity|].
  destruct (date_ltb (fst y) (fst x)); simpl; [|reflexivity].
  rewrite IH. destruct (p x), (p y); reflexivity.
Qed.

Lemma has_duplicate_insert (x : DailyVolume) (l : list DailyVolume) :
  Spec.has_duplicate_date (insert_by_date x l)
  = Spec.has_duplicate_date (x :: l).
Proof.
  induction l as [|y rest IH]; [reflexivity|].
  simpl insert_by_date.
  destruct (date_ltb (fst y) (fst x)); [|reflexivity].
  cbn [Spec.has_duplicate_date existsb] in *.
  rewrite IH, existsb_insert_by_date, (date_eqb_sym (fst y) (fst x)).
  clear IH. unfold DailyVolume in *.
  generalize (date_eqb (fst x) (fst y))
    (existsb (fun z => date_eqb (fst x) (fst z)) rest)
    (existsb (fun z => date_eqb (fst y) (fst z)) rest)
    (Spec.has_duplicate_date rest).
  intros [] [] [] []; reflexivity.
Qed.

Lemma existsb_sort_by_date (p : DailyVolume -> bool) (l : list DailyVolume) :
  existsb p (sort_by_date l) = existsb p l.
Proof.
  induction l as [|y rest IH]; [reflexivity|].
  simpl sort_by_date. rewrite existsb_insert_by_date.
  cbn [existsb]. now rewrite IH.
Qed.

Lemma has_duplicate_sort (l : list DailyVolume) :
  Spec.has_duplicate_date (sort_by_date l) = Spec.has_duplicate_date l.
Proof.
  induction l as [|x rest IH]; [reflexivity|].
  simpl sort_by_date. rewrite has_duplicate_insert.
  cbn [Spec.has_duplicate_date].
  now rewrite IH, existsb_sort_by_date.
Qed.

Lemma existsb_filter_false {A : Type} (p keep : A -> bool) (l : list A) :
  existsb p l = false -> existsb p (filter keep l) = false.
Proof.
  induction l as [|a rest IH]; simpl; [reflexivity|].
  intro H. apply orb_false_iff in H. destruct H as [Ha Hrest].
  destruct (keep a); simpl; [rewrite Ha|]; now apply IH.
Qed.

Lemma has_duplicate_filter (keep : DailyVolume -> bool) (l : list DailyVolume) :
  Spec.has_duplicate_date l = false ->
  Spec.has_duplicate_date (filter keep l) = false.
Proof.
  induction l as [|x rest IH]; simpl; [reflexivity|].
  intro H. apply orb_false_iff in H. destruct H as [Hx Hrest].
  destruct (keep x); simpl; [|now apply IH].
  apply orb_false_iff. split.
  - now apply existsb_filter_false.
  - now apply IH.
Qed.

Lemma dedup_latest_distinct (l : list DailyVolume) :
  Spec.has_duplicate_date l = false -> Spec.dedup_latest l = l.
Proof.
  induction l as [|x rest IH]; simpl; [reflexivity|].
  intro H. apply orb_false_iff in H. destruct H as [Hx Hrest].
  rewrite Hx. now rewrite IH.
Qed.

(** Without a repeated date nothing is dropped by the deduplication of
    section 4.1: its qualifying days are the entries the code keeps. *)
Lemma qualifying_days_distinct (today : date) (dv : list DailyVolume) :
  Spec.has_duplicate_date dv = false ->
  Spec.qualifying_days today dv = filtered_sorted today dv.
Proof.
  intro H. unfold Spec.qualifying_days. apply dedup_latest_distinct.
  unfold filtered_sorted. rewrite has_duplicate_sort.
  now apply has_duplicate_filter.
Qed.

(** On such inputs the code is the normalizer of section 4.1. *)
Lemma rolling_7day_agrees_on_distinct_dates
    (today : date) (dv : list DailyVolume) (ex : string) :
  Spec.has_duplicate_date dv = false ->
  _rolling_7day today dv ex = Spec.rolling_7day today dv ex.
Proof.
  intro H. unfold _rolling_7day, Spec.rolling_7day.
  rewrite (qualifying_days_distinct today dv H).
  destruct (length dv <? 7)%nat eqn:E; [|reflexivity].
  apply Nat.ltb_lt in E.
  pose proof (filtered_sorted_length today dv) as Hlen.
  pose proof (before_length today dv) as Hle.
  replace (length (filtered_sorted today dv) <? 7)%nat with true
    by (symmetry; apply Nat.ltb_lt; lia).
  reflexivity.
Qed.

End DistinctDates.

(** ** The rolling-window normalizer *)
Section Rolling.
Import Py Dashboard.

(** The result once seven entries dated before today exist: the last
    seven entries of the sorted list make the current week. *)
Lemma rolling_one_week (today : date) (dv : list DailyVolume) (ex : string)
    (older cur : list DailyVolume) :
  filtered_sorted today dv = older ++ cur ->
  length cur = 7%nat ->
  exists wow,
    _rolling_7day today dv ex
    = Some (mkSample ex (Py.sum (map snd cur)) (Py.sum (map snd cur) / 7)%Q wow).
Proof.
  intros Hsplit Hc.
  pose proof (filtered_sorted_length today dv) as Hlen.
  pose proof (before_length today dv) as Hle.
  rewrite Hsplit, length_app, Hc in Hlen.
  unfold _rolling_7day.
  replace (length dv <? 7)%nat with false
    by (symmetry; apply Nat.ltb_ge; lia).
  rewrite Hsplit.
  replace (length (older ++ cur) <? 7)%nat with false
    by (symmetry; apply Nat.ltb_ge; rewrite length_app; lia).
  rewrite (slice_last_week older cur Hc).
  eexists. reflexivity.
Qed.

(** The result once fourteen exist: the seven entries before the
    current week make the previous week. *)
Lemma rolling_two_weeks (today : date) (dv : list DailyVolume) (ex : string)
    (older prev cur : list DailyVolume) :
  filtered_sorted today dv = older ++ prev ++ cur ->
  length prev = 7%nat -> length cur = 7%nat ->
  let cur_vol := Py.sum (map snd cur) in
  let prev_vol := Py.sum (map snd prev) in
  _rolling_7day today dv ex
  = Some (mkSample ex cur_vol (cur_vol / 7)%Q
            (if Qltb 0 prev_vol
             then Some (((cur_vol - prev_vol) / prev_vol) * 100)%Q
             else None)).
Proof.
  intros Hsplit Hp Hc. cbv zeta.
  pose proof (filtered_sorted_length today dv) as Hlen.
  pose proof (before_length today dv) as Hle.
  rewrite Hsplit, !length_app, Hp, Hc in Hlen.
  unfold _rolling_7day.
  replace (length dv <? 7)%nat with false
    by (symmetry; apply Nat.ltb_ge; lia).
  rewrite Hsplit.
  replace (length (older ++ prev ++ cur) <? 7)%nat with false
    by (symmetry; apply Nat.ltb_ge; rewrite !length_app; lia).
  replace (14 <=? length (older ++ prev ++ cur))%nat with true
    by (symmetry; apply Nat.leb_le; rewrite !length_app; lia).
  rewrite (slice_previous_week older prev cur Hp Hc).
  rewrite app_assoc.
  rewrite (slice_last_week (older ++ prev) cur Hc).
  reflexivity.
Qed.

(** C1, as the code has it.  The normalizer drops the entries dated
    today or later and sorts the rest ascending by date with a stable
    sort; it does not deduplicate.  Once seven entries remain, the
    sorted list is a permutation of them (an entry whose date occurs
    again stays), the entries of one date keep their order, and the
    7-day sum is the sum of the last seven entries; once fourteen
    remain, the previous sum is the sum of the seven before those. *)
Theorem rolling_7day_keeps_duplicates
    (today : date) (dv : list DailyVolume) (ex : string) :
  (7 <= length (Spec.before today dv))%nat ->
  let sorted := filtered_sorted today dv in
  Permutation (Spec.before today dv) sorted
  /\ StronglySorted Spec.ascending sorted
  /\ (forall d, filter (fun p => date_eqb (fst p) d) sorted
                = filter (fun p => date_eqb (fst p) d) (Spec.before today dv))
  /\ (exists older current s,
        sorted = older ++ current /\ length current = 7%nat
        /\ _rolling_7day today dv ex = Some s
        /\ volume_7d s = Py.sum (map snd current))
  /\ ((14 <= length (Spec.before today dv))%nat ->
      exists older prev current s,
        sorted = older ++ prev ++ current
        /\ length prev = 7%nat /\ length current = 7%nat
        /\ _rolling_7day today dv ex = Some s
        /\ volume_7d s = Py.sum (map snd current)
        /\ wow_pct s
           = if Qltb 0 (Py.sum (map snd prev))
             then Some (((Py.sum (map snd current) - Py.sum (map snd prev))
                         / Py.sum (map snd prev)) * 100)%Q
             else None).
Proof.
  intro H7. cbv zeta.
  split; [apply sort_by_date_perm|].
  split; [apply sort_by_date_sorted|].
  split; [intro d; apply sort_by_date_stable|].
  split.
  - destruct (split_last 7 (filtered_sorted today dv)) as (older & cur & Hs & Hc).
    { rewrite filtered_sorted_length. exact H7. }
    destruct (rolling_one_week today dv ex older cur Hs Hc) as (wow & Hr).
    exists older, cur. eexists. repeat split; eauto.
  - intro H14.
    destruct (split_last 7 (filtered_sorted today dv)) as (front & cur & Hs & Hc).
    { rewrite filtered_sorted_length. exact H7. }
    destruct (split_last 7 front) as (older & prev & Hf & Hp).
    { pose proof (filtered_sorted_length today dv) as Hlen.
      rewrite Hs, length_app in Hlen. lia. }
    subst front. rewrite <- app_assoc in Hs.
    pose proof (rolling_two_weeks today dv ex older prev cur Hs Hp Hc) as Hr.
    cbv zeta in Hr.
    exists older, prev, cur. eexists. repeat split; eauto.
Qed.

(** Fewer than seven kept entries: one of the two length tests fires. *)
Lemma fewer_than_seven_kept (today : date) (dv : list DailyVolume) (ex : string) :
  (length (filtered_sorted today dv) < 7)%nat ->
  _rolling_7day today dv ex = None.
Proof.
  intro H. unfold _rolling_7day.
  destruct (length dv <? 7)%nat; [reflexivity|].
  replace (length (filtered_sorted today dv) <? 7)%nat with true
    by (symmetry; now apply Nat.ltb_lt).
  reflexivity.
Qed.

(** Keeping one entry per date never lengthens a list. *)
Lemma dedup_latest_length (l : list DailyVolume) :
  (length (Spec.dedup_latest l) <= length l)%nat.
Proof.
  induction l as [|x rest IH]; [apply Nat.le_refl|].
  cbn [Spec.dedup_latest].
  destruct (existsb (fun y => date_eqb (fst x) (fst y)) rest); cbn [length]; lia.
Qed.

(** C7, as the code has it.  The normalizer returns no value exactly
    when fewer than seven entries of the input are dated before the
    current UTC date: it counts entries, not days.  The qualifying days
    of section 4.1 (one per date) are never more than those entries,
    and are as many when no date is repeated; so for an input without a
    repeated date, fewer than seven qualifying days give no value. *)
Theorem rolling_7day_insufficient_history
    (today : date) (dv : list DailyVolume) (ex : string) :
  (_rolling_7day today dv ex = None
   <-> (length (Spec.before today dv) < 7)%nat)
  /\ (length (Spec.qualifying_days today dv)
      <= length (Spec.before today dv))%nat
  /\ (Spec.has_duplicate_date dv = false ->
      length (Spec.qualifying_days today dv) = length (Spec.before today dv))
  /\ (Spec.has_duplicate_date dv = false ->
      (length (Spec.qualifying_days today dv) < 7)%nat ->
      _rolling_7day today dv ex = None).
Proof.
  split; [|split; [|split]].
  - split.
    + intro Hnone.
      destruct (Nat.lt_ge_cases (length (Spec.before today dv)) 7) as [Hlt|Hge];
        [exact Hlt|].
      destruct (split_last 7 (filtered_sorted today dv)) as (older & cur & Hs & Hc).
      { rewrite filtered_sorted_length. exact Hge. }
      destruct (rolling_one_week today dv ex older cur Hs Hc) as (wow & Hr).
      rewrite Hr in Hnone. discriminate Hnone.
    + intro H. apply fewer_than_seven_kept.
      now rewrite filtered_sorted_length.
  - unfold Spec.qualifying_days.
    rewrite <- (filtered_sorted_length today dv). apply dedup_latest_length.
  - intro Hd. rewrite (qualifying_days_distinct today dv Hd).
    apply filtered_sorted_length.
  - intros Hd H. apply fewer_than_seven_kept.
    now rewrite <- (qualifying_days_distinct today dv Hd).
Qed.

End Rolling.

(** ** Claims on the normalizer, at concrete inputs *)
Section RollingExamples.
Import Py Dashboard Samples.

Lemma rolling_7day_keeps_duplicates_witness :
  Permutation (Spec.before (jan 20) week_with_duplicate)
              (filtered_sorted (jan 20) week_with_duplicate).
Proof.
  apply (rolling_7day_keeps_duplicates (jan 20) week_with_duplicate "X").
  simpl. lia.
Defined.

(** C1 as stated fails: 7 January arrives twice, before today = 20
    January.  The code sums the last seven of the eight entries, both
    entries of 7 January among them (16); keeping one value per date
    leaves seven days that sum to 115. *)
Lemma duplicate_date_counted_twice :
  Spec.has_duplicate_date week_with_duplicate = true
  /\ slice (filtered_sorted (jan 20) week_with_duplicate) (Some (-7)) None
     = [(jan 2, 1); (jan 3, 1); (jan 4, 1); (jan 5, 1); (jan 6, 1);
        (jan 7, 1); (jan 7, 10)]%Q
  /\ (exists s, _rolling_7day (jan 20) week_with_duplicate "X" = Some s
                /\ volume_7d s = 16%Q)
  /\ (exists s, Spec.rolling_7day (jan 20) week_with_duplicate "X" = Some s
                /\ volume_7d s = 115%Q)
  /\ _rolling_7day (jan 20) week_with_duplicate "X"
     <> Spec.rolling_7day (jan 20) week_with_duplicate "X".
Proof.
  split; [reflexivity|].
  split; [reflexivity|].
  split; [eexists; split; reflexivity|].
  split; [eexists; split; reflexivity|].
  intro H. vm_compute in H. discriminate H.
Qed.

Lemma rolling_7day_insufficient_history_witness :
  _rolling_7day (jan 20) six_days_and_today "X" = None.
Proof.
  destruct (rolling_7day_insufficient_history (jan 20) six_days_and_today "X")
    as [[_ H] _].
  apply H. simpl. lia.
Defined.

(** C7 as stated fails when a date is repeated: seven entries for the
    six days 1 to 6 January, all before today = 20 January.  Six
    qualifying days remain, fewer than seven, and the code returns a
    sample whose 7-day sum is 16; the normalizer of section 4.1 returns
    no value. *)
Lemma six_days_in_seven_entries :
  length (Spec.qualifying_days (jan 20) six_days_seven_entries) = 6%nat
  /\ length (Spec.before (jan 20) six_days_seven_entries) = 7%nat
  /\ (exists s, _rolling_7day (jan 20) six_days_seven_entries "X" = Some s
                /\ volume_7d s = 16%Q)
  /\ Spec.rolling_7day (jan 20) six_days_seven_entries "X" = None.
Proof.
  split; [reflexivity|].
  split; [reflexivity|].
  split; [eexists; split; reflexivity|].
  reflexivity.
Qed.

End RollingExamples.

(** ** The normalizer in binary64 *)
Section RollingBinary64.
Import Py Binary64.

Lemma insert_by_date_length64 (x : DailyVolume) (l : list DailyVolume) :
  length (insert_by_date x l) = S (length l).
Proof.
  induction l as [|y rest IH]; [reflexivity|].
  cbn [insert_by_date]. destruct (date_ltb (fst y) (fst x)); cbn [length];
    [now rewrite IH | reflexivity].
Qed.

Lemma filtered_sorted_length64 (today : date) (dv : list DailyVolume) :
  length (filtered_sorted today dv) = length (before today dv).
Proof.
  unfold filtered_sorted, sort_by_date.
  induction (before today dv) as [|x rest IH]; [reflexivity|].
  cbn [fold_right]. rewrite insert_by_date_length64. cbn [length].
  now rewrite IH.
Qed.

(** The result once fourteen entries are dated before today. *)
Lemma rolling_two_weeks64 (sum : list float -> float) (today : date)
    (dv : list DailyVolume) (ex : string) (older prev cur : list DailyVolume) :
  filtered_sorted today dv = older ++ prev ++ cur ->
  length prev = 7%nat -> length cur = 7%nat ->
  let cur_vol := sum (map snd cur) in
  let prev_vol := sum (map snd prev) in
  _rolling_7day sum today dv ex
  = Some (mkSample ex cur_vol (div cur_vol (of_const 7))
            (if positive prev_vol
             then Some (mul (div (sub cur_vol prev_vol) prev_vol) (of_const 100))
             else None)).
Proof.
  intros Hsplit Hp Hc. cbv zeta.
  pose proof (filtered_sorted_length64 today dv) as Hlen.
  assert (Hle : (length (before today dv) <= length dv)%nat)
    by (unfold before; apply filter_length_le).
  rewrite Hsplit, !length_app, Hp, Hc in Hlen.
  unfold _rolling_7day.
  replace (length dv <? 7)%nat with false
    by (symmetry; apply Nat.ltb_ge; lia).
  rewrite Hsplit.
  replace (length (older ++ prev ++ cur) <? 7)%nat with false
    by (symmetry; apply Nat.ltb_ge; rewrite !length_app; lia).
  replace (14 <=? length (older ++ prev ++ cur))%nat with true
    by (symmetry; apply Nat.leb_le; rewrite !length_app; lia).
  rewrite (slice_previous_week older prev cur Hp Hc).
  rewrite app_assoc.
  rewrite (slice_last_week (older ++ prev) cur Hc).
  reflexivity.
Qed.

(** A positive finite float. *)
Lemma positive_finite (x : float) :
  positive x = true -> is_finite x = true ->
  exists m e, x = S754_finite false m e.
Proof.
  destruct x as [[|]|[|]| |[|] m e]; intros Hpos Hfin;
    try discriminate Hfin; try discriminate Hpos.
  now exists m, e.
Qed.

(** x - x is 0.0, 0.0 / x is 0.0 and 0.0 * 100 is 0.0. *)
Lemma change_of_equal_totals (x : float) :
  positive x = true -> is_finite x = true ->
  mul (div (sub x x) x) (of_const 100) = zero.
Proof.
  intros Hpos Hfin.
  destruct (positive_finite x Hpos Hfin) as (m & e & ->).
  assert (Hsub : sub (S754_finite false m e) (S754_finite false m e) = zero).
  { unfold sub, SFsub. cbv zeta.
    match goal with
    | |- binary_normalize _ _ ?z _ _ = _ =>
        replace z with 0 by (symmetry; apply Z.sub_diag)
    end.
    reflexivity. }
  rewrite Hsub. reflexivity.
Qed.

(** C3, as the code has it.  With exactly fourteen entries dated before
    the current UTC date, whatever way the built-in sum adds floats:
    when the two 7-day totals the code computes are the same float,
    finite and greater than 0, the sample's wow_pct is 0.0; and
    whenever the previous total is not greater than 0 (0.0, negative or
    a NaN) the sample has no wow_pct. *)
Theorem rolling_7day_equal_weeks
    (sum : list float -> float) (today : date) (dv : list DailyVolume)
    (ex : string) :
  let sorted := filtered_sorted today dv in
  let prev_vol := sum (map snd (firstn 7 sorted)) in
  let cur_vol := sum (map snd (skipn 7 sorted)) in
  length (before today dv) = 14%nat ->
  (cur_vol = prev_vol -> is_finite prev_vol = true -> positive prev_vol = true ->
   exists s,
     _rolling_7day sum today dv ex = Some s
     /\ volume_7d s = prev_vol
     /\ wow_pct s = Some zero)
  /\ (positive prev_vol = false ->
      exists s,
        _rolling_7day sum today dv ex = Some s
        /\ volume_7d s = cur_vol
        /\ wow_pct s = None).
Proof.
  cbv zeta. intro H14.
  rewrite <- filtered_sorted_length64 in H14.
  assert (Hs : filtered_sorted today dv
               = [] ++ firstn 7 (filtered_sorted today dv)
                    ++ skipn 7 (filtered_sorted today dv))
    by (cbn [app]; symmetry; apply firstn_skipn).
  assert (Hp : length (firstn 7 (filtered_sorted today dv)) = 7%nat)
    by (rewrite length_firstn; lia).
  assert (Hc : length (skipn 7 (filtered_sorted today dv)) = 7%nat)
    by (rewrite length_skipn; lia).
  pose proof (rolling_two_weeks64 sum today dv ex _ _ _ Hs Hp Hc) as Hr.
  cbv zeta in Hr. rewrite Hr. clear Hr Hs.
  set (cur_vol := sum (map snd (skipn 7 (filtered_sorted today dv)))).
  set (prev_vol := sum (map snd (firstn 7 (filtered_sorted today dv)))).
  split.
  - intros Heq Hfin Hpos. rewrite Hpos, Heq.
    eexists. split; [reflexivity|]. cbn [volume_7d wow_pct].
    split; [reflexivity|]. f_equal.
    now apply change_of_equal_totals.
  - intro Hneg. rewrite Hneg.
    eexists. split; [reflexivity|]. split; reflexivity.
Qed.

Lemma rolling_7day_equal_weeks_witness :
  exists s,
    _rolling_7day sum_left (Samples.jan 20) (Samples64.fortnight Samples64.five) "X"
    = Some s
    /\ volume_7d s = of_const 35
    /\ wow_pct s = Some zero.
Proof.
  destruct (rolling_7day_equal_weeks sum_left (Samples.jan 20)
              (Samples64.fortnight Samples64.five) "X") as [H _].
  - reflexivity.
  - apply H; vm_compute; reflexivity.
Defined.

(** C3 as stated fails when both weeks are empty: fourteen distinct
    days before today, every volume 0.0, so the two totals are equal;
    the sample carries no wow_pct. *)
Lemma equal_zero_weeks_have_no_wow :
  let dv := Samples64.fortnight zero in
  let sorted := filtered_sorted (Samples.jan 20) dv in
  NoDup (map fst dv)
  /\ length (before (Samples.jan 20) dv) = 14%nat
  /\ sum_left (map snd (skipn 7 sorted)) = sum_left (map snd (firstn 7 sorted))
  /\ exists s, _rolling_7day sum_left (Samples.jan 20) dv "X" = Some s
               /\ wow_pct s = None.
Proof.
  cbv zeta.
  split.
  { vm_compute. repeat constructor; simpl; intuition discriminate. }
  split; [reflexivity|].
  split; [vm_compute; reflexivity|].
  eexists. split; vm_compute; reflexivity.
Qed.

(** Totals that are equal as numbers need not be equal as the code
    computes them: 0.1 + 0.2 + 0.3 is 0.6000000000000001 and 0.3 + 0.2 +
    0.1 is 0.6. *)
Example equal_exact_totals_can_differ :
  let a := Samples64.tenth in
  let b := div (of_const 2) (of_const 10) in
  let c := div (of_const 3) (of_const 10) in
  sum_left [a; b; c] <> sum_left [c; b; a].
Proof.
  cbv zeta. vm_compute. discriminate.
Qed.

End RollingBinary64.

(** ** The holdings aggregators *)
Section Holdings.
Import Py Chain.

Lemma sum_filter_le {A : Type} (f : A -> Q) (keep : A -> bool) (l : list A) :
  Forall (fun a => 0 <= f a)%Q l ->
  (Py.sum (map f (filter keep l)) <= Py.sum (map f l))%Q.
Proof.
  induction 1 as [|a rest Ha _ IH]; simpl.
  - apply Qle_refl.
  - destruct (keep a); simpl; rewrite ?sum_cons; lra.
Qed.

Lemma Forall_map_intro {A B : Type} (f : A -> B) (P : B -> Prop) (l : list A) :
  Forall (fun a => P (f a)) l -> Forall P (map f l).
Proof.
  induction 1; simpl; constructor; assumption.
Qed.

Lemma empty_results_bounded (P : Type) :
  Spec.staking_bounded (@empty_results P).
Proof.
  split; simpl; lra.
Qed.

Lemma fold_bounded {P : Type} (step : Results P -> Wallet -> Results P) :
  (forall r w, Spec.staking_bounded r -> Spec.staking_bounded (step r w)) ->
  forall ws r, Spec.staking_bounded r ->
               Spec.staking_bounded (fold_left step ws r).
Proof.
  intros Hstep ws. induction ws as [|w rest IH]; intros r Hr; simpl.
  - exact Hr.
  - apply IH, Hstep, Hr.
Qed.

(** *** The dashboard *)

Lemma dashboard_positions_nonneg (env : Dashboard.Env) (now : Z) (owner : string) :
  Spec.nonneg_dashboard env ->
  Forall (fun p => 0 <= Dashboard.p_deposit p)%Q
         (Dashboard.get_staked_positions env now owner).
Proof.
  intros (_ & Hpos & _). unfold Dashboard.get_staked_positions.
  destruct (Dashboard.goldsky_positions env (lower owner)) as [ps|] eqn:E;
    [|constructor].
  specialize (Hpos _ _ E).
  destruct ps as [|p0 ps0]; [constructor|].
  inversion Hpos as [|? ? H0 Hrest]; subst.
  constructor; [now apply to_tokens_nonneg|].
  apply Forall_map_intro. eapply Forall_impl; [|exact Hrest].
  intros p Hp. now apply to_tokens_nonneg.
Qed.

Lemma dashboard_collect_deposits (env : Dashboard.Env)
    (ps : list Dashboard.Position) (total : Q) :
  Forall (fun p => 0 <= Dashboard.p_deposit p)%Q ps ->
  Forall (fun p => 0 <= Dashboard.p_deposit p)%Q
         (fst (Dashboard.collect_rewards env ps total)).
Proof.
  intro H. revert total. induction H as [|p rest Hp _ IH]; intro total; simpl.
  - constructor.
  - specialize (IH (total + Dashboard.get_position_rewards env (Dashboard.p_id p))%Q).
    destruct (Dashboard.collect_rewards env rest _) as [rest' t'].
    simpl in *. constructor; [exact Hp | exact IH].
Qed.

Lemma dashboard_wallet_bounded (env : Dashboard.Env) (now : Z)
    (r : Results Dashboard.Position) (w : Wallet) :
  Spec.nonneg_dashboard env ->
  Spec.staking_bounded r ->
  Spec.staking_bounded (Dashboard.load_wallet env now r w).
Proof.
  intros Henv [Hl Hs]. unfold Dashboard.load_wallet.
  destruct (String.eqb (w_type w) "vesting").
  - split; simpl; [|exact Hs].
    pose proof (max0_nonneg
                  (vi_balance (get_vesting_info (Dashboard.net env) (w_addr w))
                   - vi_vested_unclaimed
                       (get_vesting_info (Dashboard.net env) (w_addr w)))).
    simpl in *. lra.
  - destruct (String.eqb (w_name w) "treasury"); [|split; assumption].
    pose proof (dashboard_collect_deposits env _ 0%Q
                  (dashboard_positions_nonneg env now (w_addr w) Henv)) as Hd.
    destruct (Dashboard.collect_rewards env
                (Dashboard.get_staked_positions env now (w_addr w)) 0)
      as [ps total].
    split; simpl in *; [exact Hl|].
    now apply sum_filter_le.
Qed.

(** *** The digest *)

Lemma digest_positions_nonneg (files : list Telegram.CsvFile) (now : Z)
    (owner : string) :
  Forall Spec.nonneg_table files ->
  Forall (fun p => 0 <= Telegram.p_deposit p)%Q
         (Telegram.positions_from files now owner).
Proof.
  induction 1 as [|f rest Hf _ IH]; simpl; [constructor|].
  destruct f as [| |rows]; try exact IH.
  simpl in Hf.
  assert (Hfdn : Forall (fun row => 0 <= Telegram.row_net_deposited row)%Q
                        (filter (Telegram.owned_by owner) rows)).
  { apply Forall_forall. intros row Hin. apply filter_In in Hin.
    rewrite Forall_forall in Hf. now apply Hf. }
  destruct (filter (Telegram.owned_by owner) rows) as [|row0 fdn];
    [exact IH|].
  inversion Hfdn as [|? ? H0 Hrest]; subst.
  constructor; [exact H0|].
  apply Forall_map_intro. exact Hrest.
Qed.

Lemma digest_collect_deposits (rewards_map : Telegram.Dict)
    (ps : list Telegram.Position) (total : Q) :
  Forall (fun p => 0 <= Telegram.p_deposit p)%Q ps ->
  Forall (fun p => 0 <= Telegram.p_deposit p)%Q
         (fst (Telegram.collect_rewards rewards_map ps total)).
Proof.
  intro H. revert total. induction H as [|p rest Hp _ IH]; intro total; simpl.
  - constructor.
  - specialize (IH (total + Telegram.dict_get rewards_map (Telegram.p_id p) 0)%Q).
    destruct (Telegram.collect_rewards rewards_map rest _) as [rest' t'].
    simpl in *. constructor; [exact Hp | exact IH].
Qed.

Lemma digest_wallet_bounded (env : Telegram.Env) (now : Z)
    (r : Results Telegram.Position) (w : Wallet) :
  Spec.nonneg_digest env ->
  Spec.staking_bounded r ->
  Spec.staking_bounded (Telegram.load_wallet env now r w).
Proof.
  intros (_ & Hfiles & _) [Hl Hs]. unfold Telegram.load_wallet.
  destruct (String.eqb (w_type w) "vesting").
  - split; simpl; [|exact Hs].
    pose proof (max0_nonneg
                  (vi_balance (get_vesting_info (Telegram.net env) (w_addr w))
                   - vi_vested_unclaimed
                       (get_vesting_info (Telegram.net env) (w_addr w)))).
    simpl in *. lra.
  - destruct (String.eqb (w_name w) "treasury"); [|split; assumption].
    pose proof (digest_collect_deposits
                  (Telegram.get_all_position_rewards env
                     (map Telegram.p_id
                          (Telegram.get_staked_positions env now (w_addr w))))
                  _ 0%Q
                  (digest_positions_nonneg _ now (w_addr w) Hfiles)) as Hd.
    fold (Telegram.get_staked_positions env now (w_addr w)) in Hd.
    destruct (Telegram.collect_rewards _
                (Telegram.get_staked_positions env now (w_addr w)) 0)
      as [ps total].
    split; simpl in *; [exact Hl|].
    now apply sum_filter_le.
Qed.

End Holdings.

(** ** Claims on the holdings *)
Section HoldingsClaims.
Import Py Chain Samples.

(** C8.  For every vesting wallet, in both scripts: the record returned
    carries the fetched balance (the tokenbalance reply in tokens, 0.0
    without a usable reply) and the fetched claimable amount (the reply
    of the claimable call in tokens, 0.0 without a usable reply), and its
    locked amount is max(0, balance - claimable) of these two: never
    negative, 0 whenever the claimable amount exceeds the balance, and
    balance - claimable otherwise.  The function returns its record in
    every case; with balance 90 and claimable 100 locked is 0. *)
Theorem locked_is_clamped (net : Replies) (contract : string) :
  let vi := get_vesting_info net contract in
  let balance :=
    match etherscan_tokenbalance net contract with
    | Some n => to_tokens n
    | None => 0%Q
    end in
  let claimable :=
    match etherscan_claimable net contract with
    | Some n => to_tokens n
    | None => 0%Q
    end in
  vi_balance vi = balance
  /\ vi_vested_unclaimed vi = claimable
  /\ (vi_locked vi == Qmax 0 (balance - claimable))%Q
  /\ (0 <= vi_locked vi)%Q
  /\ ((balance < claimable)%Q -> vi_locked vi = 0%Q)
  /\ ((claimable <= balance)%Q -> (vi_locked vi == balance - claimable)%Q)
  /\ (let simulated := get_vesting_info inconsistent contract in
      (vi_balance simulated == 90)%Q
      /\ (vi_vested_unclaimed simulated == 100)%Q
      /\ vi_locked simulated = 0%Q).
Proof.
  cbv zeta. unfold get_vesting_info, get_token_balance.
  cbn [vi_locked vi_balance vi_vested_unclaimed].
  split; [reflexivity|].
  split; [reflexivity|].
  split; [apply max0_Qmax|].
  split; [apply max0_nonneg|].
  split; [|split].
  - intro Hlt. unfold max0.
    destruct (Qltb 0 _) eqn:E; [|reflexivity].
    apply Qltb_lt in E. lra.
  - intro Hle. rewrite max0_Qmax. apply Q.max_r. lra.
  - repeat split; reflexivity.
Qed.

Lemma locked_is_clamped_witness :
  vi_locked (get_vesting_info inconsistent "0x4110d73ff4d4fe45af2762df2205ad95c8c9679b")
  = 0%Q.
Proof.
  destruct (locked_is_clamped inconsistent
              "0x4110d73ff4d4fe45af2762df2205ad95c8c9679b")
    as (_ & _ & _ & _ & Hclamp & _).
  apply Hclamp. reflexivity.
Defined.

(** C2, as the code has it.  The dashboard's aggregator computes
    total_holdings as liquid + liquid_bsc + vested_unclaimed +
    locked_vesting + staked_total + rewards, and the market makers'
    holdings are added to it at presentation time only; the digest's
    aggregator adds the market makers' holdings, the constant 868142,
    inside the aggregator.  In both, total_sellable is liquid +
    liquid_bsc + vested_unclaimed + staked_expired + rewards, and the
    dashboard shows it unchanged. *)
Theorem totals_of_snapshot (denv : Dashboard.Env) (tenv : Telegram.Env)
    (now : Z) (mm_amber mm_jpeg : Z) :
  let d := Dashboard.load_holdings denv now in
  let t := Telegram.load_holdings tenv now in
  Dashboard.total_holdings d = Spec.six_terms (Dashboard.res d)
  /\ Dashboard.total_sellable d = Spec.five_terms (Dashboard.res d)
  /\ Dashboard.total_holdings_adj d mm_amber mm_jpeg
     = (Spec.six_terms (Dashboard.res d) + inject_Z (mm_amber + mm_jpeg))%Q
  /\ Dashboard.total_sellable_adj d = Spec.five_terms (Dashboard.res d)
  /\ Telegram.mm_holdings t = 868142
  /\ Telegram.total_holdings t
     = (Spec.six_terms (Telegram.res t) + inject_Z 868142)%Q
  /\ Telegram.total_sellable t = Spec.five_terms (Telegram.res t).
Proof.
  cbv zeta.
  unfold Dashboard.load_holdings, Dashboard.load_holdings_of,
    Telegram.load_holdings, Telegram.load_holdings_of,
    Dashboard.total_holdings_adj, Dashboard.total_sellable_adj.
  generalize (fold_left (Dashboard.load_wallet denv now)
                FOUNDATION_WALLETS empty_results).
  generalize (fold_left (Telegram.load_wallet tenv now)
                FOUNDATION_WALLETS empty_results).
  intros tr dr. repeat split; reflexivity.
Qed.

(** C2 as stated fails on the digest: when no endpoint answers and no
    file exists every component is 0, and the aggregator's
    total_holdings is 868142. *)
Lemma digest_total_includes_market_makers :
  let t := Telegram.load_holdings digest_silent 0 in
  (Spec.six_terms (Telegram.res t) == 0)%Q
  /\ (Telegram.total_holdings t == 868142)%Q
  /\ ~ (Telegram.total_holdings t == Spec.six_terms (Telegram.res t))%Q.
Proof.
  cbv zeta. split; [vm_compute; reflexivity|].
  split; [vm_compute; reflexivity|].
  intro H. vm_compute in H. discriminate H.
Qed.

(** C4.  For every snapshot produced from non-negative inputs (every
    fetched balance, claimable amount, position deposit and rewards
    amount is >= 0), total_sellable <= total_holdings, in the dashboard
    and in the digest. *)
Theorem sellable_within_holdings (denv : Dashboard.Env) (tenv : Telegram.Env)
    (now : Z) :
  Spec.nonneg_dashboard denv ->
  Spec.nonneg_digest tenv ->
  (Dashboard.total_sellable (Dashboard.load_holdings denv now)
   <= Dashboard.total_holdings (Dashboard.load_holdings denv now))%Q
  /\ (Telegram.total_sellable (Telegram.load_holdings tenv now)
      <= Telegram.total_holdings (Telegram.load_holdings tenv now))%Q.
Proof.
  intros Hd Ht. split.
  - destruct (fold_bounded (Dashboard.load_wallet denv now)
                (fun r w => dashboard_wallet_bounded denv now r w Hd)
                FOUNDATION_WALLETS empty_results
                (empty_results_bounded _)) as [Hl Hs].
    unfold Dashboard.load_holdings, Dashboard.load_holdings_of.
    cbn [Dashboard.total_sellable Dashboard.total_holdings].
    lra.
  - destruct (fold_bounded (Telegram.load_wallet tenv now)
                (fun r w => digest_wallet_bounded tenv now r w Ht)
                FOUNDATION_WALLETS empty_results
                (empty_results_bounded _)) as [Hl Hs].
    unfold Telegram.load_holdings, Telegram.load_holdings_of.
    cbn [Telegram.total_sellable Telegram.total_holdings].
    assert (Hmm : (0 <= inject_Z (fold_left Z.add
                                    (map snd Telegram.MM_DEFAULTS) 0%Z))%Q)
      by (vm_compute; discriminate).
    lra.
Qed.

Lemma one_token_nonneg : Spec.nonneg_replies one_token.
Proof.
  repeat split; intros a n H; injection H as <-; vm_compute; discriminate.
Qed.

Lemma sellable_within_holdings_witness :
  (Dashboard.total_sellable (Dashboard.load_holdings dashboard_run 500)
   <= Dashboard.total_holdings (Dashboard.load_holdings dashboard_run 500))%Q
  /\ (Telegram.total_sellable (Telegram.load_holdings digest_run 500)
      <= Telegram.total_holdings (Telegram.load_holdings digest_run 500))%Q.
Proof.
  apply (sellable_within_holdings dashboard_run digest_run 500).
  - split; [exact one_token_nonneg|]. split.
    + intros owner ps H. injection H as <-.
      repeat constructor; vm_compute; discriminate.
    + intros id n H. injection H as <-. vm_compute; discriminate.
  - split; [exact one_token_nonneg|]. split.
    + repeat constructor; vm_compute; discriminate.
    + intros rpc decoded H. injection H as <-.
      repeat constructor; simpl; intros n Hn;
        [injection Hn as <-; vm_compute; discriminate | discriminate].
Defined.

End HoldingsClaims.

(** ** The staking-rewards projection of the digest *)
Section RewardsProjection.
Import Py Chain Telegram Samples.

(** [l[:3]]. *)
Lemma slice_first_three {A : Type} (l : list A) :
  slice l None (Some 3) = firstn 3 l.
Proof.
  unfold slice, slice_index. change (3 <? 0) with false. cbv iota.
  rewrite Z.sub_0_r. change (Z.to_nat 0) with 0%nat. cbn [skipn].
  destruct (Z.le_gt_cases 3 (Z.of_nat (length l))) as [H|H].
  - rewrite Z.min_l by exact H. reflexivity.
  - rewrite Z.min_r by lia. rewrite Nat2Z.id.
    rewrite firstn_all. symmetry. apply firstn_all2. lia.
Qed.

Lemma schedule_ascending : StronglySorted Spec.ascending REWARDS_SCHEDULE.
Proof.
  apply Sorted_StronglySorted.
  - intros a b c Hab Hbc. unfold Spec.ascending in *.
    now apply date_leb_trans with (fst b).
  - unfold REWARDS_SCHEDULE.
    repeat (constructor; [|constructor; reflexivity]).
    repeat constructor.
Qed.

(** In a list ascending by date, the entries dated [today] or later
    are a suffix; the entries before them are dated before [today]. *)
Lemma future_is_suffix (today : date) (l : list (date * Q)) :
  StronglySorted Spec.ascending l ->
  exists past,
    l = past ++ filter (fun dm => date_geb (fst dm) today) l
    /\ Forall (fun dm => date_ltb (fst dm) today = true) past.
Proof.
  induction 1 as [|x rest Hs IH Hx].
  - exists []. split; [reflexivity | constructor].
  - cbn [filter]. destruct (date_geb (fst x) today) eqn:E.
    + exists []. split; [|constructor]. cbn [app]. f_equal.
      clear IH Hs. induction Hx as [|y rest Hy _ IH]; [reflexivity|].
      cbn [filter].
      assert (Ey : date_geb (fst y) today = true).
      { unfold Spec.ascending, date_leb, date_geb in *.
        rewrite negb_true_iff in *. rewrite date_ltb_false in *. lia. }
      rewrite Ey. now f_equal.
    + destruct IH as (past & Hsplit & Hpast).
      exists (x :: past). split.
      * cbn [app]. now f_equal.
      * constructor; [|exact Hpast].
        unfold date_geb in E. now apply negb_false_iff in E.
Qed.

Lemma first_read_none (files : list CsvFile) :
  Forall (fun f => f = Unreadable) files -> first_read files = None.
Proof.
  induction 1 as [|f rest -> _ IH]; simpl; [reflexivity | exact IH].
Qed.

(** C10, as the code has it.  When the first candidate file that is
    read is a well-formed table whose stake weights are not negative
    and sum to less than 2^63 (the range in which the column sum of
    pandas is the sum), the total stake weight is strictly positive and
    some date of the rewards schedule is on or after today, the
    projection returns one row for each of the first three (or fewer,
    when fewer remain) schedule dates on or after today, which are the
    dates that follow all the past ones, with the reward pool x 0.80 x
    (foundation stake weight / total stake weight).  It returns no
    value when the stake weights, none negative, sum to 0, when no
    candidate can be read, and when no schedule date is on or after
    today. *)
Theorem rewards_projection_next_three (env : Env) (today : date) :
  let future := filter (fun dm => date_geb (fst dm) today) REWARDS_SCHEDULE in
  (forall pos_df,
      first_read (csv_files env) = Some (Table pos_df) ->
      let total_stake_weight := Py.sum (map row_stake pos_df) in
      let fdn_stake_weight :=
        Py.sum (map row_stake
                    (filter (owned_by FOUNDATION_STAKING_ADDR) pos_df)) in
      Spec.stakes_in_range pos_df ->
      (0 < total_stake_weight)%Q ->
      future <> [] ->
      (exists past,
          REWARDS_SCHEDULE = past ++ future
          /\ Forall (fun dm => date_ltb (fst dm) today = true) past)
      /\ load_staking_rewards_projection env today
         = Some (map (fun dm =>
                        mkRowOut (label_of (fst dm))
                          (snd dm * 0.80
                           * (fdn_stake_weight / total_stake_weight))%Q)
                     (firstn 3 future)))
  /\ (forall pos_df,
         first_read (csv_files env) = Some (Table pos_df) ->
         Spec.stakes_in_range pos_df ->
         (Py.sum (map row_stake pos_df) == 0)%Q ->
         load_staking_rewards_projection env today = None)
  /\ (Forall (fun f => f = Unreadable) (csv_files env) ->
      load_staking_rewards_projection env today = None)
  /\ (future = [] -> load_staking_rewards_projection env today = None).
Proof.
  cbv zeta. split; [|split; [|split]].
  - intros pos_df Hread _ Hpos Hfut.
    split; [apply future_is_suffix, schedule_ascending|].
    unfold load_staking_rewards_projection. rewrite Hread.
    destruct (Qeq_bool (Py.sum (map row_stake pos_df)) 0) eqn:E.
    { apply Qeq_bool_iff in E. rewrite E in Hpos.
      exfalso. apply (Qlt_irrefl 0), Hpos. }
    destruct (filter (fun dm => date_geb (fst dm) today) REWARDS_SCHEDULE)
      as [|dm0 more] eqn:Ef; [now contradiction Hfut|].
    now rewrite slice_first_three.
  - intros pos_df Hread _ Hzero.
    unfold load_staking_rewards_projection. rewrite Hread.
    apply Qeq_bool_iff in Hzero. now rewrite Hzero.
  - intro Hnone. unfold load_staking_rewards_projection.
    now rewrite (first_read_none _ Hnone).
  - intro Hfut. unfold load_staking_rewards_projection.
    destruct (first_read (csv_files env)) as [[| |pos_df]|]; try reflexivity.
    destruct (Qeq_bool _ 0); [reflexivity|].
    now rewrite Hfut.
Qed.

Lemma rewards_projection_next_three_witness :
  load_staking_rewards_projection digest_run (mkdate 2026 11 3)
  = Some [mkRowOut "Nov 2026" (217717.58 * 0.80 * (3 / 12))%Q;
          mkRowOut "Dec 2026" (207348.92 * 0.80 * (3 / 12))%Q;
          mkRowOut "Jan 2027" (200254.63 * 0.80 * (3 / 12))%Q].
Proof.
  destruct (rewards_projection_next_three digest_run (mkdate 2026 11 3))
    as (Hrows & _).
  apply (Hrows treasury_rows).
  - reflexivity.
  - split; [repeat constructor; discriminate | reflexivity].
  - reflexivity.
  - discriminate.
Defined.

(** C10 as stated fails once the schedule is exhausted: on 15 October
    2035 the file is read and the total stake weight is 12, and the
    projection returns no value. *)
Lemma exhausted_schedule_gives_no_rows :
  first_read (csv_files digest_run) = Some (Table treasury_rows)
  /\ Spec.stakes_in_range treasury_rows
  /\ (0 < Py.sum (map row_stake treasury_rows))%Q
  /\ load_staking_rewards_projection digest_run (mkdate 2035 10 15) = None.
Proof.
  split; [reflexivity|].
  split; [split; [repeat constructor; discriminate | reflexivity]|].
  split; reflexivity.
Qed.

End RewardsProjection.

(** * Further properties *)

(** ** The sample runs *)
Section SampleRuns.
Import Py Chain Samples.

Lemma dashboard_run_nonneg : Spec.nonneg_dashboard dashboard_run.
Proof.
  split; [exact one_token_nonneg|]. split.
  - intros owner ps H. injection H as <-.
    repeat constructor; vm_compute; discriminate.
  - intros id n H. injection H as <-. vm_compute; discriminate.
Qed.

Lemma digest_run_nonneg : Spec.nonneg_digest digest_run.
Proof.
  split; [exact one_token_nonneg|]. split.
  - repeat constructor; vm_compute; discriminate.
  - intros rpc decoded H. injection H as <-.
    repeat constructor; simpl; intros n Hn;
      [injection Hn as <-; vm_compute; discriminate | discriminate].
Qed.

End SampleRuns.

(** ** More on the rolling-window normalizer *)
Section RollingMore.
Import Py Dashboard.

Lemma before_idempotent (today : date) (dv : list DailyVolume) :
  Spec.before today (Spec.before today dv) = Spec.before today dv.
Proof.
  unfold Spec.before. induction dv as [|x rest IH]; [reflexivity|].
  cbn [filter]. destruct (date_ltb (fst x) today) eqn:E; [|exact IH].
  cbn [filter]. rewrite E. now f_equal.
Qed.

(** What a returned sample tells about the input. *)
Lemma rolling_some_inv
    (today : date) (dv : list DailyVolume) (ex : string) (s : VolumeSample) :
  _rolling_7day today dv ex = Some s ->
  exchange s = ex
  /\ avg_daily s = (volume_7d s / 7)%Q
  /\ (7 <= length (filtered_sorted today dv))%nat
  /\ (wow_pct s <> None -> (14 <= length (filtered_sorted today dv))%nat).
Proof.
  unfold _rolling_7day.
  destruct (length dv <? 7)%nat; [discriminate|].
  destruct (length (filtered_sorted today dv) <? 7)%nat eqn:E7; [discriminate|].
  apply Nat.ltb_ge in E7.
  destruct (14 <=? length (filtered_sorted today dv))%nat eqn:E14.
  - apply Nat.leb_le in E14. intro H. injection H as <-.
    cbn [exchange avg_daily volume_7d wow_pct]. repeat split; auto.
  - intro H. injection H as <-.
    cbn [exchange avg_daily volume_7d wow_pct]. repeat split; auto.
    intro C. now contradiction C.
Qed.

(** X1.  A returned sample carries the exchange name it was asked for and
    an average that is a seventh of its 7-day total; it exists only when
    at least seven entries are dated before today, and it has a wow_pct
    only when at least fourteen are. *)
Theorem rolling_7day_sample_shape
    (today : date) (dv : list DailyVolume) (ex : string) (s : VolumeSample) :
  _rolling_7day today dv ex = Some s ->
  exchange s = ex
  /\ avg_daily s = (volume_7d s / 7)%Q
  /\ (7 <= length (Spec.before today dv))%nat
  /\ (wow_pct s <> None -> (14 <= length (Spec.before today dv))%nat).
Proof.
  intro H. rewrite <- filtered_sorted_length.
  now apply rolling_some_inv.
Qed.

Lemma rolling_7day_sample_shape_witness :
  exists s,
    _rolling_7day (Samples.jan 20) (Samples.fortnight 5) "X" = Some s
    /\ exchange s = "X"%string
    /\ avg_daily s = (volume_7d s / 7)%Q.
Proof.
  eexists. split; [reflexivity|].
  split;
    apply (rolling_7day_sample_shape (Samples.jan 20) (Samples.fortnight 5) "X");
    reflexivity.
Defined.

(** X2.  Entries dated today or later never change the result: the
    normalizer gives the same answer on the input and on the input
    without them. *)
Theorem rolling_7day_ignores_today
    (today : date) (dv : list DailyVolume) (ex : string) :
  _rolling_7day today dv ex = _rolling_7day today (Spec.before today dv) ex.
Proof.
  assert (Hfs : filtered_sorted today (Spec.before today dv)
                = filtered_sorted today dv).
  { unfold filtered_sorted. fold (Spec.before today (Spec.before today dv)).
    now rewrite before_idempotent. }
  pose proof (filtered_sorted_length today dv) as Hlen.
  pose proof (before_length today dv) as Hle.
  unfold _rolling_7day. rewrite Hfs.
  destruct (length (filtered_sorted today dv) <? 7)%nat eqn:E.
  - now destruct (length dv <? 7)%nat, (length (Spec.before today dv) <? 7)%nat.
  - apply Nat.ltb_ge in E.
    replace (length dv <? 7)%nat with false
      by (symmetry; apply Nat.ltb_ge; lia).
    replace (length (Spec.before today dv) <? 7)%nat with false
      by (symmetry; apply Nat.ltb_ge; lia).
    reflexivity.
Qed.

End RollingMore.

(** ** The order of the candles in a reply *)
Section RollingOrder.
Import Py Dashboard.

Lemma date_leb_antisym (a b : date) :
  date_leb a b = true -> date_leb b a = true -> date_eqb a b = true.
Proof.
  unfold date_leb. rewrite !negb_true_iff, !date_ltb_false, date_eqb_true. lia.
Qed.

Lemma existsb_same_date_false (x : DailyVolume) (l : list DailyVolume) :
  existsb (fun y => date_eqb (fst x) (fst y)) l = false ->
  forall y, In y l -> date_eqb (fst x) (fst y) = false.
Proof.
  intros H y Hy. destruct (date_eqb (fst x) (fst y)) eqn:E; [|reflexivity].
  rewrite <- H. symmetry. apply existsb_exists. exists y. now split.
Qed.

(** Two lists ascending by date with the same entries, no date repeated,
    are the same list. *)
Lemma sorted_distinct_unique (l1 l2 : list DailyVolume) :
  StronglySorted Spec.ascending l1 ->
  StronglySorted Spec.ascending l2 ->
  Permutation l1 l2 ->
  Spec.has_duplicate_date l1 = false ->
  l1 = l2.
Proof.
  intros H1. revert l2.
  induction H1 as [|a t1 Hs1 IH Ha]; intros l2 H2 Hp Hd.
  - apply Permutation_nil in Hp. now subst.
  - destruct H2 as [|b t2 Hs2 Hb].
    + apply Permutation_sym, Permutation_nil in Hp. discriminate.
    + cbn [Spec.has_duplicate_date] in Hd. apply orb_false_iff in Hd.
      destruct Hd as [Hda Hdt].
      assert (Hab : a = b).
      { assert (Hin_b : In b (a :: t1))
          by (apply (Permutation_in _ (Permutation_sym Hp)); now left).
        destruct Hin_b as [E|Hin]; [exact E|exfalso].
        assert (Hin_a : In a (b :: t2))
          by (apply (Permutation_in _ Hp); now left).
        destruct Hin_a as [E|Hin2]; [subst b|].
        - pose proof (existsb_same_date_false a t1 Hda a Hin) as C.
          assert (T : date_eqb (fst a) (fst a) = true)
            by (apply date_eqb_true; auto).
          congruence.
        - rewrite Forall_forall in Ha, Hb.
          pose proof (Ha b Hin) as Hle1. pose proof (Hb a Hin2) as Hle2.
          pose proof (date_leb_antisym _ _ Hle1 Hle2) as E.
          rewrite (existsb_same_date_false a t1 Hda b Hin) in E. discriminate. }
      subst b. f_equal. apply IH; auto.
      now apply Permutation_cons_inv with a.
Qed.

Lemma before_perm (today : date) (dv dv' : list DailyVolume) :
  Permutation dv dv' ->
  Permutation (Spec.before today dv) (Spec.before today dv').
Proof.
  unfold Spec.before. induction 1 as [|x l l' _ IH|x y l|l l' l'' _ IH1 _ IH2];
    cbn [filter].
  - constructor.
  - destruct (date_ltb (fst x) today); [now constructor | exact IH].
  - destruct (date_ltb (fst x) today), (date_ltb (fst y) today);
      try reflexivity. apply perm_swap.
  - now transitivity (filter (fun p => date_ltb (fst p) today) l').
Qed.

(** X3.  When no date occurs twice in the reply, the order in which the
    exchange lists its candles does not matter: every rearrangement of
    the input gives the same result. *)
Theorem rolling_7day_order_irrelevant
    (today : date) (dv dv' : list DailyVolume) (ex : string) :
  Permutation dv dv' ->
  Spec.has_duplicate_date dv = false ->
  _rolling_7day today dv ex = _rolling_7day today dv' ex.
Proof.
  intros Hp Hd.
  assert (Hfs : filtered_sorted today dv = filtered_sorted today dv').
  { apply sorted_distinct_unique.
    - apply sort_by_date_sorted.
    - apply sort_by_date_sorted.
    - unfold filtered_sorted.
      rewrite <- (sort_by_date_perm (filter _ dv)).
      rewrite <- (sort_by_date_perm (filter _ dv')).
      exact (before_perm today dv dv' Hp).
    - unfold filtered_sorted. rewrite has_duplicate_sort.
      now apply has_duplicate_filter. }
  unfold _rolling_7day. rewrite Hfs, (Permutation_length Hp). reflexivity.
Qed.

Lemma rolling_7day_order_irrelevant_witness :
  _rolling_7day (Samples.jan 20) (Samples.fortnight 5) "X"
  = _rolling_7day (Samples.jan 20) (rev (Samples.fortnight 5)) "X".
Proof.
  apply (rolling_7day_order_irrelevant (Samples.jan 20)
           (Samples.fortnight 5) (rev (Samples.fortnight 5)) "X").
  - apply Permutation_rev.
  - reflexivity.
Defined.

(** With a repeated date the order can matter: the window is cut from
    a stable sort, so which of two entries of the boundary day falls
    into it depends on their order of arrival. *)
Example rolling_7day_order_matters_with_duplicates :
  let a := [(Samples.jan 1, 3); (Samples.jan 1, 5); (Samples.jan 2, 1);
            (Samples.jan 3, 1); (Samples.jan 4, 1); (Samples.jan 5, 1);
            (Samples.jan 6, 1); (Samples.jan 7, 1)]%Q in
  let b := [(Samples.jan 1, 5); (Samples.jan 1, 3); (Samples.jan 2, 1);
            (Samples.jan 3, 1); (Samples.jan 4, 1); (Samples.jan 5, 1);
            (Samples.jan 6, 1); (Samples.jan 7, 1)]%Q in
  Permutation a b
  /\ (exists s, _rolling_7day (Samples.jan 20) a "X" = Some s
                /\ volume_7d s = 11%Q)
  /\ (exists s, _rolling_7day (Samples.jan 20) b "X" = Some s
                /\ volume_7d s = 9%Q).
Proof.
  cbv zeta. split; [apply perm_swap|].
  split; eexists; split; reflexivity.
Qed.

End RollingOrder.

(** ** Signs of the sample *)
Section RollingSigns.
Import Py Dashboard.

Lemma sum_nonneg_in (l : list Q) :
  (forall x, In x l -> (0 <= x)%Q) -> (0 <= Py.sum l)%Q.
Proof.
  intro H. apply sum_nonneg. now apply Forall_forall.
Qed.

Lemma filtered_sorted_in (today : date) (dv : list DailyVolume) (p : DailyVolume) :
  In p (filtered_sorted today dv) -> In p dv.
Proof.
  unfold filtered_sorted. intro H.
  apply (Permutation_in _ (Permutation_sym (sort_by_date_perm _))) in H.
  now apply filter_In in H.
Qed.

(** X4.  When no volume of the input is negative, the 7-day total and
    the daily average of a returned sample are not negative, and a
    week-over-week change, when present, is at least -100 percent. *)
Theorem rolling_7day_signs
    (today : date) (dv : list DailyVolume) (ex : string) (s : VolumeSample) :
  Forall (fun p => 0 <= snd p)%Q dv ->
  _rolling_7day today dv ex = Some s ->
  (0 <= volume_7d s)%Q
  /\ (0 <= avg_daily s)%Q
  /\ (forall w, wow_pct s = Some w -> (-100 <= w)%Q).
Proof.
  intros Hnn Hs.
  assert (Hin : forall part rest1 rest2,
             filtered_sorted today dv = rest1 ++ part ++ rest2 ->
             (0 <= Py.sum (map snd part))%Q).
  { intros part rest1 rest2 E. apply sum_nonneg_in. intros x Hx.
    apply in_map_iff in Hx. destruct Hx as (p & <- & Hp).
    rewrite Forall_forall in Hnn. apply Hnn.
    apply (filtered_sorted_in today). rewrite E.
    apply in_or_app. right. apply in_or_app. now left. }
  destruct (rolling_some_inv today dv ex s Hs) as (_ & _ & H7 & _).
  destruct (split_last 7 (filtered_sorted today dv) H7) as (front & cur & Hsplit & Hc).
  destruct (le_lt_dec 14 (length (filtered_sorted today dv))) as [H14|H14].
  - destruct (split_last 7 front) as (older & prev & Hf & Hp).
    { rewrite Hsplit, length_app in H14. lia. }
    subst front. rewrite <- app_assoc in Hsplit.
    pose proof (rolling_two_weeks today dv ex older prev cur Hsplit Hp Hc) as Hr.
    cbv zeta in Hr. rewrite Hr in Hs. injection Hs as <-.
    cbn [volume_7d avg_daily wow_pct].
    assert (Hcur : (0 <= Py.sum (map snd cur))%Q).
    { apply (Hin cur (older ++ prev) []).
      now rewrite app_nil_r, <- app_assoc. }
    assert (Hprev : (0 <= Py.sum (map snd prev))%Q)
      by (apply (Hin prev older cur); exact Hsplit).
    split; [exact Hcur|]. split.
    + apply Qle_shift_div_l; lra.
    + intros w Hw.
      destruct (Qltb 0 (Py.sum (map snd prev))) eqn:E; [|discriminate].
      injection Hw as <-. apply Qltb_lt in E.
      set (c := Py.sum (map snd cur)) in *.
      set (p := Py.sum (map snd prev)) in *.
      assert (Hq : (-1 <= (c - p) / p)%Q).
      { apply Qle_shift_div_l; [exact E|]. lra. }
      lra.
  - destruct (rolling_one_week today dv ex front cur Hsplit Hc) as (wow & Hr).
    rewrite Hr in Hs. injection Hs as <-.
    cbn [volume_7d avg_daily wow_pct].
    assert (Hcur : (0 <= Py.sum (map snd cur))%Q).
    { apply (Hin cur front []). now rewrite app_nil_r. }
    split; [exact Hcur|]. split.
    + apply Qle_shift_div_l; lra.
    + intros w Hw. exfalso.
      destruct (rolling_some_inv today dv ex _ Hr) as (_ & _ & _ & Hno).
      assert (C : (14 <= length (filtered_sorted today dv))%nat).
      { apply Hno. cbn [wow_pct]. rewrite Hw. discriminate. }
      lia.
Qed.

End RollingSigns.

(** ** More on the vesting projector *)
Section VestingMore.
Import Py Dashboard.
Import Spec (well_formed).

Lemma contribution_zero (now_ts target_ts : Z) (v : VestingSchedule) :
  Z.min target_ts (vs_end v) <= now_ts ->
  Spec.contribution now_ts target_ts v = 0%Q.
Proof.
  intro H. unfold Spec.contribution, Spec.effective_end.
  replace (Z.min target_ts (vs_end v) >? now_ts) with false; [reflexivity|].
  symmetry. rewrite Z.gtb_ltb. apply Z.ltb_ge. exact H.
Qed.

Lemma contributions_sum_zero (now_ts target_ts : Z)
    (schedules : list VestingSchedule) :
  Forall (fun v => Z.min target_ts (vs_end v) <= now_ts) schedules ->
  (Spec.contributions_sum schedules now_ts target_ts == 0)%Q.
Proof.
  unfold Spec.contributions_sum. induction 1 as [|v rest Hv _ IH]; simpl.
  - reflexivity.
  - rewrite (contribution_zero _ _ _ Hv), IH. reflexivity.
Qed.

(** X5.  Nothing vests in the past: when the target is not after now, or
    every schedule has already ended, the projection of schedules with
    end > start is 0. *)
Theorem vesting_projection_nothing_left
    (schedules : list VestingSchedule) (now_ts target_ts : Z) :
  Forall well_formed schedules ->
  target_ts <= now_ts \/ Forall (fun v => vs_end v <= now_ts) schedules ->
  vesting_projection schedules now_ts target_ts = Some 0.
Proof.
  intros Hwf Hcase.
  rewrite (projection_of_well_formed schedules now_ts target_ts Hwf).
  f_equal. unfold Spec.total_projection.
  rewrite (round_comp _ (inject_Z 0)); [apply round_Z|].
  apply contributions_sum_zero.
  destruct Hcase as [Ht|He].
  - apply Forall_forall. intros v _. lia.
  - eapply Forall_impl; [|exact He]. intros v Hv. simpl in Hv. lia.
Qed.

Lemma vesting_projection_nothing_left_witness :
  calculate_vesting_projection 1900000000 1774569600 = Some 0.
Proof.
  apply (vesting_projection_nothing_left VESTING_SCHEDULES 1900000000 1774569600).
  - repeat constructor; unfold well_formed; simpl; lia.
  - left. lia.
Defined.

Lemma contribution_saturated (now_ts t1 t2 : Z) (v : VestingSchedule) :
  vs_end v <= t1 -> vs_end v <= t2 ->
  Spec.contribution now_ts t1 v = Spec.contribution now_ts t2 v.
Proof.
  intros H1 H2. unfold Spec.contribution, Spec.effective_end.
  now rewrite (Z.min_r t1), (Z.min_r t2).
Qed.

(** X6.  The projection saturates: two targets that both lie at or after
    the end of every schedule give the same projection. *)
Theorem vesting_projection_saturates
    (schedules : list VestingSchedule) (now_ts t1 t2 : Z) :
  Forall (fun v => vs_end v <= t1 /\ vs_end v <= t2) schedules ->
  vesting_projection schedules now_ts t1
  = vesting_projection schedules now_ts t2.
Proof.
  intro H. unfold vesting_projection. f_equal.
  assert (Hloop : forall total,
             projection_loop now_ts t1 total schedules
             = projection_loop now_ts t2 total schedules).
  { induction H as [|v rest [H1 H2] _ IH]; intro total; [reflexivity|].
    cbn [projection_loop].
    assert (Hstep : projection_step now_ts t1 total v
                    = projection_step now_ts t2 total v).
    { unfold projection_step. now rewrite (Z.min_r t1), (Z.min_r t2). }
    rewrite Hstep.
    destruct (projection_step now_ts t2 total v); simpl; [apply IH|reflexivity]. }
  apply Hloop.
Qed.

Lemma vesting_projection_saturates_witness :
  calculate_vesting_projection 1762000000 1900000000
  = calculate_vesting_projection 1762000000 2000000000.
Proof.
  apply (vesting_projection_saturates VESTING_SCHEDULES
           1762000000 1900000000 2000000000).
  repeat constructor; simpl; lia.
Defined.




(** Before a schedule starts the bound fails: the accrual runs from now,
    so the projection can exceed the allocation. *)
Example vesting_projection_can_exceed_allocation :
  vesting_projection [mkSchedule "later" 100 200 100] 0 200 = Some 200.
Proof. reflexivity. Qed.




End VestingMore.

(** ** More on the holdings *)
Section HoldingsMore.
Import Py Chain.

Lemma fold_left_invariant {A B : Type} (Inv : A -> Prop) (step : A -> B -> A) :
  (forall a b, Inv a -> Inv (step a b)) ->
  forall bs a, Inv a -> Inv (fold_left step bs a).
Proof.
  intros Hstep bs. induction bs as [|b rest IH]; intros a Ha; simpl.
  - exact Ha.
  - apply IH, Hstep, Ha.
Qed.

Lemma sum_app (l1 l2 : list Q) : (Py.sum (l1 ++ l2) == Py.sum l1 + Py.sum l2)%Q.
Proof.
  rewrite !sum_fold_right. induction l1 as [|x l1 IH]; simpl.
  - lra.
  - rewrite IH. lra.
Qed.

Lemma sum_partition {A : Type} (f : A -> Q) (p : A -> bool) (l : list A) :
  (Py.sum (map f l)
   == Py.sum (map f (filter p l))
      + Py.sum (map f (filter (fun a => negb (p a)) l)))%Q.
Proof.
  induction l as [|a rest IH]; simpl.
  - reflexivity.
  - destruct (p a); simpl; rewrite !sum_cons, IH; lra.
Qed.

(** Read as exact rationals, the two groups add up to the whole. *)
Lemma dashboard_staked_splits (env : Dashboard.Env) (now : Z) (ws : list Wallet) :
  let r := fold_left (Dashboard.load_wallet env now) ws empty_results in
  (staked_total r == staked_expired r + staked_locked r)%Q.
Proof.
  cbv zeta.
  apply (fold_left_invariant
           (fun r : Results Dashboard.Position =>
              staked_total r == staked_expired r + staked_locked r)%Q).
  - intros r w Hr. unfold Dashboard.load_wallet.
    destruct (String.eqb (w_type w) "vesting"); [exact Hr|].
    destruct (String.eqb (w_name w) "treasury"); [|exact Hr].
    destruct (Dashboard.collect_rewards env _ 0) as [ps total].
    cbn [staked_total staked_expired staked_locked].
    apply sum_partition.
  - reflexivity.
Qed.

Lemma digest_staked_splits (env : Telegram.Env) (now : Z) (ws : list Wallet) :
  let r := fold_left (Telegram.load_wallet env now) ws empty_results in
  (staked_total r == staked_expired r + staked_locked r)%Q.
Proof.
  cbv zeta.
  apply (fold_left_invariant
           (fun r : Results Telegram.Position =>
              staked_total r == staked_expired r + staked_locked r)%Q).
  - intros r w Hr. unfold Telegram.load_wallet.
    destruct (String.eqb (w_type w) "vesting"); [exact Hr|].
    destruct (String.eqb (w_name w) "treasury"); [|exact Hr].
    destruct (Telegram.collect_rewards _ _ 0) as [ps total].
    cbn [staked_total staked_expired staked_locked].
    apply sum_partition.
  - reflexivity.
Qed.





Lemma dashboard_collect_total (env : Dashboard.Env)
    (ps : list Dashboard.Position) (total : Q) :
  let out := Dashboard.collect_rewards env ps total in
  (snd out
   == total + Py.sum (map (fun p => match Dashboard.p_rewards p with
                                    | Some r => r
                                    | None => 0
                                    end) (fst out)))%Q
  /\ Forall (fun p => Dashboard.p_rewards p
                      = Some (Dashboard.get_position_rewards env (Dashboard.p_id p)))
            (fst out)
  /\ map Dashboard.p_id (fst out) = map Dashboard.p_id ps
  /\ map Dashboard.p_deposit (fst out) = map Dashboard.p_deposit ps.
Proof.
  cbv zeta. revert total. induction ps as [|p rest IH]; intro total; simpl.
  - repeat split; try constructor. unfold Py.sum. simpl. lra.
  - specialize (IH (total + Dashboard.get_position_rewards env (Dashboard.p_id p))%Q).
    destruct (Dashboard.collect_rewards env rest _) as [rest' t'].
    simpl in *. destruct IH as (Ht & Hall & Hid & Hdep).
    repeat split.
    + rewrite sum_cons, Ht. lra.
    + constructor; [reflexivity | exact Hall].
    + now rewrite Hid.
    + now rewrite Hdep.
Qed.

Lemma digest_collect_total (rewards_map : Telegram.Dict)
    (ps : list Telegram.Position) (total : Q) :
  let out := Telegram.collect_rewards rewards_map ps total in
  (snd out
   == total + Py.sum (map (fun p => match Telegram.p_rewards p with
                                    | Some r => r
                                    | None => 0
                                    end) (fst out)))%Q
  /\ Forall (fun p => Telegram.p_rewards p
                      = Some (Telegram.dict_get rewards_map (Telegram.p_id p) 0))
            (fst out)
  /\ map Telegram.p_id (fst out) = map Telegram.p_id ps
  /\ map Telegram.p_deposit (fst out) = map Telegram.p_deposit ps.
Proof.
  cbv zeta. revert total. induction ps as [|p rest IH]; intro total; simpl.
  - repeat split; try constructor. unfold Py.sum. simpl. lra.
  - specialize (IH (total + Telegram.dict_get rewards_map (Telegram.p_id p) 0)%Q).
    destruct (Telegram.collect_rewards rewards_map rest _) as [rest' t'].
    simpl in *. destruct IH as (Ht & Hall & Hid & Hdep).
    repeat split.
    + rewrite sum_cons, Ht. lra.
    + constructor; [reflexivity | exact Hall].
    + now rewrite Hid.
    + now rewrite Hdep.
Qed.

(** X10.  In every snapshot the rewards total is the sum of the rewards
    recorded on the listed positions, every listed position has its
    rewards recorded, and the staked total is the sum of their
    deposits. *)
Theorem rewards_match_positions (denv : Dashboard.Env) (tenv : Telegram.Env)
    (now : Z) :
  let d := Dashboard.res (Dashboard.load_holdings denv now) in
  let t := Telegram.res (Telegram.load_holdings tenv now) in
  ((rewards d
    == Py.sum (map (fun p => match Dashboard.p_rewards p with
                             | Some r => r
                             | None => 0
                             end) (positions d)))%Q
   /\ Forall (fun p => Dashboard.p_rewards p <> None) (positions d)
   /\ (staked_total d == Py.sum (map Dashboard.p_deposit (positions d)))%Q)
  /\ ((rewards t
       == Py.sum (map (fun p => match Telegram.p_rewards p with
                                | Some r => r
                                | None => 0
                                end) (positions t)))%Q
      /\ Forall (fun p => Telegram.p_rewards p <> None) (positions t)
      /\ (staked_total t == Py.sum (map Telegram.p_deposit (positions t)))%Q).
Proof.
  cbv zeta. split.
  - unfold Dashboard.load_holdings, Dashboard.load_holdings_of.
    cbn [Dashboard.res].
    apply (fold_left_invariant
             (fun r : Results Dashboard.Position =>
                (rewards r
                 == Py.sum (map (fun p => match Dashboard.p_rewards p with
                                          | Some x => x
                                          | None => 0
                                          end) (positions r)))%Q
                /\ Forall (fun p => Dashboard.p_rewards p <> None) (positions r)
                /\ (staked_total r
                    == Py.sum (map Dashboard.p_deposit (positions r)))%Q)).
    + intros r w Hr. unfold Dashboard.load_wallet.
      destruct (String.eqb (w_type w) "vesting"); [exact Hr|].
      destruct (String.eqb (w_name w) "treasury"); [|exact Hr].
      pose proof (dashboard_collect_total denv
                    (Dashboard.get_staked_positions denv now (w_addr w)) 0)
        as Hc. cbv zeta in Hc.
      destruct (Dashboard.collect_rewards denv _ 0) as [ps total].
      cbn [fst snd] in Hc. destruct Hc as (Ht & Hall & _ & _).
      cbn [rewards positions staked_total].
      split; [rewrite Ht; lra|]. split; [|reflexivity].
      eapply Forall_impl; [|exact Hall]. intros p Hp. rewrite Hp. discriminate.
    + repeat split; try constructor; reflexivity.
  - unfold Telegram.load_holdings, Telegram.load_holdings_of.
    cbn [Telegram.res].
    apply (fold_left_invariant
             (fun r : Results Telegram.Position =>
                (rewards r
                 == Py.sum (map (fun p => match Telegram.p_rewards p with
                                          | Some x => x
                                          | None => 0
                                          end) (positions r)))%Q
                /\ Forall (fun p => Telegram.p_rewards p <> None) (positions r)
                /\ (staked_total r
                    == Py.sum (map Telegram.p_deposit (positions r)))%Q)).
    + intros r w Hr. unfold Telegram.load_wallet.
      destruct (String.eqb (w_type w) "vesting"); [exact Hr|].
      destruct (String.eqb (w_name w) "treasury"); [|exact Hr].
      pose proof (digest_collect_total
                    (Telegram.get_all_position_rewards tenv
                       (map Telegram.p_id
                          (Telegram.get_staked_positions tenv now (w_addr w))))
                    (Telegram.get_staked_positions tenv now (w_addr w)) 0)
        as Hc. cbv zeta in Hc.
      destruct (Telegram.collect_rewards _ _ 0) as [ps total].
      cbn [fst snd] in Hc. destruct Hc as (Ht & Hall & _ & _).
      cbn [rewards positions staked_total].
      split; [rewrite Ht; lra|]. split; [|reflexivity].
      eapply Forall_impl; [|exact Hall]. intros p Hp. rewrite Hp. discriminate.
    + repeat split; try constructor; reflexivity.
Qed.

End HoldingsMore.

(** ** The rewards dict of the digest *)
Section RewardsDict.
Import Py Chain Telegram.

Lemma dict_get_set_same (d : Dict) (k : Z) (v default : Q) :
  dict_get (dict_set k v d) k default = v.
Proof.
  unfold dict_get, dict_set. cbn [find fst]. now rewrite Z.eqb_refl.
Qed.

Lemma dict_get_set_other (d : Dict) (k k' : Z) (v default : Q) :
  k <> k' -> dict_get (dict_set k v d) k' default = dict_get d k' default.
Proof.
  intro H. unfold dict_get, dict_set. cbn [find fst].
  destruct (k =? k') eqn:E; [apply Z.eqb_eq in E; contradiction | reflexivity].
Qed.

Lemma decode_rewards_entry (position_ids : list Z) (i : nat)
    (entry : bool * option Z) (rest : list (bool * option Z)) (rewards : Dict) :
  decode_rewards position_ids i (entry :: rest) rewards
  = match nth_error position_ids i with
    | Some pid =>
        decode_rewards position_ids (S i) rest
          (dict_set pid (Rewards.reward_of entry) rewards)
    | None => None
    end.
Proof.
  destruct entry as [success ret_data]. cbn [decode_rewards].
  destruct (nth_error position_ids i) as [pid|]; [|reflexivity].
  cbn [bind]. unfold Rewards.reward_of.
  destruct success, ret_data; reflexivity.
Qed.

(** The loop succeeds exactly when the ids do not run out. *)
Lemma decode_rewards_defined (position_ids : list Z)
    (decoded : list (bool * option Z)) :
  forall i rewards,
    (i + length decoded <= length position_ids)%nat ->
    exists d, decode_rewards position_ids i decoded rewards = Some d.
Proof.
  induction decoded as [|entry rest IH]; intros i rewards Hlen.
  - exists rewards. reflexivity.
  - rewrite decode_rewards_entry. cbn [length] in Hlen.
    destruct (nth_error position_ids i) as [pid|] eqn:E.
    + apply IH. lia.
    + apply nth_error_None in E. lia.
Qed.

Lemma decode_rewards_overrun (position_ids : list Z)
    (decoded : list (bool * option Z)) :
  forall i rewards,
    (i <= length position_ids)%nat ->
    (length position_ids < i + length decoded)%nat ->
    decode_rewards position_ids i decoded rewards = None.
Proof.
  induction decoded as [|entry rest IH]; intros i rewards Hi Hlen.
  - cbn [length] in Hlen. lia.
  - rewrite decode_rewards_entry. cbn [length] in Hlen.
    destruct (nth_error position_ids i) as [pid|] eqn:E; [|reflexivity].
    assert (Hlt : (i < length position_ids)%nat)
      by (apply nth_error_Some; rewrite E; discriminate).
    apply IH; lia.
Qed.

(** Reading the dict the loop built, for ids without repetition. *)
Lemma decode_rewards_lookup (position_ids : list Z) :
  NoDup position_ids ->
  forall decoded i rewards d,
    decode_rewards position_ids i decoded rewards = Some d ->
    (forall j pid entry,
        nth_error position_ids (i + j) = Some pid ->
        nth_error decoded j = Some entry ->
        dict_get d pid 0 = Rewards.reward_of entry)
    /\ (forall pid,
           (forall j, (j < length decoded)%nat ->
                      nth_error position_ids (i + j) <> Some pid) ->
           dict_get d pid 0 = dict_get rewards pid 0).
Proof.
  intro Hnd. induction decoded as [|entry rest IH]; intros i rewards d Hd.
  - cbn [decode_rewards] in Hd. injection Hd as <-. split.
    + intros j pid e _ He. destruct j; discriminate.
    + reflexivity.
  - rewrite decode_rewards_entry in Hd.
    destruct (nth_error position_ids i) as [pid0|] eqn:E0; [|discriminate].
    destruct (IH (S i) _ d Hd) as [IH1 IH2].
    assert (Hfresh : forall j, nth_error position_ids (S i + j)%nat <> Some pid0).
    { intros j C. rewrite <- E0 in C.
      assert (Hi : (i < length position_ids)%nat)
        by (apply nth_error_Some; rewrite E0; discriminate).
      pose proof (proj1 (NoDup_nth_error position_ids) Hnd i (S i + j)%nat Hi
                    (eq_sym C)).
      lia. }
    split.
    + intros j pid e Hpid He. destruct j as [|j].
      * rewrite Nat.add_0_r, E0 in Hpid. injection Hpid as <-.
        cbn [nth_error] in He. injection He as <-.
        rewrite IH2; [apply dict_get_set_same|].
        intros j _. apply Hfresh.
      * cbn [nth_error] in He. apply (IH1 j pid e); [|exact He].
        now rewrite <- Nat.add_succ_comm in Hpid.
    + intros pid Hout.
      rewrite IH2.
      * apply dict_get_set_other. intro C. subst pid0.
        apply (Hout 0%nat); [cbn [length]; lia|].
        now rewrite Nat.add_0_r.
      * intros j Hj. rewrite Nat.add_succ_comm.
        apply Hout. cbn [length]. lia.
Qed.

Lemma rewards_from_skips (env : Env) (skipped rest : list string)
    (position_ids : list Z) :
  Forall (fun rpc => multicall env rpc = None) skipped ->
  rewards_from env (skipped ++ rest) position_ids
  = rewards_from env rest position_ids.
Proof.
  induction 1 as [|rpc more Hrpc _ IH]; [reflexivity|].
  cbn [app rewards_from]. now rewrite Hrpc.
Qed.

Lemma zeros_lookup (position_ids : list Z) (pid : Z) :
  dict_get (map (fun p => (p, 0%Q)) position_ids) pid 0 = 0%Q.
Proof.
  unfold dict_get. induction position_ids as [|p rest IH]; [reflexivity|].
  cbn [map find fst snd]. destruct (p =? pid); [reflexivity | exact IH].
Qed.

(** X11.  The first node that answers decides the rewards.  When the
    nodes tried before [rpc] give no usable answer and [rpc] returns at
    most as many entries as there are position ids, none repeated, then
    the i-th id reads the i-th entry's rewards (0.0 for a failed call or
    a short return), and an id beyond the entries reads the default
    0.0. *)
Theorem position_rewards_lookup (env : Env) (position_ids : list Z)
    (skipped rest : list string) (rpc : string)
    (decoded : list (bool * option Z)) :
  RPC_URLS = skipped ++ rpc :: rest ->
  Forall (fun u => multicall env u = None) skipped ->
  multicall env rpc = Some decoded ->
  (length decoded <= length position_ids)%nat ->
  NoDup position_ids ->
  let rewards := get_all_position_rewards env position_ids in
  (forall i pid entry,
      nth_error position_ids i = Some pid ->
      nth_error decoded i = Some entry ->
      dict_get rewards pid 0 = Rewards.reward_of entry)
  /\ (forall i pid,
         nth_error position_ids i = Some pid ->
         (length decoded <= i)%nat ->
         dict_get rewards pid 0 = 0%Q).
Proof.
  intros Hurls Hskip Hrpc Hlen Hnd. cbv zeta.
  assert (Hres : exists d,
             decode_rewards position_ids 0 decoded [] = Some d
             /\ get_all_position_rewards env position_ids = d).
  { destruct (decode_rewards_defined position_ids decoded 0 [] Hlen) as (d & Hd).
    exists d. split; [exact Hd|].
    unfold get_all_position_rewards.
    destruct position_ids as [|p0 ids'].
    { destruct decoded; [now injection Hd as <- | cbn [length] in Hlen; lia]. }
    rewrite Hurls, (rewards_from_skips env skipped _ _ Hskip).
    cbn [rewards_from]. now rewrite Hrpc, Hd. }
  destruct Hres as (d & Hd & ->).
  destruct (decode_rewards_lookup position_ids Hnd decoded 0 [] d Hd)
    as [H1 H2].
  split.
  - intros i pid entry Hpid He. now apply (H1 i pid entry).
  - intros i pid Hpid Hi. rewrite H2; [reflexivity|].
    intros j Hj C. cbn [Nat.add] in C. rewrite <- Hpid in C.
    assert (Hjl : (j < length position_ids)%nat) by lia.
    pose proof (proj1 (NoDup_nth_error position_ids) Hnd j i Hjl C). lia.
Qed.

(** X12.  A reply with more entries than position ids is dropped like a
    missing one: the next node is asked. *)
Theorem overlong_reply_is_skipped (env : Env) (position_ids : list Z)
    (rpc : string) (rest : list string) (decoded : list (bool * option Z)) :
  multicall env rpc = Some decoded ->
  (length position_ids < length decoded)%nat ->
  rewards_from env (rpc :: rest) position_ids
  = rewards_from env rest position_ids.
Proof.
  intros Hrpc Hlen. cbn [rewards_from]. rewrite Hrpc.
  rewrite (decode_rewards_overrun position_ids decoded 0 []); [reflexivity | lia |].
  exact Hlen.
Qed.

(** X13.  When no node gives a usable answer, for position ids that can
    be encoded (0 .. 2^256 - 1): every id reads 0.0 in the dict of
    rewards, every position listed in the digest's snapshot has rewards
    0.0 recorded, and the rewards figure of the snapshot is 0. *)
Theorem no_node_no_rewards (env : Env) (now : Z) :
  Forall (fun u => multicall env u = None) RPC_URLS ->
  Props.ids_encodable env ->
  (forall position_ids pid,
      Forall Props.encodable position_ids ->
      dict_get (get_all_position_rewards env position_ids) pid 0 = 0%Q)
  /\ Forall (fun p => p_rewards p = Some 0%Q)
            (positions (res (load_holdings env now)))
  /\ (rewards (res (load_holdings env now)) == 0)%Q.
Proof.
  intros Hnone _.
  assert (Hzero : forall position_ids pid,
             dict_get (get_all_position_rewards env position_ids) pid 0 = 0%Q).
  { intros ids pid. unfold get_all_position_rewards.
    destruct ids as [|p0 ids']; [reflexivity|].
    rewrite <- (app_nil_r RPC_URLS), (rewards_from_skips env RPC_URLS [] _ Hnone).
    apply zeros_lookup. }
  split; [intros ids pid _; apply Hzero|].
  unfold load_holdings, load_holdings_of. cbn [res].
  apply (fold_left_invariant
           (fun r : Results Position =>
              Forall (fun p => p_rewards p = Some 0%Q) (positions r)
              /\ (rewards r == 0)%Q)).
  - intros r w Hr. unfold load_wallet.
    destruct (String.eqb (w_type w) "vesting"); [exact Hr|].
    destruct (String.eqb (w_name w) "treasury"); [|exact Hr].
    pose proof (digest_collect_total
                  (get_all_position_rewards env
                     (map p_id (get_staked_positions env now (w_addr w))))
                  (get_staked_positions env now (w_addr w)) 0) as Hc.
    cbv zeta in Hc.
    destruct (collect_rewards _ _ 0) as [ps total].
    cbn [fst snd] in Hc. destruct Hc as (Ht & Hall & _ & _).
    cbn [rewards positions]. split.
    + eapply Forall_impl; [|exact Hall].
      intros p Hp. cbv beta in Hp. now rewrite Hp, Hzero.
    + rewrite Ht.
      assert (Hs : (Py.sum (map (fun p => match p_rewards p with
                                          | Some x => x
                                          | None => 0
                                          end) ps) == 0)%Q).
      { clear Ht. induction Hall as [|p rest Hp _ IH].
        - reflexivity.
        - cbn [map]. rewrite sum_cons, IH, Hp, Hzero. reflexivity. }
      rewrite Hs. reflexivity.
  - split; [constructor | reflexivity].
Qed.

End RewardsDict.

(** ** Signs of the snapshot and the breakdown table *)
Section Breakdown.
Import Py Chain.

Lemma get_token_balance_nonneg (net : Replies) (a : string) :
  Spec.nonneg_replies net -> (0 <= get_token_balance net a)%Q.
Proof.
  intros (H & _ & _). unfold get_token_balance.
  destruct (etherscan_tokenbalance net a) as [n|] eqn:E; [|apply Qle_refl].
  apply to_tokens_nonneg. eapply H, E.
Qed.

Lemma get_bsc_token_balance_nonneg (net : Replies) (a : string) :
  Spec.nonneg_replies net -> (0 <= get_bsc_token_balance net a)%Q.
Proof.
  intros (_ & _ & H). unfold get_bsc_token_balance.
  destruct (bsc_balance_of net a) as [n|] eqn:E; [|apply Qle_refl].
  apply to_tokens_nonneg. eapply H, E.
Qed.

Lemma vested_unclaimed_nonneg (net : Replies) (a : string) :
  Spec.nonneg_replies net ->
  (0 <= vi_vested_unclaimed (get_vesting_info net a))%Q.
Proof.
  intros (_ & H & _). unfold get_vesting_info. cbn [vi_vested_unclaimed].
  destruct (etherscan_claimable net a) as [n|] eqn:E; [|apply Qle_refl].
  apply to_tokens_nonneg. eapply H, E.
Qed.

Lemma dashboard_rewards_nonneg (env : Dashboard.Env) (id : Z) :
  Spec.nonneg_dashboard env -> (0 <= Dashboard.get_position_rewards env id)%Q.
Proof.
  intros (_ & _ & H). unfold Dashboard.get_position_rewards.
  destruct (Dashboard.staking_rewards env id) as [n|] eqn:E; [|apply Qle_refl].
  apply to_tokens_nonneg. eapply H, E.
Qed.

Lemma dict_get_nonneg (d : Telegram.Dict) (k : Z) :
  Forall (fun kv => 0 <= snd kv)%Q d -> (0 <= Telegram.dict_get d k 0)%Q.
Proof.
  intro H. unfold Telegram.dict_get.
  destruct (find (fun kv => fst kv =? k) d) as [kv|] eqn:E; [|apply Qle_refl].
  apply find_some in E. rewrite Forall_forall in H. now apply H.
Qed.

Lemma reward_of_nonneg (entry : bool * option Z) :
  (forall n, snd entry = Some n -> 0 <= n) -> (0 <= Rewards.reward_of entry)%Q.
Proof.
  intro H. destruct entry as [[] [n|]]; simpl; try apply Qle_refl.
  apply to_tokens_nonneg, H. reflexivity.
Qed.

Lemma decode_rewards_nonneg (position_ids : list Z)
    (decoded : list (bool * option Z)) :
  Forall (fun sr => forall n, snd sr = Some n -> 0 <= n) decoded ->
  forall i rewards d,
    Forall (fun kv => 0 <= snd kv)%Q rewards ->
    Telegram.decode_rewards position_ids i decoded rewards = Some d ->
    Forall (fun kv => 0 <= snd kv)%Q d.
Proof.
  induction 1 as [|entry rest He _ IH]; intros i rewards d Hr Hd.
  - cbn [Telegram.decode_rewards] in Hd. now injection Hd as <-.
  - rewrite decode_rewards_entry in Hd.
    destruct (nth_error position_ids i) as [pid|]; [|discriminate].
    apply (IH _ _ d) in Hd; [exact Hd|].
    unfold Telegram.dict_set. constructor; [|exact Hr].
    cbn [snd]. now apply reward_of_nonneg.
Qed.

Lemma digest_rewards_map_nonneg (env : Telegram.Env) (position_ids : list Z) :
  Spec.nonneg_digest env ->
  Forall (fun kv => 0 <= snd kv)%Q
         (Telegram.get_all_position_rewards env position_ids).
Proof.
  intros (_ & _ & H). unfold Telegram.get_all_position_rewards.
  destruct position_ids as [|p0 ids']; [constructor|].
  generalize (p0 :: ids'). intro ids.
  induction Telegram.RPC_URLS as [|rpc rest IH]; cbn [Telegram.rewards_from].
  - apply Forall_forall. intros kv Hin. apply in_map_iff in Hin.
    destruct Hin as (p & <- & _). apply Qle_refl.
  - destruct (Telegram.multicall env rpc) as [decoded|] eqn:E; [|exact IH].
    destruct (Telegram.decode_rewards ids 0 decoded []) as [d|] eqn:Ed;
      [|exact IH].
    eapply decode_rewards_nonneg; [eapply H, E | constructor | exact Ed].
Qed.

Lemma dashboard_collect_nonneg (env : Dashboard.Env)
    (ps : list Dashboard.Position) (total : Q) :
  Spec.nonneg_dashboard env -> (0 <= total)%Q ->
  (0 <= snd (Dashboard.collect_rewards env ps total))%Q.
Proof.
  intros Henv. revert total. induction ps as [|p rest IH]; intros total Ht; simpl.
  - exact Ht.
  - pose proof (dashboard_rewards_nonneg env (Dashboard.p_id p) Henv) as Hr.
    specialize (IH (total + Dashboard.get_position_rewards env (Dashboard.p_id p))%Q).
    destruct (Dashboard.collect_rewards env rest _) as [rest' t'].
    simpl in *. apply IH. lra.
Qed.

Lemma digest_collect_nonneg (rewards_map : Telegram.Dict)
    (ps : list Telegram.Position) (total : Q) :
  Forall (fun kv => 0 <= snd kv)%Q rewards_map -> (0 <= total)%Q ->
  (0 <= snd (Telegram.collect_rewards rewards_map ps total))%Q.
Proof.
  intros Hmap. revert total. induction ps as [|p rest IH]; intros total Ht; simpl.
  - exact Ht.
  - pose proof (dict_get_nonneg rewards_map (Telegram.p_id p) Hmap) as Hr.
    specialize (IH (total + Telegram.dict_get rewards_map (Telegram.p_id p) 0)%Q).
    destruct (Telegram.collect_rewards rewards_map rest _) as [rest' t'].
    simpl in *. apply IH. lra.
Qed.

Lemma sum_map_nonneg {A : Type} (f : A -> Q) (l : list A) :
  Forall (fun a => 0 <= f a)%Q l -> (0 <= Py.sum (map f l))%Q.
Proof.
  intro H. apply sum_nonneg. induction H; simpl; constructor; assumption.
Qed.

Lemma Forall_filter {A : Type} (P : A -> Prop) (keep : A -> bool) (l : list A) :
  Forall P l -> Forall P (filter keep l).
Proof.
  intro H. apply Forall_forall. intros a Ha. apply filter_In in Ha.
  rewrite Forall_forall in H. now apply H.
Qed.

Lemma empty_results_nonneg (P : Type) :
  Props.components_nonneg (@empty_results P).
Proof.
  unfold Props.components_nonneg, empty_results.
  cbn [liquid liquid_bsc vested_unclaimed locked_vesting staked_total
       staked_expired staked_locked rewards].
  repeat split; apply Qle_refl.
Qed.

Ltac open_components :=
  unfold Props.components_nonneg;
  cbn [liquid liquid_bsc vested_unclaimed locked_vesting staked_total
       staked_expired staked_locked rewards].

Lemma dashboard_wallet_nonneg (env : Dashboard.Env) (now : Z)
    (r : Results Dashboard.Position) (w : Wallet) :
  Spec.nonneg_dashboard env ->
  Props.components_nonneg r ->
  Props.components_nonneg (Dashboard.load_wallet env now r w).
Proof.
  intros Hd (H1 & H2 & H3 & H4 & H5 & H6 & H7 & H8).
  unfold Dashboard.load_wallet.
  destruct (String.eqb (w_type w) "vesting").
  - pose proof (vested_unclaimed_nonneg (Dashboard.net env) (w_addr w)
                  (proj1 Hd)) as Hv.
    set (vi := get_vesting_info (Dashboard.net env) (w_addr w)) in *.
    assert (Hl : (0 <= vi_locked vi)%Q) by apply max0_nonneg.
    open_components. repeat split; try assumption; lra.
  - pose proof (get_token_balance_nonneg (Dashboard.net env) (w_addr w)
                  (proj1 Hd)) as Hb.
    pose proof (get_bsc_token_balance_nonneg (Dashboard.net env) (w_addr w)
                  (proj1 Hd)) as Hc.
    destruct (String.eqb (w_name w) "treasury").
    + pose proof (dashboard_collect_deposits env _ 0%Q
                    (dashboard_positions_nonneg env now (w_addr w) Hd))
        as Hdep.
      pose proof (dashboard_collect_nonneg env
                    (Dashboard.get_staked_positions env now (w_addr w)) 0
                    Hd (Qle_refl 0)) as Hrew.
      destruct (Dashboard.collect_rewards env _ 0) as [ps total].
      cbn [fst snd] in Hdep, Hrew. open_components.
      repeat split; try assumption; try lra;
        apply sum_map_nonneg; try exact Hdep; now apply Forall_filter.
    + open_components. repeat split; try assumption; lra.
Qed.

Lemma digest_wallet_nonneg (env : Telegram.Env) (now : Z)
    (r : Results Telegram.Position) (w : Wallet) :
  Spec.nonneg_digest env ->
  Props.components_nonneg r ->
  Props.components_nonneg (Telegram.load_wallet env now r w).
Proof.
  intros Ht (H1 & H2 & H3 & H4 & H5 & H6 & H7 & H8).
  unfold Telegram.load_wallet.
  destruct (String.eqb (w_type w) "vesting").
  - pose proof (vested_unclaimed_nonneg (Telegram.net env) (w_addr w)
                  (proj1 Ht)) as Hv.
    set (vi := get_vesting_info (Telegram.net env) (w_addr w)) in *.
    assert (Hl : (0 <= vi_locked vi)%Q) by apply max0_nonneg.
    open_components. repeat split; try assumption; lra.
  - pose proof (get_token_balance_nonneg (Telegram.net env) (w_addr w)
                  (proj1 Ht)) as Hb.
    pose proof (get_bsc_token_balance_nonneg (Telegram.net env) (w_addr w)
                  (proj1 Ht)) as Hc.
    destruct (String.eqb (w_name w) "treasury").
    + pose proof (digest_collect_deposits
                    (Telegram.get_all_position_rewards env
                       (map Telegram.p_id
                          (Telegram.get_staked_positions env now (w_addr w))))
                    _ 0%Q
                    (digest_positions_nonneg _ now (w_addr w)
                       (proj1 (proj2 Ht)))) as Hdep.
      fold (Telegram.get_staked_positions env now (w_addr w)) in Hdep.
      pose proof (digest_collect_nonneg
                    (Telegram.get_all_position_rewards env
                       (map Telegram.p_id
                          (Telegram.get_staked_positions env now (w_addr w))))
                    (Telegram.get_staked_positions env now (w_addr w)) 0
                    (digest_rewards_map_nonneg env _ Ht) (Qle_refl 0))
        as Hrew.
      destruct (Telegram.collect_rewards _ _ 0) as [ps total].
      cbn [fst snd] in Hdep, Hrew. open_components.
      repeat split; try assumption; try lra;
        apply sum_map_nonneg; try exact Hdep; now apply Forall_filter.
    + open_components. repeat split; try assumption; lra.
Qed.

(** X14.  From non-negative inputs no figure of a snapshot is negative:
    the eight components and both totals are >= 0, in the dashboard and
    in the digest. *)
Theorem snapshot_nonneg (denv : Dashboard.Env) (tenv : Telegram.Env) (now : Z) :
  Spec.nonneg_dashboard denv ->
  Spec.nonneg_digest tenv ->
  let d := Dashboard.load_holdings denv now in
  let t := Telegram.load_holdings tenv now in
  (Props.components_nonneg (Dashboard.res d)
   /\ (0 <= Dashboard.total_sellable d)%Q
   /\ (0 <= Dashboard.total_holdings d)%Q)
  /\ (Props.components_nonneg (Telegram.res t)
      /\ (0 <= Telegram.total_sellable t)%Q
      /\ (0 <= Telegram.total_holdings t)%Q).
Proof.
  intros Hd Ht. cbv zeta. split.
  - pose proof (fold_left_invariant Props.components_nonneg
                  (Dashboard.load_wallet denv now)
                  (fun r w => dashboard_wallet_nonneg denv now r w Hd)
                  FOUNDATION_WALLETS empty_results (empty_results_nonneg _))
      as Hall.
    unfold Dashboard.load_holdings, Dashboard.load_holdings_of.
    cbn [Dashboard.res Dashboard.total_sellable Dashboard.total_holdings].
    split; [exact Hall|].
    destruct Hall as (H1 & H2 & H3 & H4 & H5 & H6 & H7 & H8).
    split; lra.
  - pose proof (fold_left_invariant Props.components_nonneg
                  (Telegram.load_wallet tenv now)
                  (fun r w => digest_wallet_nonneg tenv now r w Ht)
                  FOUNDATION_WALLETS empty_results (empty_results_nonneg _))
      as Hall.
    unfold Telegram.load_holdings, Telegram.load_holdings_of.
    cbn [Telegram.res Telegram.total_sellable Telegram.total_holdings].
    split; [exact Hall|].
    destruct Hall as (H1 & H2 & H3 & H4 & H5 & H6 & H7 & H8).
    assert (Hmm : (0 <= inject_Z (fold_left Z.add
                                    (map snd Telegram.MM_DEFAULTS) 0%Z))%Q)
      by (vm_compute; discriminate).
    split; lra.
Qed.

Lemma sum_positive_rows (l : list (string * Q)) (keep : string -> bool) :
  Forall (fun kv => 0 <= snd kv)%Q l ->
  (Py.sum (map Present.amount
             (filter (fun row => keep (Present.category row))
                (map (fun kv => Present.mkBreakdownRow (fst kv) (snd kv)
                                  (Present.is_sellable (fst kv)))
                     (filter (fun kv => Qltb 0 (snd kv)) l))))
   == Py.sum (map snd (filter (fun kv => keep (fst kv)) l)))%Q.
Proof.
  induction 1 as [|kv rest Hkv _ IH]; [reflexivity|].
  cbn [filter]. destruct (Qltb 0 (snd kv)) eqn:E.
  - cbn [map filter Present.category].
    destruct (keep (fst kv)); [|exact IH].
    cbn [map Present.amount]. rewrite !sum_cons, IH. reflexivity.
  - apply Qltb_ge in E.
    destruct (keep (fst kv)); [|exact IH].
    cbn [map]. rewrite sum_cons, IH. lra.
Qed.

(** The table of any accumulator whose components are not negative and
    whose stake splits. *)
Lemma breakdown_of_results (r : Results Dashboard.Position)
    (mm_amber mm_jpeg : Z) :
  Props.components_nonneg r ->
  (staked_total r == staked_expired r + staked_locked r)%Q ->
  0 <= mm_amber ->
  0 <= mm_jpeg ->
  let h := Dashboard.mkHoldings r
             (liquid r + liquid_bsc r + vested_unclaimed r
              + staked_expired r + rewards r)%Q
             (liquid r + liquid_bsc r + vested_unclaimed r
              + locked_vesting r + staked_total r + rewards r)%Q in
  let rows := Present.bd_df h mm_amber mm_jpeg in
  (Py.sum (map Present.amount rows)
   == Dashboard.total_holdings_adj h mm_amber mm_jpeg)%Q
  /\ (Py.sum (map Present.amount (filter Present.sellable rows))
      == Dashboard.total_sellable_adj h)%Q
  /\ Forall (fun row => 0 < Present.amount row)%Q rows.
Proof.
  intros (H1 & H2 & H3 & H4 & H5 & H6 & H7 & H8) Hsplit Ha Hj. cbv zeta.
  unfold Dashboard.total_holdings_adj, Dashboard.total_sellable_adj.
  cbn [Dashboard.total_sellable Dashboard.total_holdings].
  set (h := Dashboard.mkHoldings _ _ _).
  assert (Hqa : (0 <= inject_Z mm_amber)%Q)
    by (replace 0%Q with (inject_Z 0) by reflexivity; now rewrite <- Zle_Qle).
  assert (Hqj : (0 <= inject_Z mm_jpeg)%Q)
    by (replace 0%Q with (inject_Z 0) by reflexivity; now rewrite <- Zle_Qle).
  assert (Hnn : Forall (fun kv => 0 <= snd kv)%Q
                       (Present.breakdown h mm_amber mm_jpeg)).
  { unfold Present.breakdown. subst h. cbn [Dashboard.res].
    repeat constructor; cbn [snd]; assumption. }
  split; [|split].
  - pose proof (sum_positive_rows _ (fun _ => true) Hnn) as E.
    unfold Present.bd_df.
    assert (Hf : forall (A : Type) (l : list A), filter (fun _ => true) l = l).
    { intros A l. induction l as [|x l IH]; [reflexivity|].
      cbn [filter]. now rewrite IH. }
    rewrite !Hf in E. rewrite E.
    unfold Present.breakdown. subst h. cbn [Dashboard.res map snd].
    unfold Py.sum. cbn [fold_left]. rewrite inject_Z_plus. lra.
  - pose proof (sum_positive_rows _ Present.is_sellable Hnn) as E.
    unfold Present.bd_df.
    assert (Hs : forall l : list (string * Q),
               filter Present.sellable
                 (map (fun kv => Present.mkBreakdownRow (fst kv) (snd kv)
                                   (Present.is_sellable (fst kv))) l)
               = filter (fun row => Present.is_sellable (Present.category row))
                   (map (fun kv => Present.mkBreakdownRow (fst kv) (snd kv)
                                     (Present.is_sellable (fst kv))) l)).
    { intro l. induction l as [|kv l IH]; [reflexivity|].
      cbn [map filter Present.sellable Present.category]. now rewrite IH. }
    rewrite Hs, E.
    unfold Present.breakdown. subst h. cbn [Dashboard.res].
    cbn [filter fst].
    repeat match goal with
           | |- context [Present.is_sellable ?k] =>
               let b := eval vm_compute in (Present.is_sellable k) in
               change (Present.is_sellable k) with b
           end.
    cbn [map snd]. unfold Py.sum. cbn [fold_left]. lra.
  - unfold Present.bd_df. apply Forall_forall. intros row Hin.
    apply in_map_iff in Hin. destruct Hin as (kv & <- & Hkv).
    apply filter_In in Hkv. destruct Hkv as [_ Hpos].
    cbn [Present.amount]. now apply Qltb_lt.
Qed.

(** X15.  The breakdown table adds up, with the amounts read as exact
    rationals (the rounding of binary64, which depends on the order of
    the additions, is left out).  From non-negative inputs and
    non-negative market-maker amounts, the rows shown (those with a
    positive amount) sum to the Total Holdings figure of the page, and
    the rows flagged Sellable sum to its Total Sellable figure; every
    row shown has a positive amount. *)
Theorem breakdown_adds_up (env : Dashboard.Env) (now : Z)
    (mm_amber mm_jpeg : Z) :
  Spec.nonneg_dashboard env ->
  0 <= mm_amber ->
  0 <= mm_jpeg ->
  let h := Dashboard.load_holdings env now in
  let rows := Present.bd_df h mm_amber mm_jpeg in
  (Py.sum (map Present.amount rows)
   == Dashboard.total_holdings_adj h mm_amber mm_jpeg)%Q
  /\ (Py.sum (map Present.amount (filter Present.sellable rows))
      == Dashboard.total_sellable_adj h)%Q
  /\ Forall (fun row => 0 < Present.amount row)%Q rows.
Proof.
  intros Hd Ha Hj.
  unfold Dashboard.load_holdings, Dashboard.load_holdings_of.
  apply (breakdown_of_results
           (fold_left (Dashboard.load_wallet env now) FOUNDATION_WALLETS
              empty_results) mm_amber mm_jpeg).
  - apply (fold_left_invariant Props.components_nonneg
             (Dashboard.load_wallet env now)
             (fun r w => dashboard_wallet_nonneg env now r w Hd)).
    apply empty_results_nonneg.
  - exact (dashboard_staked_splits env now FOUNDATION_WALLETS).
  - exact Ha.
  - exact Hj.
Qed.

Lemma vesting_info_nonneg (net : Replies) (a : string) :
  Spec.nonneg_replies net ->
  (0 <= vi_balance (get_vesting_info net a))%Q
  /\ (0 <= vi_vested_unclaimed (get_vesting_info net a))%Q.
Proof.
  intro H. split.
  - unfold get_vesting_info. cbn [vi_balance].
    now apply get_token_balance_nonneg.
  - now apply vested_unclaimed_nonneg.
Qed.

(** X16.  The fraction handed to the progress bar of a vesting contract
    lies in [0, 1] for non-negative replies, even when the claimable
    amount exceeds the balance; there is no bar when the balance is
    0. *)
Theorem vesting_progress_in_range (net : Replies) (contract : string) :
  Spec.nonneg_replies net ->
  let w := get_vesting_info net contract in
  (forall x, Present.vesting_progress w = Some x -> (0 <= x <= 1)%Q)
  /\ (Present.vesting_progress w = None <-> (vi_balance w == 0)%Q).
Proof.
  intro H. cbv zeta.
  destruct (vesting_info_nonneg net contract H) as [Hb Hv].
  set (w := get_vesting_info net contract) in *.
  unfold Present.vesting_progress.
  destruct (Qltb 0 (vi_balance w)) eqn:E.
  - apply Qltb_lt in E. split.
    + intros x Hx. injection Hx as <-. unfold Present.min1.
      assert (Hq : (0 <= vi_vested_unclaimed w / vi_balance w * 100 / 100)%Q).
      { apply Qle_shift_div_l; [lra|]. rewrite Qmult_0_l.
        apply Qmult_le_0_compat; [|lra].
        apply Qle_shift_div_l; [exact E|]. lra. }
      destruct (Qltb 1 _) eqn:E1.
      * lra.
      * apply Qltb_ge in E1. split; assumption.
    + split; [discriminate|]. intro C. lra.
  - apply Qltb_ge in E. split; [discriminate|].
    split; [intros _; lra | reflexivity].
Qed.

End Breakdown.

(** ** The CSV of positions *)
Section CsvPositions.
Import Py Chain Telegram.

Lemma positions_from_skips (skipped rest : list CsvFile) (now : Z)
    (owner : string) :
  Forall (Props.no_row_of owner) skipped ->
  positions_from (skipped ++ rest) now owner = positions_from rest now owner.
Proof.
  induction 1 as [|f more Hf _ IH]; [reflexivity|].
  cbn [app positions_from]. destruct f as [| |rows]; try exact IH.
  simpl in Hf. now rewrite Hf.
Qed.

(** X17.  The positions of the digest come from the first candidate file
    that has a row of the owner, compared without regard to case: one
    position per such row, in the file's order, with the row's id and
    net deposit, expired exactly when its expiry is at or before now.
    When no candidate has such a row the list is empty. *)
Theorem csv_positions_first_match (env : Env) (now : Z) (owner : string) :
  (forall skipped rows rest,
      csv_files env = skipped ++ Table rows :: rest ->
      Forall (Props.no_row_of owner) skipped ->
      filter (owned_by owner) rows <> [] ->
      let fdn := filter (owned_by owner) rows in
      let ps := get_staked_positions env now owner in
      map p_id ps = map row_position_id fdn
      /\ map p_deposit ps = map row_net_deposited fdn
      /\ map p_expiry_ts ps = map row_expiry_ts fdn
      /\ Forall (fun p => p_is_expired p = (p_expiry_ts p <=? now)) ps)
  /\ (Forall (Props.no_row_of owner) (csv_files env) ->
      get_staked_positions env now owner = []).
Proof.
  split.
  - intros skipped rows rest Hfiles Hskip Hne. cbv zeta.
    unfold get_staked_positions.
    rewrite Hfiles, (positions_from_skips skipped _ now owner Hskip).
    cbn [positions_from].
    destruct (filter (owned_by owner) rows) as [|row0 fdn] eqn:E;
      [now contradiction Hne|].
    generalize (row0 :: fdn). intro l.
    rewrite !map_map. cbn [p_id p_deposit p_expiry_ts].
    repeat split.
    apply Forall_forall. intros p Hin. apply in_map_iff in Hin.
    destruct Hin as (row & <- & _). reflexivity.
  - intro Hnone. unfold get_staked_positions.
    rewrite <- (app_nil_r (csv_files env)).
    now rewrite (positions_from_skips (csv_files env) [] now owner Hnone).
Qed.

Lemma csv_positions_first_match_witness :
  map p_id (get_staked_positions Samples.digest_run 500
              "0x715b1ddf5d6da6846eadb72d3d6f9d93148d0bb0")
  = [1; 2].
Proof.
  destruct (csv_positions_first_match Samples.digest_run 500
              "0x715b1ddf5d6da6846eadb72d3d6f9d93148d0bb0") as [H _].
  apply (H [Unreadable] Samples.treasury_rows []).
  - reflexivity.
  - repeat constructor.
  - discriminate.
Defined.

End CsvPositions.

(** ** Size of the projected rewards *)
Section RewardsBounds.
Import Py Chain Telegram.

Lemma schedule_pools_nonneg : Forall (fun dm => 0 <= snd dm)%Q REWARDS_SCHEDULE.
Proof.
  unfold REWARDS_SCHEDULE. repeat constructor; discriminate.
Qed.

Lemma Forall_firstn {A : Type} (P : A -> Prop) (n : nat) (l : list A) :
  Forall P l -> Forall P (firstn n l).
Proof.
  intro H. revert n. induction H as [|a l Ha _ IH]; intro n.
  - destruct n; constructor.
  - destruct n; cbn [firstn]; constructor; [exact Ha | apply IH].
Qed.

(** X18.  With stake weights that are whole numbers, none negative, and
    sum to less than 2^53 (so that the two column sums are exact), a
    returned projection has between one and three rows, one per
    schedule entry taken, each labelled with that entry's month and with
    a reward between 0 and 80 percent of that entry's pool. *)
Theorem projected_rewards_bounded (env : Env) (today : date)
    (pos_df : list CsvRow) (rows : list Row) :
  first_read (csv_files env) = Some (Table pos_df) ->
  Props.stakes_exact pos_df ->
  load_staking_rewards_projection env today = Some rows ->
  let future := filter (fun dm => date_geb (fst dm) today) REWARDS_SCHEDULE in
  (1 <= length rows <= 3)%nat
  /\ Forall2 (fun row dm =>
                label row = label_of (fst dm)
                /\ (0 <= reward row <= 0.80 * snd dm)%Q)
             rows (firstn 3 future).
Proof.
  intros Hread [Hwhole _] Hrows. cbv zeta.
  assert (Hnn : Forall (fun row => 0 <= row_stake row)%Q pos_df).
  { eapply Forall_impl; [|exact Hwhole].
    intros row (n & Hn & ->). cbv beta.
    replace 0%Q with (inject_Z 0) by reflexivity. now rewrite <- Zle_Qle. }
  clear Hwhole.
  unfold load_staking_rewards_projection in Hrows. rewrite Hread in Hrows.
  destruct (Qeq_bool (Py.sum (map row_stake pos_df)) 0) eqn:E; [discriminate|].
  apply Qeq_bool_neq in E.
  pose proof (sum_map_nonneg row_stake pos_df Hnn) as Htot.
  pose proof (sum_map_nonneg row_stake (filter (owned_by FOUNDATION_STAKING_ADDR) pos_df)
                (Forall_filter _ _ _ Hnn)) as Hfdn.
  pose proof (sum_filter_le row_stake (owned_by FOUNDATION_STAKING_ADDR) pos_df Hnn)
    as Hle.
  set (total := Py.sum (map row_stake pos_df)) in *.
  set (fdn := Py.sum (map row_stake (filter (owned_by FOUNDATION_STAKING_ADDR) pos_df))) in *.
  assert (Hpos : (0 < total)%Q).
  { destruct (Qlt_le_dec 0 total) as [H|H]; [exact H|].
    exfalso. apply E. now apply Qle_antisym. }
  assert (Hshare : (0 <= fdn / total <= 1)%Q).
  { split.
    - apply Qle_shift_div_l; [exact Hpos|]. lra.
    - apply Qle_shift_div_r; [exact Hpos|]. lra. }
  pose proof (Forall_firstn _ 3
                (filter (fun dm => date_geb (fst dm) today) REWARDS_SCHEDULE)
                (Forall_filter _ (fun dm => date_geb (fst dm) today) _
                   schedule_pools_nonneg)) as Hpools.
  destruct (filter (fun dm => date_geb (fst dm) today) REWARDS_SCHEDULE)
    as [|dm0 more] eqn:Ef; [discriminate|].
  rewrite slice_first_three in Hrows.
  assert (Hlen : (1 <= length (firstn 3 (dm0 :: more)) <= 3)%nat)
    by (rewrite length_firstn; cbn [length]; lia).
  revert Hrows Hlen Hpools.
  generalize (firstn 3 (dm0 :: more)). intros l Hrows Hlen Hl.
  injection Hrows as <-.
  split; [now rewrite length_map|].
  clear Hlen. induction Hl as [|dm l Hdm _ IH]; cbn [map]; constructor;
    [|exact IH].
  cbn [label reward]. split; [reflexivity|]. simpl in Hdm.
  destruct Hshare as [Hs0 Hs1]. split; nra.
Qed.

Lemma projected_rewards_bounded_witness :
  (1 <= length [mkRowOut "Nov 2026" (217717.58 * 0.80 * (3 / 12))%Q;
                mkRowOut "Dec 2026" (207348.92 * 0.80 * (3 / 12))%Q;
                mkRowOut "Jan 2027" (200254.63 * 0.80 * (3 / 12))%Q] <= 3)%nat.
Proof.
  apply (projected_rewards_bounded Samples.digest_run (mkdate 2026 11 3)
           Samples.treasury_rows).
  - reflexivity.
  - split; [|reflexivity].
    repeat (constructor; [eexists; split; [|reflexivity]; lia|]).
    constructor.
  - reflexivity.
Defined.

End RewardsBounds.

(** ** The volume lists *)
Section VolumeLists.
Import Py Dashboard Volumes.

Lemma collect_app {A : Type} (outcomes : list (Outcome A)) (results : list A) :
  collect outcomes results = results ++ load_volumes outcomes.
Proof.
  unfold load_volumes. revert results.
  induction outcomes as [|o rest IH]; intro results; cbn [collect].
  - now rewrite app_nil_r.
  - destruct o as [|[r|]]; [apply IH | | apply IH].
    cbn [app]. rewrite (IH (results ++ [r])), (IH [r]).
    now rewrite <- app_assoc.
Qed.

Lemma load_volumes_app {A : Type} (a b : list (Outcome A)) :
  load_volumes (a ++ b) = load_volumes a ++ load_volumes b.
Proof.
  induction a as [|o rest IH]; [reflexivity|].
  unfold load_volumes in *. cbn [app collect].
  destruct o as [|[r|]]; try exact IH.
  rewrite (collect_app (rest ++ b)), (collect_app rest).
  unfold load_volumes. rewrite IH. now rewrite app_assoc.
Qed.

(** X19.  One fetcher's failure does not touch the others: a fetcher
    that raises or returns nothing leaves the list as if it had not
    been called, and a fetcher that returns a sample adds exactly that
    sample, between the samples of the fetchers before and after it. *)
Theorem load_volumes_isolates_failures {A : Type}
    (before after : list (Outcome A)) :
  load_volumes (before ++ Raises :: after) = load_volumes (before ++ after)
  /\ load_volumes (before ++ Returns None :: after)
     = load_volumes (before ++ after)
  /\ (forall r, load_volumes (before ++ Returns (Some r) :: after)
                = load_volumes before ++ r :: load_volumes after)
  /\ (length (load_volumes (before ++ after))
      <= length before + length after)%nat.
Proof.
  repeat split.
  - rewrite !load_volumes_app. reflexivity.
  - rewrite !load_volumes_app. reflexivity.
  - intro r. rewrite load_volumes_app. f_equal.
    unfold load_volumes. cbn [collect app]. now rewrite collect_app.
  - rewrite <- length_app. generalize (before ++ after). intro l.
    induction l as [|o rest IH]; [apply Nat.le_refl|].
    unfold load_volumes in *. cbn [collect length].
    destruct o as [|[r|]]; [apply le_S, IH | | apply le_S, IH].
    rewrite collect_app, length_app. unfold load_volumes.
    cbn [app length]. apply le_n_S, IH.
Qed.

End VolumeLists.

(** ** Currency conversion and the normalizer *)
Section Scaling.
Import Py Dashboard Volumes.

Lemma scaled_filter (k : Q) (today : date) (dv : list DailyVolume) :
  filter (fun p => date_ltb (fst p) today) (Props.scaled k dv)
  = Props.scaled k (filter (fun p => date_ltb (fst p) today) dv).
Proof.
  unfold Props.scaled. induction dv as [|p rest IH]; [reflexivity|].
  cbn [map filter fst]. destruct (date_ltb (fst p) today); cbn [map];
    now rewrite IH.
Qed.

Lemma scaled_insert (k : Q) (x : DailyVolume) (l : list DailyVolume) :
  insert_by_date (fst x, (snd x * k)%Q) (Props.scaled k l)
  = Props.scaled k (insert_by_date x l).
Proof.
  unfold Props.scaled. induction l as [|y rest IH]; [reflexivity|].
  cbn [map insert_by_date fst].
  destruct (date_ltb (fst y) (fst x)); cbn [map]; [now rewrite IH | reflexivity].
Qed.

Lemma scaled_sorted (k : Q) (today : date) (dv : list DailyVolume) :
  filtered_sorted today (Props.scaled k dv)
  = Props.scaled k (filtered_sorted today dv).
Proof.
  unfold filtered_sorted. rewrite scaled_filter.
  generalize (filter (fun p => date_ltb (fst p) today) dv). intro l.
  induction l as [|x rest IH]; [reflexivity|].
  unfold Props.scaled at 1. cbn [map sort_by_date fold_right].
  fold (Props.scaled k rest). fold (sort_by_date (Props.scaled k rest)).
  fold (sort_by_date rest). rewrite IH. apply scaled_insert.
Qed.

Lemma scaled_sum (k : Q) (l : list DailyVolume) :
  (Py.sum (map snd (Props.scaled k l)) == Py.sum (map snd l) * k)%Q.
Proof.
  unfold Props.scaled. rewrite !sum_fold_right.
  induction l as [|x rest IH]; simpl; [lra|]. rewrite IH. lra.
Qed.

(** Multiplying every volume by a positive factor multiplies the totals
    and leaves the week-over-week change alone. *)
Lemma rolling_scaled (k : Q) (today : date) (dv : list DailyVolume) (ex : string) :
  (0 < k)%Q ->
  match _rolling_7day today dv ex, _rolling_7day today (Props.scaled k dv) ex with
  | Some s, Some s' =>
      exchange s' = exchange s
      /\ (volume_7d s' == volume_7d s * k)%Q
      /\ (avg_daily s' == avg_daily s * k)%Q
      /\ Props.same_option (wow_pct s') (wow_pct s)
  | None, None => True
  | _, _ => False
  end.
Proof.
  intro Hk.
  destruct (le_lt_dec 7 (length (filtered_sorted today dv))) as [H7|H7].
  - destruct (split_last 7 (filtered_sorted today dv) H7)
      as (front & cur & Hsplit & Hc).
    assert (Hsplit' : filtered_sorted today (Props.scaled k dv)
                      = Props.scaled k front ++ Props.scaled k cur).
    { rewrite scaled_sorted, Hsplit. unfold Props.scaled. apply map_app. }
    assert (Hc' : length (Props.scaled k cur) = 7%nat)
      by (unfold Props.scaled; now rewrite length_map).
    destruct (le_lt_dec 14 (length (filtered_sorted today dv))) as [H14|H14].
    + destruct (split_last 7 front) as (older & prev & Hf & Hp).
      { rewrite Hsplit, length_app in H14. lia. }
      subst front. rewrite <- app_assoc in Hsplit.
      assert (Hsplit2 : filtered_sorted today (Props.scaled k dv)
                        = Props.scaled k older ++ Props.scaled k prev
                            ++ Props.scaled k cur).
      { rewrite scaled_sorted, Hsplit. unfold Props.scaled.
        now rewrite !map_app. }
      assert (Hp' : length (Props.scaled k prev) = 7%nat)
        by (unfold Props.scaled; now rewrite length_map).
      pose proof (rolling_two_weeks today dv ex _ _ _ Hsplit Hp Hc) as R.
      pose proof (rolling_two_weeks today (Props.scaled k dv) ex _ _ _
                    Hsplit2 Hp' Hc') as R'.
      cbv zeta in R, R'. rewrite R, R'. clear R R'.
      cbn [exchange volume_7d avg_daily wow_pct].
      pose proof (scaled_sum k cur) as Ec. pose proof (scaled_sum k prev) as Ep.
      set (c := Py.sum (map snd cur)) in *.
      set (p := Py.sum (map snd prev)) in *.
      set (c' := Py.sum (map snd (Props.scaled k cur))) in *.
      set (p' := Py.sum (map snd (Props.scaled k prev))) in *.
      split; [reflexivity|]. split; [exact Ec|].
      split; [rewrite Ec; unfold Qdiv; ring|].
      destruct (Qltb 0 p) eqn:E.
      * apply Qltb_lt in E.
        assert (E' : Qltb 0 p' = true) by (apply Qltb_lt; rewrite Ep; nra).
        rewrite E'. cbn [Props.same_option]. rewrite Ec, Ep. field. lra.
      * apply Qltb_ge in E.
        assert (E' : Qltb 0 p' = false) by (apply Qltb_ge; rewrite Ep; nra).
        rewrite E'. exact I.
    + destruct (rolling_one_week today dv ex front cur Hsplit Hc) as (wow & R).
      destruct (rolling_one_week today (Props.scaled k dv) ex _ _ Hsplit' Hc')
        as (wow' & R').
      assert (Hw : wow = None).
      { destruct wow as [w|]; [|reflexivity]. exfalso.
        destruct (rolling_some_inv today dv ex _ R) as (_ & _ & _ & Hno).
        assert (C : (14 <= length (filtered_sorted today dv))%nat)
          by (apply Hno; discriminate).
        lia. }
      assert (Hw' : wow' = None).
      { destruct wow' as [w|]; [|reflexivity]. exfalso.
        destruct (rolling_some_inv today (Props.scaled k dv) ex _ R')
          as (_ & _ & _ & Hno).
        assert (C : (14 <= length (filtered_sorted today (Props.scaled k dv)))%nat)
          by (apply Hno; discriminate).
        rewrite scaled_sorted in C. unfold Props.scaled in C.
        rewrite length_map in C. unfold DailyVolume in *. lia. }
      subst wow wow'. rewrite R, R'.
      cbn [exchange volume_7d avg_daily wow_pct].
      pose proof (scaled_sum k cur) as Ec.
      split; [reflexivity|]. split; [exact Ec|].
      split; [rewrite Ec; unfold Qdiv; ring | exact I].
  - rewrite (fewer_than_seven_kept today dv ex H7).
    rewrite (fewer_than_seven_kept today (Props.scaled k dv) ex); [exact I|].
    rewrite scaled_sorted. unfold Props.scaled. now rewrite length_map.
Qed.

End Scaling.

(** ** The calendar *)
Section CalendarFacts.
Import Py Calendar.

Lemma days_in_month_bounds (y m : Z) : 28 <= days_in_month y m <= 31.
Proof.
  unfold days_in_month.
  destruct (m =? 2); [destruct (is_leap y); lia|].
  destruct ((m =? 4) || (m =? 6) || (m =? 9) || (m =? 11)); lia.
Qed.

Lemma epoch_valid : valid epoch.
Proof. unfold valid, epoch. cbn. lia. Qed.

Lemma next_day_valid (a : date) : valid a -> valid (next_day a).
Proof.
  unfold valid, next_day. intros [Hm Hd].
  destruct (day a <? days_in_month (year a) (month a)) eqn:E1.
  - apply Z.ltb_lt in E1. cbn [year month day]. lia.
  - destruct (month a <? 12) eqn:E2; cbn [year month day].
    + apply Z.ltb_lt in E2.
      pose proof (days_in_month_bounds (year a) (month a + 1)). lia.
    + pose proof (days_in_month_bounds (year a + 1) 1). lia.
Qed.

Lemma prev_day_valid (a : date) : valid a -> valid (prev_day a).
Proof.
  unfold valid, prev_day. intros [Hm Hd].
  destruct (1 <? day a) eqn:E1.
  - apply Z.ltb_lt in E1. cbn [year month day]. lia.
  - destruct (1 <? month a) eqn:E2; cbn [year month day].
    + apply Z.ltb_lt in E2.
      pose proof (days_in_month_bounds (year a) (month a - 1)). lia.
    + change (days_in_month (year a - 1) 12) with 31. lia.
Qed.

(** The day after the day before a date is that date. *)
Lemma next_prev_day (a : date) : valid a -> next_day (prev_day a) = a.
Proof.
  unfold valid, prev_day. intros [Hm Hd]. destruct a as [y m d].
  cbn [year month day] in *.
  destruct (1 <? d) eqn:E1.
  - apply Z.ltb_lt in E1. unfold next_day. cbn [year month day].
    replace (d - 1 <? days_in_month y m) with true
      by (symmetry; apply Z.ltb_lt; lia).
    f_equal. lia.
  - apply Z.ltb_ge in E1. assert (d = 1) by lia. subst d.
    destruct (1 <? m) eqn:E2.
    + apply Z.ltb_lt in E2. unfold next_day. cbn [year month day].
      rewrite Z.ltb_irrefl.
      replace (m - 1 <? 12) with true by (symmetry; apply Z.ltb_lt; lia).
      f_equal. lia.
    + apply Z.ltb_ge in E2. assert (m = 1) by lia. subst m.
      unfold next_day. cbn [year month day].
      change (days_in_month (y - 1) 12) with 31.
      change (31 <? 31) with false. change (12 <? 12) with false.
      cbv iota. f_equal. lia.
Qed.

Lemma iter_valid (step : date -> date) (p : positive) :
  (forall a, valid a -> valid (step a)) ->
  valid (Pos.iter step epoch p).
Proof.
  intro H. apply Pos.iter_invariant; [|exact epoch_valid].
  intros a Ha. now apply H.
Qed.

Lemma date_of_days_valid (days : Z) : valid (date_of_days days).
Proof.
  destruct days as [|p|p]; cbn [date_of_days].
  - exact epoch_valid.
  - apply iter_valid, next_day_valid.
  - apply iter_valid, prev_day_valid.
Qed.

(** The date of the next day is the next date of the calendar, for
    every count of days. *)
Lemma date_of_days_succ (days : Z) :
  date_of_days (days + 1) = next_day (date_of_days days).
Proof.
  destruct days as [|p|p].
  - reflexivity.
  - change (Z.pos p + 1) with (Z.pos (p + 1)). cbn [date_of_days].
    rewrite Pos.add_1_r. apply Pos.iter_succ.
  - destruct (Pos.eq_dec p 1) as [->|Hne].
    + reflexivity.
    + assert (Hp : p = Pos.succ (Pos.pred p))
        by (symmetry; now apply Pos.succ_pred).
      assert (Hz : Z.neg p + 1 = Z.neg (Pos.pred p)) by lia.
      rewrite Hz. rewrite Hp at 2. cbn [date_of_days].
      rewrite Pos.iter_succ. symmetry. apply next_prev_day.
      apply iter_valid, prev_day_valid.
Qed.

Lemma date_ltb_next_day (a : date) : date_ltb a (next_day a) = true.
Proof.
  apply date_ltb_true. unfold next_day.
  destruct (day a <? _) eqn:E1; cbn [year month day]; [lia|].
  destruct (month a <? 12) eqn:E2; cbn [year month day]; lia.
Qed.

Lemma date_ltb_trans (a b c : date) :
  date_ltb a b = true -> date_ltb b c = true -> date_ltb a c = true.
Proof. rewrite !date_ltb_true. lia. Qed.

Lemma date_of_days_lt (d1 d2 : Z) :
  d1 < d2 -> date_ltb (date_of_days d1) (date_of_days d2) = true.
Proof.
  intro H. replace d2 with (d1 + 1 + Z.of_nat (Z.to_nat (d2 - d1 - 1))) by lia.
  generalize (Z.to_nat (d2 - d1 - 1)). intro n.
  induction n as [|n IH].
  - rewrite Z.add_0_r, date_of_days_succ. apply date_ltb_next_day.
  - rewrite Nat2Z.inj_succ.
    replace (d1 + 1 + Z.succ (Z.of_nat n)) with (d1 + 1 + Z.of_nat n + 1) by lia.
    rewrite date_of_days_succ.
    eapply date_ltb_trans; [exact IH | apply date_ltb_next_day].
Qed.

(** Dates are ordered as their days are. *)
Lemma date_of_days_ltb (d1 d2 : Z) :
  date_ltb (date_of_days d1) (date_of_days d2) = (d1 <? d2).
Proof.
  destruct (Z.ltb_spec d1 d2) as [H|H].
  - now apply date_of_days_lt.
  - apply date_ltb_false.
    destruct (Z.eq_dec d1 d2) as [->|Hne]; [lia|].
    assert (Hlt : d2 < d1) by lia.
    apply date_of_days_lt, date_ltb_true in Hlt. lia.
Qed.

Lemma date_of_days_eqb (d1 d2 : Z) :
  date_eqb (date_of_days d1) (date_of_days d2) = (d1 =? d2).
Proof.
  destruct (Z.eqb_spec d1 d2) as [->|Hne].
  - apply date_eqb_true. auto.
  - destruct (date_eqb _ _) eqn:E; [|reflexivity]. exfalso.
    apply date_eqb_true in E.
    destruct (Z_lt_le_dec d1 d2) as [H|H].
    + apply date_of_days_lt, date_ltb_true in H. lia.
    + assert (Hlt : d2 < d1) by lia.
      apply date_of_days_lt, date_ltb_true in Hlt. lia.
Qed.

Example dates_of_days :
  date_of_days 0 = mkdate 1970 1 1
  /\ date_of_days 11016 = mkdate 2000 2 29
  /\ date_of_days 20461 = mkdate 2026 1 8
  /\ date_of_days (-1) = mkdate 1969 12 31.
Proof. repeat split; reflexivity. Qed.

Example first_and_last_date :
  date_of_days MIN_DAY = mkdate 1 1 1
  /\ date_of_days MAX_DAY = mkdate 9999 12 31.
Proof. split; vm_compute; reflexivity. Qed.

(** A timestamp of whole milliseconds, as the exchanges send it. *)
Lemma utc_date_of_ms (ms : Z) :
  utc_date (inject_Z ms / 1000)
  = if (MIN_DAY <=? ms / 86400000) && (ms / 86400000 <=? MAX_DAY)
    then Some (date_of_days (ms / 86400000)) else None.
Proof.
  unfold utc_date. cbv zeta.
  assert (E : Py.round (inject_Z ms / 1000 * 1000000) = ms * 1000).
  { rewrite <- (round_Z (ms * 1000)). apply round_comp.
    rewrite inject_Z_mult. field. }
  rewrite E.
  replace 86400000000 with (86400000 * 1000) by reflexivity.
  rewrite Z.div_mul_cancel_r by discriminate. reflexivity.
Qed.

End CalendarFacts.

(** ** The Binance adapter *)
Section BinanceAdapter.
Import Py Dashboard Calendar Volumes Binance.

Lemma day_before_midnight (ms now_ts : Z) :
  (ms / 86400000 <? now_ts / 86400) = (ms <? midnight_ms now_ts).
Proof.
  unfold midnight_ms.
  destruct (Z.ltb_spec ms (now_ts / 86400 * 86400000)) as [H|H].
  - apply Z.ltb_lt. apply Z.div_lt_upper_bound; [reflexivity | lia].
  - apply Z.ltb_ge. apply Z.div_le_lower_bound; [reflexivity | lia].
Qed.

Lemma parse_kline (k : Kline) (rest : list Kline) (rows : list DailyVolume) :
  _parse_binance_klines (k :: rest) = Some rows ->
  exists rows',
    _parse_binance_klines rest = Some rows'
    /\ rows = (date_of_days (open_time k / 86400000), quote_volume k) :: rows'
    /\ utc_date (inject_Z (open_time k) / 1000)
       = Some (date_of_days (open_time k / 86400000)).
Proof.
  cbn [_parse_binance_klines]. unfold Py.bind.
  rewrite utc_date_of_ms.
  destruct ((MIN_DAY <=? _) && (_ <=? MAX_DAY)); [|discriminate].
  destruct (_parse_binance_klines rest) as [rows'|]; [|discriminate].
  intro H. injection H as <-. exists rows'. repeat split.
Qed.

(** X20.  Candles of the running UTC day are never counted: of the
    parsed klines the normalizer keeps exactly those that opened before
    today's midnight (UTC), whatever their order. *)
Theorem binance_excludes_running_day
    (now_ts : Z) (klines : list Kline) (rows : list DailyVolume) :
  _parse_binance_klines klines = Some rows ->
  _parse_binance_klines
    (filter (fun k => open_time k <? midnight_ms now_ts) klines)
  = Some (Spec.before (utc_today now_ts) rows).
Proof.
  revert rows. induction klines as [|k rest IH]; intros rows H.
  - injection H as <-. reflexivity.
  - destruct (parse_kline k rest rows H) as (rows' & Hrest & -> & Hk).
    specialize (IH rows' Hrest).
    unfold Spec.before in *. cbn [filter fst].
    unfold utc_today at 1. rewrite date_of_days_ltb, day_before_midnight.
    destruct (open_time k <? midnight_ms now_ts); [|exact IH].
    cbn [_parse_binance_klines]. unfold Py.bind. rewrite Hk, IH. reflexivity.
Qed.

Lemma binance_excludes_running_day_witness :
  _parse_binance_klines
    (filter (fun k => open_time k <? midnight_ms Samples2.noon_8_jan)
            Samples2.eight_klines)
  = Some (Spec.before (utc_today Samples2.noon_8_jan)
            (map (fun n => (mkdate 2026 1 n, 10%Q)) [1; 2; 3; 4; 5; 6; 7; 8])).
Proof.
  apply (binance_excludes_running_day Samples2.noon_8_jan Samples2.eight_klines).
  vm_compute. reflexivity.
Defined.

Lemma parsed_dates (klines : list Kline) (rows : list DailyVolume) :
  _parse_binance_klines klines = Some rows ->
  map fst rows = map (fun k => date_of_days (open_time k / 86400000)) klines.
Proof.
  revert rows. induction klines as [|k rest IH]; intros rows H.
  - injection H as <-. reflexivity.
  - destruct (parse_kline k rest rows H) as (rows' & Hrest & -> & _).
    cbn [map fst]. now rewrite (IH rows' Hrest).
Qed.

Lemma distinct_days_distinct_dates (klines : list Kline) (rows : list DailyVolume) :
  NoDup (map (fun k => open_time k / 86400000) klines) ->
  _parse_binance_klines klines = Some rows ->
  Spec.has_duplicate_date rows = false.
Proof.
  revert rows. induction klines as [|k rest IH]; intros rows Hnd H.
  - injection H as <-. reflexivity.
  - destruct (parse_kline k rest rows H) as (rows' & Hrest & -> & _).
    cbn [map] in Hnd. inversion Hnd as [|x l Hnotin Hnd']. subst x l.
    cbn [Spec.has_duplicate_date fst]. rewrite (IH rows' Hnd' Hrest).
    rewrite orb_false_r.
    match goal with
    | |- existsb ?f ?l = false => destruct (existsb f l) eqn:E
    end; [|reflexivity].
    exfalso.
    apply existsb_exists in E. destruct E as (y & Hy & Heq).
    apply Hnotin.
    assert (Hd : In (fst y) (map fst rows')) by now apply in_map.
    rewrite (parsed_dates rest rows' Hrest) in Hd.
    apply in_map_iff in Hd. destruct Hd as (k' & Hk' & Hin').
    rewrite <- Hk', date_of_days_eqb in Heq. apply Z.eqb_eq in Heq.
    rewrite Heq. apply in_map_iff. now exists k'.
Qed.

(** X21.  When no two klines of the reply fall on the same UTC day, as
    for daily candles, the adapter returns what the normalizer of
    section 4.1, which keeps one entry per date, returns on the parsed
    rows. *)
Theorem binance_daily_klines_as_specified
    (now_ts : Z) (klines : list Kline) (rows : list DailyVolume) :
  NoDup (map (fun k => open_time k / 86400000) klines) ->
  _parse_binance_klines klines = Some rows ->
  Spec.has_duplicate_date rows = false
  /\ get_spot_volume_binance now_ts (Klines klines)
     = Returns (Spec.rolling_7day (utc_today now_ts) rows "Binance").
Proof.
  intros Hnd H.
  pose proof (distinct_days_distinct_dates klines rows Hnd H) as Hdup.
  split; [exact Hdup|].
  unfold get_spot_volume_binance.
  destruct klines as [|k rest].
  - injection H as <-. reflexivity.
  - rewrite H. f_equal.
    now apply rolling_7day_agrees_on_distinct_dates.
Qed.

Lemma binance_daily_klines_as_specified_witness :
  get_spot_volume_binance Samples2.noon_8_jan (Klines Samples2.eight_klines)
  = Returns (Spec.rolling_7day (utc_today Samples2.noon_8_jan)
               (map (fun n => (mkdate 2026 1 n, 10%Q)) [1; 2; 3; 4; 5; 6; 7; 8])
               "Binance").
Proof.
  apply (binance_daily_klines_as_specified Samples2.noon_8_jan
           Samples2.eight_klines).
  - vm_compute. repeat constructor; simpl; intuition discriminate.
  - vm_compute. reflexivity.
Defined.

(** X22.  A kline dated outside the years 1..9999 makes the adapter
    raise instead of returning; the loop of [load_spot_volumes] then
    leaves Binance out and keeps the other exchanges. *)
Theorem binance_bad_timestamp_is_isolated
    (now_ts : Z) (klines : list Kline) (k : Kline)
    (before after : list (Outcome VolumeSample)) :
  In k klines ->
  (open_time k / 86400000 < MIN_DAY \/ MAX_DAY < open_time k / 86400000) ->
  get_spot_volume_binance now_ts (Klines klines) = Raises
  /\ load_volumes
       (before ++ get_spot_volume_binance now_ts (Klines klines) :: after)
     = load_volumes (before ++ after).
Proof.
  intros Hin Hout.
  assert (Hnone : _parse_binance_klines klines = None).
  { induction klines as [|k' rest IH]; [contradiction|].
    cbn [_parse_binance_klines]. unfold Py.bind.
    destruct Hin as [->|Hin].
    - rewrite utc_date_of_ms.
      replace ((MIN_DAY <=? _) && (_ <=? MAX_DAY)) with false; [reflexivity|].
      symmetry. apply andb_false_iff.
      destruct Hout as [Ho|Ho]; [left; apply Z.leb_gt | right; apply Z.leb_gt];
        exact Ho.
    - rewrite (IH Hin). now destruct (utc_date _). }
  assert (Hr : get_spot_volume_binance now_ts (Klines klines) = Raises).
  { unfold get_spot_volume_binance. destruct klines; [contradiction|].
    now rewrite Hnone. }
  split; [exact Hr|].
  rewrite Hr, !load_volumes_app. reflexivity.
Qed.

Lemma binance_bad_timestamp_is_isolated_witness :
  get_spot_volume_binance 0 (Klines [mkKline 253402300800000 1]) = Raises.
Proof.
  apply (binance_bad_timestamp_is_isolated 0 [mkKline 253402300800000 1]
           (mkKline 253402300800000 1) [] []).
  - now left.
  - right. reflexivity.
Defined.

End BinanceAdapter.

(** ** The won volumes of Upbit *)
Section Upbit.
Import Py Dashboard Volumes.

Lemma upbit_rows_scaled (candles : list UpbitCandle) (k : Q) :
  map (fun c =>
         (candle_date c,
          (match candle_acc_trade_price c with
           | Some price => price
           | None => 0
           end * k)%Q)) candles
  = Props.scaled k
      (map (fun c =>
              (candle_date c,
               match candle_acc_trade_price c with
               | Some price => price
               | None => 0%Q
               end)) candles).
Proof.
  unfold Props.scaled. rewrite map_map. reflexivity.
Qed.

(** X23.  The exchange rate only scales the Upbit volumes.  For a rate
    of [rate] > 0 won per dollar the adapter returns a sample exactly
    when the normalizer returns one on the won volumes, with the 7-day
    total and the daily average divided by [rate] and with the same
    week-over-week change. *)
Theorem upbit_rate_only_scales
    (today : date) (candles : list UpbitCandle) (rate : Q) :
  (0 < rate)%Q ->
  candles <> [] ->
  let won :=
    map (fun c =>
           (candle_date c,
            match candle_acc_trade_price c with
            | Some price => price
            | None => 0%Q
            end)) candles in
  exists result,
    get_spot_volume_upbit today (Some candles) (Some rate) = Returns result
    /\ match _rolling_7day today won "Upbit", result with
       | Some s, Some s' =>
           (volume_7d s' == volume_7d s / rate)%Q
           /\ (avg_daily s' == avg_daily s / rate)%Q
           /\ Props.same_option (wow_pct s') (wow_pct s)
       | None, None => True
       | _, _ => False
       end.
Proof.
  intros Hrate Hne. cbv zeta.
  assert (Hk : (0 < 1 / rate)%Q).
  { apply Qlt_shift_div_l; [exact Hrate | lra]. }
  assert (Hcall : get_spot_volume_upbit today (Some candles) (Some rate)
                  = Returns
                      (_rolling_7day today
                         (Props.scaled (1 / rate)
                            (map (fun c =>
                                    (candle_date c,
                                     match candle_acc_trade_price c with
                                     | Some price => price
                                     | None => 0%Q
                                     end)) candles)) "Upbit")).
  { unfold get_spot_volume_upbit, _get_krw_to_usd.
    rewrite truediv_nonzero by lra.
    rewrite <- upbit_rows_scaled.
    destruct candles; [contradiction | reflexivity]. }
  eexists. split; [exact Hcall|].
  set (won := map _ candles).
  pose proof (rolling_scaled (1 / rate) today won "Upbit" Hk) as H.
  destruct (_rolling_7day today won "Upbit") as [s|];
    destruct (_rolling_7day today (Props.scaled (1 / rate) won) "Upbit")
      as [s'|];
    try exact H.
  destruct H as (_ & Hv & Ha & Hw).
  split; [rewrite Hv; field; lra|].
  split; [rewrite Ha; field; lra | exact Hw].
Qed.

Lemma upbit_rate_only_scales_witness :
  exists result,
    get_spot_volume_upbit (Samples.jan 20) (Some Samples2.won_candles) (Some 1000%Q)
    = Returns result
    /\ match _rolling_7day (Samples.jan 20)
               (map (fun c =>
                       (candle_date c,
                        match candle_acc_trade_price c with
                        | Some price => price
                        | None => 0%Q
                        end)) Samples2.won_candles) "Upbit", result with
       | Some s, Some s' =>
           (volume_7d s' == volume_7d s / 1000)%Q
           /\ (avg_daily s' == avg_daily s / 1000)%Q
           /\ Props.same_option (wow_pct s') (wow_pct s)
       | None, None => True
       | _, _ => False
       end.
Proof.
  apply (upbit_rate_only_scales (Samples.jan 20) Samples2.won_candles 1000).
  - reflexivity.
  - discriminate.
Defined.

(** X24.  A rate of 0 in the reply of the exchange-rate service makes
    the Upbit adapter raise (a division by zero), which the loop of
    [load_spot_volumes] passes over; without a rate in the reply the
    adapter works with 1450 won per dollar. *)
Theorem upbit_zero_rate_is_isolated
    (today : date) (candles : list UpbitCandle) (rate : Q)
    (before after : list (Outcome VolumeSample)) :
  candles <> [] ->
  (rate == 0)%Q ->
  get_spot_volume_upbit today (Some candles) (Some rate) = Raises
  /\ load_volumes
       (before ++ get_spot_volume_upbit today (Some candles) (Some rate) :: after)
     = load_volumes (before ++ after)
  /\ get_spot_volume_upbit today (Some candles) None
     = get_spot_volume_upbit today (Some candles) (Some 1450%Q).
Proof.
  intros Hne Hz.
  assert (Hr : get_spot_volume_upbit today (Some candles) (Some rate) = Raises).
  { unfold get_spot_volume_upbit, _get_krw_to_usd, truediv.
    destruct candles; [contradiction|].
    replace (Qeq_bool rate 0) with true; [reflexivity|].
    symmetry. now apply Qeq_bool_iff. }
  split; [exact Hr|]. split; [|reflexivity].
  rewrite Hr, !load_volumes_app. reflexivity.
Qed.

Lemma upbit_zero_rate_is_isolated_witness :
  get_spot_volume_upbit (Samples.jan 20) (Some Samples2.won_candles) (Some 0%Q)
  = Raises.
Proof.
  apply (upbit_zero_rate_is_isolated (Samples.jan 20) Samples2.won_candles 0 [] []).
  - discriminate.
  - reflexivity.
Defined.

End Upbit.

(** ** The message of the digest *)
Section DigestMessage.
Import Py Chain Telegram Format Digest.

Example fmt_groups :
  fmt 868142 = "868,142"%string
  /\ fmt (12345675 # 10) = "1,234,568"%string
  /\ fmt (1 # 2) = "0"%string
  /\ fmt (-(12345 # 10)) = "-1,234"%string
  /\ fmt 999 = "999"%string.
Proof. repeat split; reflexivity. Qed.


End DigestMessage.

(** ** The same replies read at a later time *)
Section LaterSnapshot.
Import Py Chain.

Lemma fold_left_related {A B : Type} (R : A -> A -> Prop) (f g : A -> B -> A) :
  (forall a1 a2 b, R a1 a2 -> R (f a1 b) (g a2 b)) ->
  forall bs a1 a2, R a1 a2 -> R (fold_left f bs a1) (fold_left g bs a2).
Proof.
  intros Hstep bs. induction bs as [|b rest IH]; intros a1 a2 H; simpl.
  - exact H.
  - apply IH, Hstep, H.
Qed.

(** Sums over the entries flagged by [e1] and by [e2], when [e2] flags
    at least the entries of [e1] and no value is negative. *)
Lemma sum_flagged_le {A : Type} (f : A -> Q) (e1 e2 : A -> bool) (l : list A) :
  Forall (fun a => 0 <= f a)%Q l ->
  (forall a, e1 a = true -> e2 a = true) ->
  (Py.sum (map f (filter e1 l)) <= Py.sum (map f (filter e2 l)))%Q
  /\ (Py.sum (map f (filter (fun a => negb (e2 a)) l))
      <= Py.sum (map f (filter (fun a => negb (e1 a)) l)))%Q.
Proof.
  intros Hnn Himp. induction Hnn as [|a rest Ha _ IH]; simpl.
  - split; apply Qle_refl.
  - destruct IH as [IH1 IH2].
    destruct (e1 a) eqn:E1.
    + rewrite (Himp a E1). simpl. rewrite !sum_cons. split; lra.
    + destruct (e2 a); simpl; rewrite ?sum_cons; split; lra.
Qed.

Lemma empty_read_later (P : Type) : Props.read_later (@empty_results P) empty_results.
Proof.
  unfold Props.read_later. cbn. repeat split; lra.
Qed.

(** *** The dashboard *)

Lemma dashboard_collect_flags (env : Dashboard.Env)
    (ps : list Dashboard.Position) (total : Q) :
  let out := Dashboard.collect_rewards env ps total in
  map (fun p => (Dashboard.p_deposit p, Dashboard.p_is_expired p)) (fst out)
  = map (fun p => (Dashboard.p_deposit p, Dashboard.p_is_expired p)) ps
  /\ (snd out
      == total
         + Py.sum (map (fun p => Dashboard.get_position_rewards env (Dashboard.p_id p))
                       ps))%Q.
Proof.
  cbv zeta. revert total. induction ps as [|p rest IH]; intro total.
  - split; [reflexivity|]. cbn. lra.
  - cbn [Dashboard.collect_rewards].
    specialize (IH (total + Dashboard.get_position_rewards env (Dashboard.p_id p))%Q).
    destruct (Dashboard.collect_rewards env rest _) as [rest' t'].
    cbn [fst snd] in *. destruct IH as [IH1 IH2]. split.
    + cbn [map Dashboard.p_deposit Dashboard.p_is_expired]. now rewrite IH1.
    + rewrite IH2. cbn [map]. rewrite sum_cons. lra.
Qed.

Lemma sum_by_flags {A : Type} (f : A -> Q) (e : A -> bool) (l : list A) :
  map f (filter e l) = map fst (filter snd (map (fun a => (f a, e a)) l)).
Proof.
  induction l as [|a rest IH]; [reflexivity|].
  cbn [map filter snd]. destruct (e a); cbn [map fst]; now rewrite IH.
Qed.

Lemma sum_by_flags_neg {A : Type} (f : A -> Q) (e : A -> bool) (l : list A) :
  map f (filter (fun a => negb (e a)) l)
  = map fst (filter (fun x => negb (snd x)) (map (fun a => (f a, e a)) l)).
Proof.
  induction l as [|a rest IH]; [reflexivity|].
  cbn [map filter snd]. destruct (e a); cbn [negb map fst]; now rewrite IH.
Qed.

Lemma sum_by_deposits {A : Type} (f : A -> Q) (e : A -> bool) (l : list A) :
  map f l = map fst (map (fun a => (f a, e a)) l).
Proof.
  rewrite map_map. reflexivity.
Qed.

(** What the treasury's positions come to, in terms of the reply. *)
Lemma dashboard_treasury_sums (env : Dashboard.Env) (now : Z) (owner : string)
    (ps : list Dashboard.Position) (total : Q) :
  Dashboard.collect_rewards env
    (Dashboard.get_staked_positions env now owner) 0 = (ps, total) ->
  let raw := match Dashboard.goldsky_positions env (lower owner) with
             | Some l => l
             | None => []
             end in
  map (fun p => (Dashboard.p_deposit p, Dashboard.p_is_expired p)) ps
  = map (fun p => (to_tokens (Dashboard.raw_deposit p),
                   Dashboard.raw_expiry p <=? now)) raw
  /\ (total
      == Py.sum (map (fun p => Dashboard.get_position_rewards env
                                 (Dashboard.raw_id p)) raw))%Q.
Proof.
  unfold Dashboard.get_staked_positions. cbv zeta.
  destruct (Dashboard.goldsky_positions env (lower owner)) as [raw|] eqn:E.
  - intro H.
    assert (Hmap : Dashboard.collect_rewards env
                     (map (fun p =>
                             Dashboard.mkPosition (Dashboard.raw_id p)
                               (to_tokens (Dashboard.raw_deposit p))
                               (Dashboard.raw_expiry p)
                               (Dashboard.raw_expiry p <=? now) None) raw) 0
                   = (ps, total)).
    { destruct raw; exact H. }
    clear H.
    destruct (dashboard_collect_flags env
                (map (fun p =>
                        Dashboard.mkPosition (Dashboard.raw_id p)
                          (to_tokens (Dashboard.raw_deposit p))
                          (Dashboard.raw_expiry p)
                          (Dashboard.raw_expiry p <=? now) None) raw) 0)
      as [H1 H2].
    rewrite Hmap in H1, H2. cbn [fst snd] in H1, H2.
    rewrite !map_map in H1. rewrite map_map in H2.
    cbn [Dashboard.p_deposit Dashboard.p_is_expired Dashboard.p_id] in H1, H2.
    split; [exact H1 | rewrite H2; lra].
  - intro H. cbn in H. injection H as <- <-.
    split; [reflexivity | cbn; lra].
Qed.

(** Sums over a list of (deposit, flag) pairs made from one list with
    the flags of two times. *)
Lemma flagged_sums_later {A : Type} (d : A -> Q) (x : A -> Z) (now1 now2 : Z)
    (raw : list A) :
  Forall (fun a => 0 <= d a)%Q raw ->
  now1 <= now2 ->
  let v1 := map (fun a => (d a, x a <=? now1)) raw in
  let v2 := map (fun a => (d a, x a <=? now2)) raw in
  (Py.sum (map fst v1) == Py.sum (map fst v2))%Q
  /\ (Py.sum (map fst (filter snd v1)) <= Py.sum (map fst (filter snd v2)))%Q
  /\ (Py.sum (map fst (filter (fun p => negb (snd p)) v2))
      <= Py.sum (map fst (filter (fun p => negb (snd p)) v1)))%Q.
Proof.
  intros Hnn Hle. cbv zeta.
  rewrite <- !(sum_by_deposits d), <- !(sum_by_flags d), <- !(sum_by_flags_neg d).
  split; [reflexivity|].
  apply sum_flagged_le; [exact Hnn|].
  intros a Ha. apply Z.leb_le in Ha. apply Z.leb_le. lia.
Qed.

Lemma dashboard_wallet_later (env : Dashboard.Env) (now1 now2 : Z)
    (r1 r2 : Results Dashboard.Position) (w : Wallet) :
  Spec.nonneg_dashboard env ->
  now1 <= now2 ->
  Props.read_later r1 r2 ->
  Props.read_later (Dashboard.load_wallet env now1 r1 w)
                   (Dashboard.load_wallet env now2 r2 w).
Proof.
  intros Hd Hle (H1 & H2 & H3 & H4 & H5 & H6 & H7 & H8).
  unfold Dashboard.load_wallet.
  destruct (String.eqb (w_type w) "vesting").
  - unfold Props.read_later.
    cbn [liquid liquid_bsc vested_unclaimed locked_vesting staked_total
         staked_expired staked_locked rewards].
    repeat split; try assumption; lra.
  - destruct (String.eqb (w_name w) "treasury").
    + destruct (Dashboard.collect_rewards env
                  (Dashboard.get_staked_positions env now1 (w_addr w)) 0)
        as [ps1 t1] eqn:E1.
      destruct (Dashboard.collect_rewards env
                  (Dashboard.get_staked_positions env now2 (w_addr w)) 0)
        as [ps2 t2] eqn:E2.
      destruct (dashboard_treasury_sums env now1 (w_addr w) ps1 t1 E1) as [V1 T1].
      destruct (dashboard_treasury_sums env now2 (w_addr w) ps2 t2 E2) as [V2 T2].
      set (raw := match Dashboard.goldsky_positions env (lower (w_addr w)) with
                  | Some l => l
                  | None => []
                  end) in *.
      assert (Hraw : Forall (fun p => 0 <= to_tokens (Dashboard.raw_deposit p))%Q raw).
      { unfold raw.
        destruct (Dashboard.goldsky_positions env (lower (w_addr w))) as [l|] eqn:E;
          [|constructor].
        destruct Hd as (_ & Hpos & _). specialize (Hpos _ _ E).
        eapply Forall_impl; [|exact Hpos].
        intros p Hp. now apply to_tokens_nonneg. }
      destruct (flagged_sums_later
                  (fun p => to_tokens (Dashboard.raw_deposit p))
                  Dashboard.raw_expiry now1 now2 raw Hraw Hle)
        as (S1 & S2 & S3).
      rewrite <- V1, <- V2 in S1, S2, S3.
      rewrite <- !(sum_by_deposits Dashboard.p_deposit) in S1.
      rewrite <- !(sum_by_flags Dashboard.p_deposit) in S2.
      rewrite <- !(sum_by_flags_neg Dashboard.p_deposit) in S3.
      unfold Props.read_later.
      cbn [liquid liquid_bsc vested_unclaimed locked_vesting staked_total
           staked_expired staked_locked rewards].
      repeat split; try assumption; lra.
    + unfold Props.read_later.
      cbn [liquid liquid_bsc vested_unclaimed locked_vesting staked_total
           staked_expired staked_locked rewards].
      repeat split; try assumption; lra.
Qed.

(** *** The digest *)

Lemma digest_collect_flags (rewards_map : Telegram.Dict)
    (ps : list Telegram.Position) (total : Q) :
  let out := Telegram.collect_rewards rewards_map ps total in
  map (fun p => (Telegram.p_deposit p, Telegram.p_is_expired p)) (fst out)
  = map (fun p => (Telegram.p_deposit p, Telegram.p_is_expired p)) ps
  /\ (snd out
      == total
         + Py.sum (map (fun p => Telegram.dict_get rewards_map (Telegram.p_id p) 0)
                       ps))%Q.
Proof.
  cbv zeta. revert total. induction ps as [|p rest IH]; intro total.
  - split; [reflexivity|]. cbn. lra.
  - cbn [Telegram.collect_rewards].
    specialize (IH (total + Telegram.dict_get rewards_map (Telegram.p_id p) 0)%Q).
    destruct (Telegram.collect_rewards rewards_map rest _) as [rest' t'].
    cbn [fst snd] in *. destruct IH as [IH1 IH2]. split.
    + cbn [map Telegram.p_deposit Telegram.p_is_expired]. now rewrite IH1.
    + rewrite IH2. cbn [map]. rewrite sum_cons. lra.
Qed.

Lemma positions_from_rows (files : list Telegram.CsvFile) (now : Z) (owner : string) :
  Telegram.positions_from files now owner
  = map (fun row =>
           Telegram.mkPosition (Telegram.row_position_id row)
             (Telegram.row_net_deposited row) (Telegram.row_stake row)
             (Telegram.row_expiry_ts row) (Telegram.row_expiry_ts row <=? now)
             None) (Props.rows_from files owner).
Proof.
  induction files as [|f rest IH]; [reflexivity|].
  cbn [Telegram.positions_from Props.rows_from].
  destruct f as [| |rows]; try exact IH.
  destruct (filter (Telegram.owned_by owner) rows); [exact IH | reflexivity].
Qed.

Lemma treasury_rows_nonneg (files : list Telegram.CsvFile) (owner : string) :
  Forall Spec.nonneg_table files ->
  Forall (fun row => 0 <= Telegram.row_net_deposited row)%Q
         (Props.rows_from files owner).
Proof.
  induction 1 as [|f rest Hf _ IH]; [constructor|].
  cbn [Props.rows_from]. destruct f as [| |rows]; try exact IH.
  cbn in Hf.
  assert (Hfdn : Forall (fun row => 0 <= Telegram.row_net_deposited row)%Q
                        (filter (Telegram.owned_by owner) rows)).
  { apply Forall_forall. intros row Hin. apply filter_In in Hin.
    rewrite Forall_forall in Hf. now apply Hf. }
  destruct (filter (Telegram.owned_by owner) rows); [exact IH | exact Hfdn].
Qed.

Lemma digest_wallet_later (env : Telegram.Env) (now1 now2 : Z)
    (r1 r2 : Results Telegram.Position) (w : Wallet) :
  Spec.nonneg_digest env ->
  now1 <= now2 ->
  Props.read_later r1 r2 ->
  Props.read_later (Telegram.load_wallet env now1 r1 w)
                   (Telegram.load_wallet env now2 r2 w).
Proof.
  intros Hd Hle (H1 & H2 & H3 & H4 & H5 & H6 & H7 & H8).
  unfold Telegram.load_wallet.
  destruct (String.eqb (w_type w) "vesting").
  - unfold Props.read_later.
    cbn [liquid liquid_bsc vested_unclaimed locked_vesting staked_total
         staked_expired staked_locked rewards].
    repeat split; try assumption; lra.
  - destruct (String.eqb (w_name w) "treasury").
    + unfold Telegram.get_staked_positions.
      rewrite !positions_from_rows.
      set (rows := Props.rows_from (Telegram.csv_files env) (w_addr w)).
      assert (Hrows : Forall (fun row => 0 <= Telegram.row_net_deposited row)%Q rows).
      { apply treasury_rows_nonneg. now destruct Hd as (_ & Hf & _). }
      set (mk := fun now row =>
                   Telegram.mkPosition (Telegram.row_position_id row)
                     (Telegram.row_net_deposited row) (Telegram.row_stake row)
                     (Telegram.row_expiry_ts row)
                     (Telegram.row_expiry_ts row <=? now) None).
      change (map _ rows) with (map (mk now1) rows) at 1 2.
      change (map (fun row => Telegram.mkPosition _ _ _ _ (_ <=? now2) None) rows)
        with (map (mk now2) rows).
      assert (Hids : forall now, map Telegram.p_id (map (mk now) rows)
                                 = map Telegram.row_position_id rows).
      { intro now. rewrite map_map. reflexivity. }
      rewrite !Hids.
      set (rewards_map :=
             Telegram.get_all_position_rewards env
               (map Telegram.row_position_id rows)).
      pose proof (digest_collect_flags rewards_map (map (mk now1) rows) 0) as C1.
      pose proof (digest_collect_flags rewards_map (map (mk now2) rows) 0) as C2.
      cbv zeta in C1, C2.
      destruct (Telegram.collect_rewards rewards_map (map (mk now1) rows) 0)
        as [ps1 t1].
      destruct (Telegram.collect_rewards rewards_map (map (mk now2) rows) 0)
        as [ps2 t2].
      cbn [fst snd] in C1, C2. destruct C1 as [V1 T1]. destruct C2 as [V2 T2].
      rewrite !map_map in V1, V2, T1, T2.
      cbn [mk Telegram.p_deposit Telegram.p_is_expired Telegram.p_id] in V1, V2, T1, T2.
      destruct (flagged_sums_later Telegram.row_net_deposited
                  Telegram.row_expiry_ts now1 now2 rows Hrows Hle)
        as (S1 & S2 & S3).
      rewrite <- V1, <- V2 in S1, S2, S3.
      rewrite <- !(sum_by_deposits Telegram.p_deposit) in S1.
      rewrite <- !(sum_by_flags Telegram.p_deposit) in S2.
      rewrite <- !(sum_by_flags_neg Telegram.p_deposit) in S3.
      unfold Props.read_later.
      cbn [liquid liquid_bsc vested_unclaimed locked_vesting staked_total
           staked_expired staked_locked rewards].
      repeat split; try assumption; lra.
    + unfold Props.read_later.
      cbn [liquid liquid_bsc vested_unclaimed locked_vesting staked_total
           staked_expired staked_locked rewards].
      repeat split; try assumption; lra.
Qed.

(** X26.  Time only moves stake from locked to expired.  For the same
    non-negative replies read at two times now1 <= now2, the total
    holdings are the same, the sellable total of the later snapshot is
    at least that of the earlier one and its locked stake at most, in
    the dashboard and in the digest. *)
Theorem later_snapshot_only_unlocks
    (denv : Dashboard.Env) (tenv : Telegram.Env) (now1 now2 : Z) :
  Spec.nonneg_dashboard denv ->
  Spec.nonneg_digest tenv ->
  now1 <= now2 ->
  let d1 := Dashboard.load_holdings denv now1 in
  let d2 := Dashboard.load_holdings denv now2 in
  let t1 := Telegram.load_holdings tenv now1 in
  let t2 := Telegram.load_holdings tenv now2 in
  ((Dashboard.total_holdings d1 == Dashboard.total_holdings d2)%Q
   /\ (Dashboard.total_sellable d1 <= Dashboard.total_sellable d2)%Q
   /\ (staked_locked (Dashboard.res d2) <= staked_locked (Dashboard.res d1))%Q)
  /\ ((Telegram.total_holdings t1 == Telegram.total_holdings t2)%Q
      /\ (Telegram.total_sellable t1 <= Telegram.total_sellable t2)%Q
      /\ (staked_locked (Telegram.res t2) <= staked_locked (Telegram.res t1))%Q).
Proof.
  intros Hd Ht Hle. cbv zeta. split.
  - pose proof (fold_left_related Props.read_later
                  (Dashboard.load_wallet denv now1)
                  (Dashboard.load_wallet denv now2)
                  (fun r1 r2 w => dashboard_wallet_later denv now1 now2 r1 r2 w Hd Hle)
                  FOUNDATION_WALLETS empty_results empty_results
                  (empty_read_later _)) as H.
    unfold Dashboard.load_holdings, Dashboard.load_holdings_of.
    cbn [Dashboard.res Dashboard.total_sellable Dashboard.total_holdings].
    revert H.
    generalize (fold_left (Dashboard.load_wallet denv now1) FOUNDATION_WALLETS
                  empty_results).
    generalize (fold_left (Dashboard.load_wallet denv now2) FOUNDATION_WALLETS
                  empty_results).
    intros r2 r1 (H1 & H2 & H3 & H4 & H5 & H6 & H7 & H8).
    repeat split; lra.
  - pose proof (fold_left_related Props.read_later
                  (Telegram.load_wallet tenv now1)
                  (Telegram.load_wallet tenv now2)
                  (fun r1 r2 w => digest_wallet_later tenv now1 now2 r1 r2 w Ht Hle)
                  FOUNDATION_WALLETS empty_results empty_results
                  (empty_read_later _)) as H.
    unfold Telegram.load_holdings, Telegram.load_holdings_of.
    cbn [Telegram.res Telegram.total_sellable Telegram.total_holdings].
    revert H.
    generalize (fold_left (Telegram.load_wallet tenv now1) FOUNDATION_WALLETS
                  empty_results).
    generalize (fold_left (Telegram.load_wallet tenv now2) FOUNDATION_WALLETS
                  empty_results).
    intros r2 r1 (H1 & H2 & H3 & H4 & H5 & H6 & H7 & H8).
    repeat split; lra.
Qed.

Lemma later_snapshot_only_unlocks_witness :
  (Dashboard.total_sellable (Dashboard.load_holdings Samples.dashboard_run 500)
   <= Dashboard.total_sellable (Dashboard.load_holdings Samples.dashboard_run 1000))%Q.
Proof.
  destruct (later_snapshot_only_unlocks Samples.dashboard_run Samples.digest_run
              500 1000 dashboard_run_nonneg digest_run_nonneg)
    as [(_ & H & _) _].
  - discriminate.
  - exact H.
Defined.

End LaterSnapshot.

(** ** The number format *)
Section NumberFormat.
Import Py Format.

Lemma digits_of_uint (d : Decimal.uint) :
  Forall (fun c => Props.is_digit c = true)
         (list_ascii_of_string (NilEmpty.string_of_uint d)).
Proof.
  induction d; cbn [NilEmpty.string_of_uint list_ascii_of_string];
    constructor; try reflexivity; assumption.
Qed.

Lemma digits_of_number (m : N) :
  Forall (fun c => Props.is_digit c = true)
         (list_ascii_of_string (NilZero.string_of_uint (N.to_uint m))).
Proof.
  unfold NilZero.string_of_uint.
  destruct (N.to_uint m) eqn:E; try (rewrite <- E; apply digits_of_uint).
  repeat constructor.
Qed.

Lemma to_uint_not_nil (m : N) : N.to_uint m <> Decimal.Nil.
Proof.
  intro H.
  pose proof (DecimalN.Unsigned.to_of (N.to_uint m)) as E.
  rewrite DecimalN.Unsigned.of_to, H in E. discriminate E.
Qed.

(** The commas put in are all that is put in. *)
Lemma commas_dropped (n : nat) (l : list ascii) :
  Forall (fun c => Props.is_digit c = true) l ->
  filter (fun c => negb (Ascii.eqb c ","%char)) (commas_from_right n l) = l.
Proof.
  intro H. revert n. induction H as [|c rest Hc _ IH]; intro n; [reflexivity|].
  assert (Hnc : negb (Ascii.eqb c ","%char) = true).
  { destruct (Ascii.eqb_spec c ","%char) as [->|]; [discriminate Hc | reflexivity]. }
  cbn [commas_from_right].
  destruct (n =? 3)%nat; cbn [filter Ascii.eqb negb]; rewrite ?Hnc, IH;
    reflexivity.
Qed.

Lemma commas_keep_kind (n : nat) (l : list ascii) :
  Forall (fun c => Props.is_digit c = true) l ->
  Forall (fun c => c <> "-"%char) (commas_from_right n l).
Proof.
  intro H. revert n. induction H as [|c rest Hc _ IH]; intro n; [constructor|].
  assert (Hm : c <> "-"%char) by (intros ->; discriminate Hc).
  cbn [commas_from_right].
  destruct (n =? 3)%nat; repeat constructor; try discriminate; auto.
Qed.

Lemma no_sign_in_front (l : list ascii) :
  Forall (fun c => c <> "-"%char) l ->
  match l with
  | "-"%char :: _ => true
  | _ => false
  end = false
  /\ match l with
     | "-"%char :: rest => rest
     | _ => l
     end = l.
Proof.
  intro H. destruct l as [|c rest]; [split; reflexivity|].
  inversion H as [|? ? Hc _]; subst.
  destruct (Ascii.eqb_spec c "-"%char) as [->|Hne]; [contradiction|].
  destruct c as [[] [] [] [] [] [] [] []]; try (split; reflexivity).
  contradiction Hne. reflexivity.
Qed.

Lemma grouped_read_back (m : N) :
  let shown := group_thousands (NilZero.string_of_uint (N.to_uint m)) in
  Forall (fun c => c <> "-"%char) (list_ascii_of_string shown)
  /\ NilZero.uint_of_string
       (string_of_list_ascii
          (filter (fun c => negb (Ascii.eqb c ","%char))
                  (list_ascii_of_string shown)))
     = Some (N.to_uint m).
Proof.
  cbv zeta. unfold group_thousands.
  rewrite list_ascii_of_string_of_list_ascii.
  pose proof (digits_of_number m) as Hd.
  set (ds := list_ascii_of_string (NilZero.string_of_uint (N.to_uint m))) in *.
  assert (Hrev : Forall (fun c => Props.is_digit c = true) (rev ds)).
  { apply Forall_forall. intros c Hc. apply in_rev in Hc.
    rewrite Forall_forall in Hd. now apply Hd. }
  split.
  - apply Forall_forall. intros c Hc. apply in_rev in Hc.
    pose proof (commas_keep_kind 0 (rev ds) Hrev) as Hk.
    rewrite Forall_forall in Hk. now apply Hk.
  - rewrite filter_rev, (commas_dropped 0 (rev ds) Hrev), rev_involutive.
    unfold ds. rewrite string_of_list_ascii_of_string.
    apply NilZero.usu, to_uint_not_nil.
Qed.

(** X27.  Formatting a figure loses nothing but its fraction: read back,
    with the commas dropped, a formatted value is the value rounded to
    the nearest whole number (ties to even), for every value, negative
    ones included. *)
Theorem fmt_shows_rounded_value (value : Q) :
  Props.read_figure (fmt value) = Some (Py.round value).
Proof.
  unfold fmt. cbv zeta.
  destruct (grouped_read_back (Z.abs_N (Py.round value))) as [Hns Hread].
  set (shown := group_thousands _) in *.
  destruct (Qltb value 0) eqn:E.
  - apply Qltb_lt in E.
    assert (Hn : Py.round value <= 0).
    { rewrite <- (round_Z 0). apply round_mono.
      change (inject_Z 0) with 0%Q. lra. }
    unfold Props.read_figure.
    change (list_ascii_of_string ("-" ++ shown))
      with ("-"%char :: list_ascii_of_string shown).
    cbv beta iota zeta. rewrite Hread. f_equal.
    rewrite DecimalN.Unsigned.of_to, N2Z.inj_abs_N. lia.
  - apply Qltb_ge in E.
    assert (Hn : 0 <= Py.round value).
    { rewrite <- (round_Z 0). apply round_mono.
      change (inject_Z 0) with 0%Q. lra. }
    unfold Props.read_figure.
    change (list_ascii_of_string ("" ++ shown))
      with (list_ascii_of_string shown).
    destruct (no_sign_in_front _ Hns) as [H1 H2].
    cbv zeta. rewrite H1, H2, Hread. f_equal.
    rewrite DecimalN.Unsigned.of_to, N2Z.inj_abs_N. lia.
Qed.

End NumberFormat.

Section MoreExamples.
Import Py Chain.

Lemma rolling_7day_signs_witness :
  exists s,
    Dashboard._rolling_7day (Samples.jan 20) (Samples.fortnight 5) "X" = Some s
    /\ (0 <= Dashboard.volume_7d s)%Q
    /\ (0 <= Dashboard.avg_daily s)%Q
    /\ (forall w, Dashboard.wow_pct s = Some w -> (-100 <= w)%Q).
Proof.
  eexists. split; [reflexivity|].
  apply (rolling_7day_signs (Samples.jan 20) (Samples.fortnight 5) "X").
  - repeat constructor; discriminate.
  - reflexivity.
Defined.

Lemma position_rewards_lookup_witness :
  Telegram.dict_get (Telegram.get_all_position_rewards Samples.digest_run [1; 2]) 1 0
  = to_tokens 1000000000000000000.
Proof.
  destruct (position_rewards_lookup Samples.digest_run [1; 2] []
              (tl Telegram.RPC_URLS) (hd EmptyString Telegram.RPC_URLS)
              [(true, Some 1000000000000000000); (false, None)]) as [H _].
  - reflexivity.
  - constructor.
  - reflexivity.
  - apply Nat.le_refl.
  - repeat constructor; simpl; intuition discriminate.
  - apply (H 0%nat 1 (true, Some 1000000000000000000)); reflexivity.
Defined.

Lemma overlong_reply_is_skipped_witness :
  Telegram.rewards_from Samples.digest_run ["a"; "b"]%string [7]
  = Telegram.rewards_from Samples.digest_run ["b"]%string [7].
Proof.
  apply (overlong_reply_is_skipped Samples.digest_run [7] "a" ["b"]%string
           [(true, Some 1000000000000000000); (false, None)]).
  - reflexivity.
  - apply Nat.lt_succ_diag_r.
Defined.

Lemma no_node_no_rewards_witness :
  map Telegram.p_id
      (positions (Telegram.res (Telegram.load_holdings Samples.digest_nodes_down 500)))
  = [1; 2]
  /\ Forall (fun p => Telegram.p_rewards p = Some 0%Q)
            (positions (Telegram.res (Telegram.load_holdings Samples.digest_nodes_down 500)))
  /\ (rewards (Telegram.res (Telegram.load_holdings Samples.digest_nodes_down 500)) == 0)%Q.
Proof.
  split; [vm_compute; reflexivity|].
  apply (no_node_no_rewards Samples.digest_nodes_down 500).
  - repeat constructor.
  - repeat constructor; unfold Props.encodable; simpl; lia.
Defined.

Lemma snapshot_nonneg_witness :
  (0 <= Dashboard.total_holdings (Dashboard.load_holdings Samples.dashboard_run 500))%Q
  /\ (0 <= Telegram.total_holdings (Telegram.load_holdings Samples.digest_run 500))%Q.
Proof.
  destruct (snapshot_nonneg Samples.dashboard_run Samples.digest_run 500
              dashboard_run_nonneg digest_run_nonneg)
    as [(_ & _ & Hd) (_ & _ & Ht)].
  split; assumption.
Defined.

Lemma breakdown_adds_up_witness :
  (Py.sum (map Present.amount
             (Present.bd_df (Dashboard.load_holdings Samples.dashboard_run 500)
                330940 537202))
   == Dashboard.total_holdings_adj
        (Dashboard.load_holdings Samples.dashboard_run 500) 330940 537202)%Q.
Proof.
  destruct (breakdown_adds_up Samples.dashboard_run 500 330940 537202
              dashboard_run_nonneg) as [H _].
  - discriminate.
  - discriminate.
  - exact H.
Defined.

Lemma vesting_progress_in_range_witness :
  exists x,
    Present.vesting_progress (get_vesting_info Samples.inconsistent "c") = Some x
    /\ (0 <= x <= 1)%Q.
Proof.
  exists 1%Q. split; [reflexivity|].
  assert (Hnn : Spec.nonneg_replies Samples.inconsistent).
  { repeat split; intros a n H; try discriminate;
      injection H as <-; vm_compute; discriminate. }
  destruct (vesting_progress_in_range Samples.inconsistent "c" Hnn) as [H _].
  apply (H 1%Q). reflexivity.
Defined.

End MoreExamples.
